(** * Mission-Protocol.v2: the CMOS seeding and context-update scripts

    A shallow embedding of [scripts/seed-sprint-09.py] and
    [scripts/update-master-context.py].  Both scripts are straight-line
    Python over three external services: the [sqlite3] engine, the file
    system and the wall clock.  The scripts are embedded as programs of a
    small state-and-exception monad; the services are modelled by an
    explicit process state and an environment of oracles (clock readings,
    injected engine faults, an injected file fault). *)

From Stdlib Require Import List String Ascii ZArith Bool Arith Lia.
From Stdlib Require Import DecimalString.
Import ListNotations.

Local Open Scope list_scope.
Local Open Scope string_scope.

(** ** Text helpers *)

(** The line feed, written [\n] in the Python sources. *)
Definition LF : string := String (ascii_of_nat 10) EmptyString.

(** [str(n)] for an integer. *)
Definition str_of_Z (z : Z) : string := NilZero.string_of_int (Z.to_int z).

(** [str(n)] for a length. *)
Definition str_of_nat (n : nat) : string := str_of_Z (Z.of_nat n).

(** [sep.join(parts)]. *)
Fixpoint join (sep : string) (parts : list string) : string :=
  match parts with
  | [] => ""
  | [p] => p
  | p :: rest => p ++ sep ++ join sep rest
  end.

(** [' ' * n]. *)
Fixpoint spaces (n : nat) : string :=
  match n with
  | O => ""
  | S k => " " ++ spaces k
  end.

(** ASCII lower-casing of one character and of a string. *)
Definition lower_ascii (c : ascii) : ascii :=
  let n := nat_of_ascii c in
  if (65 <=? n)%nat && (n <=? 90)%nat then ascii_of_nat (n + 32) else c.

Fixpoint lower (s : string) : string :=
  match s with
  | EmptyString => EmptyString
  | String c r => String (lower_ascii c) (lower r)
  end.

(** [needle in hay]. *)
Fixpoint contains (needle hay : string) : bool :=
  if String.prefix needle hay then true
  else match hay with
       | EmptyString => false
       | String _ r => contains needle r
       end.

(** [needle.lower() in hay.lower()]. *)
Definition contains_ci (needle hay : string) : bool :=
  contains (lower needle) (lower hay).

(** The first [k] characters of a string. *)
Fixpoint take (k : nat) (s : string) : string :=
  match k, s with
  | S k', String c r => String c (take k' r)
  | _, _ => EmptyString
  end.

(** ** [json.dumps(obj, indent=2, ensure_ascii=False)] *)

Module Json.

(** The Python values the context document is built from.  A [dict] keeps
    its insertion order, so it is an association list. *)
#[local] Unset Elimination Schemes.
Inductive json : Type :=
| JNull
| JBool (b : bool)
| JInt (z : Z)
| JStr (s : string)
| JList (items : list json)
| JDict (items : list (string * json)).
#[local] Set Elimination Schemes.

Definition hex_digit (n : nat) : ascii :=
  if (n <? 10)%nat then ascii_of_nat (48 + n) else ascii_of_nat (87 + n).

(** The escape table of [json.encoder]: with [ensure_ascii=False] only the
    quote, the backslash and the control characters below 0x20 are
    replaced; every other byte passes through. *)
Definition escape_char (c : ascii) : string :=
  let n := nat_of_ascii c in
  if (n =? 34)%nat then "\" ++ String c ""
  else if (n =? 92)%nat then "\\"
  else if (n =? 10)%nat then "\n"
  else if (n =? 13)%nat then "\r"
  else if (n =? 9)%nat then "\t"
  else if (n =? 8)%nat then "\b"
  else if (n =? 12)%nat then "\f"
  else if (n <? 32)%nat
       then "\u00" ++ String (hex_digit (n / 16)) (String (hex_digit (n mod 16)) "")
  else String c "".

Fixpoint escape (s : string) : string :=
  match s with
  | EmptyString => EmptyString
  | String c r => escape_char c ++ escape r
  end.

Definition quote : string := String (ascii_of_nat 34) "".

Definition encode_basestring (s : string) : string := quote ++ escape s ++ quote.

(** A new line followed by the indentation of nesting depth [level]. *)
Definition newline_indent (indent level : nat) : string :=
  LF ++ spaces (indent * level).

(** The encoder of [json.dumps] with an [indent]: the item separator is a
    comma followed by the new line and indentation, the key separator is
    a colon and a space, empty containers print closed. *)
Fixpoint encode (indent level : nat) (o : json) : string :=
  match o with
  | JNull => "null"
  | JBool true => "true"
  | JBool false => "false"
  | JInt z => str_of_Z z
  | JStr s => encode_basestring s
  | JList [] => "[]"
  | JList items =>
      "[" ++ newline_indent indent (S level)
          ++ join ("," ++ newline_indent indent (S level))
                  (map (encode indent (S level)) items)
          ++ newline_indent indent level ++ "]"
  | JDict [] => "{}"
  | JDict items =>
      "{" ++ newline_indent indent (S level)
          ++ join ("," ++ newline_indent indent (S level))
                  (map (fun kv => encode_basestring (fst kv) ++ ": "
                                    ++ encode indent (S level) (snd kv))
                       items)
          ++ newline_indent indent level ++ "}"
  end.

(** [json.dumps(o, indent=2, ensure_ascii=False)]. *)
Definition dumps (o : json) : string := encode 2 0 o.

End Json.

(** ** [datetime] *)

Module Datetime.

(** An aware [datetime] in UTC, as [datetime.now(timezone.utc)] returns
    it.  The fields of a value of the Python type are in its ranges
    (year 1..9999, month 1..12 and so on). *)
Record datetime : Type := mkDatetime {
  year : nat;
  month : nat;
  day : nat;
  hour : nat;
  minute : nat;
  second : nat;
  microsecond : nat
}.

(** [str(n)] for a field: its decimal digits. *)
Definition decimal (n : nat) : string := NilZero.string_of_uint (Nat.to_uint n).

Fixpoint zeros (k : nat) : string :=
  match k with
  | O => ""
  | S k' => "0" ++ zeros k'
  end.

(** The conversion [%0wd]: the decimal digits of [n], with zeros in front
    up to the width [w] when there are fewer. *)
Definition zfill (w n : nat) : string :=
  zeros (w - String.length (decimal n)) ++ decimal n.

(** [dt.strftime("%Y%m%d_%H%M%S")].  The C library prints [%Y] as the
    digits of the year, without padding (a year below 1000 has fewer than
    four digits), and the other fields on two digits. *)
Definition strftime_compact (dt : datetime) : string :=
  decimal (year dt) ++ zfill 2 (month dt) ++ zfill 2 (day dt) ++ "_"
    ++ zfill 2 (hour dt) ++ zfill 2 (minute dt) ++ zfill 2 (second dt).

(** [dt.isoformat()] of an aware UTC datetime, built by Python itself
    with [%04d-%02d-%02dT%02d:%02d:%02d]: the fraction is printed only
    when the microsecond field is not zero. *)
Definition isoformat (dt : datetime) : string :=
  zfill 4 (year dt) ++ "-" ++ zfill 2 (month dt) ++ "-" ++ zfill 2 (day dt) ++ "T"
    ++ zfill 2 (hour dt) ++ ":" ++ zfill 2 (minute dt) ++ ":" ++ zfill 2 (second dt)
    ++ (if (microsecond dt =? 0)%nat then "" else "." ++ zfill 6 (microsecond dt))
    ++ "+00:00".

End Datetime.

(** ** The store: tables, rows and the statements the scripts issue *)

Module Sqlite.

Record sprint_row : Type := mkSprintRow {
  sp_id : string;
  sp_title : string;
  sp_focus : string;
  sp_status : string;
  sp_start_date : string;
  sp_end_date : string;
  sp_total_missions : Z;
  sp_completed_missions : Z
}.

Record mission_row : Type := mkMissionRow {
  mi_id : string;
  mi_sprint_id : string;
  mi_name : string;
  mi_status : string;
  mi_notes : string
}.

Record context_row : Type := mkContextRow {
  cx_id : string;
  cx_source_path : string;
  cx_content : string;
  cx_updated_at : string
}.

Record snapshot_row : Type := mkSnapshotRow {
  sn_id : Z;
  sn_context_id : string;
  sn_session_id : string;
  sn_source : string;
  sn_content_hash : string;
  sn_content : string;
  sn_created_at : string
}.

(** Modelled from the spec: the schema of [cmos/db/cmos.sqlite], which no
    source file declares.  Its shape is the one of the spec's section 6:
    [sprints(id PK, ...)], [missions(id PK, sprint_id FK -> sprints.id, ...)],
    [contexts(id PK, ...)] and [context_snapshots(id PK autogen, ...)].
    A table that was never created is [None] (a store file without its
    schema, or a store file that did not exist before the connection). *)
Record db : Type := mkDb {
  tbl_sprints : option (list sprint_row);
  tbl_missions : option (list mission_row);
  tbl_contexts : option (list context_row);
  tbl_context_snapshots : option (list snapshot_row)
}.

Definition rows {A : Type} (t : option (list A)) : list A :=
  match t with
  | Some l => l
  | None => []
  end.

Definition set_sprints (l : list sprint_row) (d : db) : db :=
  mkDb (Some l) (tbl_missions d) (tbl_contexts d) (tbl_context_snapshots d).

Definition set_missions (l : list mission_row) (d : db) : db :=
  mkDb (tbl_sprints d) (Some l) (tbl_contexts d) (tbl_context_snapshots d).

Definition set_contexts (l : list context_row) (d : db) : db :=
  mkDb (tbl_sprints d) (tbl_missions d) (Some l) (tbl_context_snapshots d).

Definition set_context_snapshots (l : list snapshot_row) (d : db) : db :=
  mkDb (tbl_sprints d) (tbl_missions d) (tbl_contexts d) (Some l).

(** The statements of the two scripts, with their bound parameters. *)
Inductive stmt : Type :=
| InsertSprint (r : sprint_row)
| InsertMission (r : mission_row)
| SelectContextId (id : string)
| UpdateContext (content updated_at id : string)
| InsertContext (r : context_row)
| InsertSnapshot (context_id session_id source content_hash content created_at : string).

Definition has_sprint (id : string) (l : list sprint_row) : bool :=
  existsb (fun r => String.eqb (sp_id r) id) l.

Definition has_mission (id : string) (l : list mission_row) : bool :=
  existsb (fun r => String.eqb (mi_id r) id) l.

Definition has_context (id : string) (l : list context_row) : bool :=
  existsb (fun r => String.eqb (cx_id r) id) l.

(** The keys of [context_snapshots] are generated by the engine.  They
    are signed 64-bit integers. *)
Definition max_rowid : Z := 9223372036854775807.
Definition min_rowid : Z := (- 9223372036854775808)%Z.

(** The key for a new row of a table holding the keys [keys].  Which key
    the engine takes depends on how the table was declared and on what
    was deleted from it before, so the choice is left to the environment:
    [pick keys] is the key the engine comes up with, if any.  The engine
    gives up when it comes up with none, or with one that is out of range
    or taken. *)
Definition allocate (pick : list Z -> option Z) (keys : list Z) : option Z :=
  match pick keys with
  | Some k =>
      if (min_rowid <=? k)%Z && (k <=? max_rowid)%Z && negb (existsb (Z.eqb k) keys)
      then Some k
      else None
  | None => None
  end.

(** The engine's rule for a table declared with [AUTOINCREMENT] that
    never lost a row: 1 in an empty table, otherwise one more than the
    largest key, also when that key is negative, and no key when the
    largest key is the largest integer.  A table declared without
    [AUTOINCREMENT] follows the same rule below the largest integer, and
    tries keys at random when it is reached; a table that lost rows may
    remember their keys.  Those are other choices of [pick]. *)
Definition rowid_after_largest (keys : list Z) : option Z :=
  match keys with
  | [] => Some 1%Z
  | k :: rest =>
      let largest := fold_right Z.max k rest in
      if (largest <? max_rowid)%Z then Some (largest + 1)%Z else None
  end.

Definition update_context (content updated_at id : string) (r : context_row) : context_row :=
  if String.eqb (cx_id r) id
  then mkContextRow (cx_id r) (cx_source_path r) content updated_at
  else r.

(** One statement against a database: an error message, or the database
    after the statement together with the result set (the selected [id]
    column; empty for a statement that writes).  A failed statement leaves
    the database as it was.  Keys are compared as the engine compares
    text, byte by byte.  [fk] says whether foreign keys are enforced on
    the connection (the engine's default is that they are not); [pick]
    is the engine's choice of generated keys. *)
Definition exec_stmt (fk : bool) (pick : list Z -> option Z) (q : stmt) (d : db) :
  string + (db * list string) :=
  match q with
  | InsertSprint r =>
      match tbl_sprints d with
      | None => inl "no such table: sprints"
      | Some l =>
          if has_sprint (sp_id r) l then inl "UNIQUE constraint failed: sprints.id"
          else inr (set_sprints (l ++ [r])%list d, [])
      end
  | InsertMission r =>
      match tbl_missions d with
      | None => inl "no such table: missions"
      | Some l =>
          if has_mission (mi_id r) l then inl "UNIQUE constraint failed: missions.id"
          else if fk
               then match tbl_sprints d with
                    | None => inl "no such table: main.sprints"
                    | Some parents =>
                        if has_sprint (mi_sprint_id r) parents
                        then inr (set_missions (l ++ [r])%list d, [])
                        else inl "FOREIGN KEY constraint failed"
                    end
          else inr (set_missions (l ++ [r])%list d, [])
      end
  | SelectContextId id =>
      match tbl_contexts d with
      | None => inl "no such table: contexts"
      | Some l => inr (d, map cx_id (filter (fun r => String.eqb (cx_id r) id) l))
      end
  | UpdateContext content updated_at id =>
      match tbl_contexts d with
      | None => inl "no such table: contexts"
      | Some l => inr (set_contexts (map (update_context content updated_at id) l) d, [])
      end
  | InsertContext r =>
      match tbl_contexts d with
      | None => inl "no such table: contexts"
      | Some l =>
          if has_context (cx_id r) l then inl "UNIQUE constraint failed: contexts.id"
          else inr (set_contexts (l ++ [r])%list d, [])
      end
  | InsertSnapshot context_id session_id source content_hash content created_at =>
      match tbl_context_snapshots d with
      | None => inl "no such table: context_snapshots"
      | Some l =>
          match allocate pick (map sn_id l) with
          | None => inl "database or disk is full"
          | Some k =>
              inr (set_context_snapshots
                     (l ++ [mkSnapshotRow k context_id session_id source
                                          content_hash content created_at])%list d, [])
          end
      end
  end.

(** A connection: the database as the connection sees it, with the
    writes of its open transaction, and whether it was closed.  The
    [sqlite3] module opens a transaction before the first writing
    statement; [commit] makes the writes durable, [close] without a commit
    drops them. *)
Record connection : Type := mkConnection {
  working : db;
  closed : bool
}.

(** What the engine did, in order. *)
Inductive event : Type :=
| EvOpen
| EvError (msg : string)
| EvCommit
| EvClose.

End Sqlite.

(** ** The process: state, environment and the monad of the scripts *)

Import Sqlite.

(** The exceptions the scripts can meet.  [sqlite3.Error] stands for the
    whole family ([IntegrityError], [OperationalError], ...): the handler
    of the scripts catches the base class. *)
Inductive exn : Type :=
| SqliteError (msg : string)
| SystemExit (code : Z)
| UnboundLocalError (name : string)
| OSError (msg : string).

Inductive res (A : Type) : Type :=
| Ok (a : A)
| Raise (e : exn).
Arguments Ok {A} a.
Arguments Raise {A} e.

(** How [Path.write_text] can fail: before the file is opened (it keeps
    its content), or while writing (it holds the characters written so
    far). *)
Inductive file_fault : Type :=
| OpenFails (msg : string)
| WriteFails (written : nat) (msg : string).

(** The environment of one run.  [clock k] is the [k]-th reading of
    [datetime.now(timezone.utc)]; [engine_fault k] is the error, if any,
    with which the engine answers the [k]-th call made to it (an
    unwritable file, a locked or corrupt database, a full disk);
    [foreign_keys] is the connection's foreign-key setting;
    [pick_rowid] is the engine's choice of generated keys. *)
Record env : Type := mkEnv {
  clock : nat -> Datetime.datetime;
  engine_fault : nat -> option string;
  write_fault : option file_fault;
  foreign_keys : bool;
  pick_rowid : list Z -> option Z
}.

(** The state of a run: the durable store and file, what was printed, the
    connection object of the engine, whether the local [conn] is bound,
    the calls and clock readings made so far, and the engine's events. *)
Record state : Type := mkState {
  st_store : db;
  st_file : option string;
  st_stdout : list string;
  st_engine : option connection;
  st_conn_bound : bool;
  st_ops : nat;
  st_ticks : nat;
  st_trace : list event
}.

Definition set_store (d : db) (s : state) : state :=
  mkState d (st_file s) (st_stdout s) (st_engine s) (st_conn_bound s)
          (st_ops s) (st_ticks s) (st_trace s).

Definition set_file (f : option string) (s : state) : state :=
  mkState (st_store s) f (st_stdout s) (st_engine s) (st_conn_bound s)
          (st_ops s) (st_ticks s) (st_trace s).

Definition add_stdout (line : string) (s : state) : state :=
  mkState (st_store s) (st_file s) (st_stdout s ++ [line])%list (st_engine s)
          (st_conn_bound s) (st_ops s) (st_ticks s) (st_trace s).

Definition set_engine (c : option connection) (s : state) : state :=
  mkState (st_store s) (st_file s) (st_stdout s) c (st_conn_bound s)
          (st_ops s) (st_ticks s) (st_trace s).

Definition set_conn_bound (b : bool) (s : state) : state :=
  mkState (st_store s) (st_file s) (st_stdout s) (st_engine s) b
          (st_ops s) (st_ticks s) (st_trace s).

Definition bump_ops (s : state) : state :=
  mkState (st_store s) (st_file s) (st_stdout s) (st_engine s) (st_conn_bound s)
          (S (st_ops s)) (st_ticks s) (st_trace s).

Definition bump_ticks (s : state) : state :=
  mkState (st_store s) (st_file s) (st_stdout s) (st_engine s) (st_conn_bound s)
          (st_ops s) (S (st_ticks s)) (st_trace s).

Definition log (ev : event) (s : state) : state :=
  mkState (st_store s) (st_file s) (st_stdout s) (st_engine s) (st_conn_bound s)
          (st_ops s) (st_ticks s) (st_trace s ++ [ev])%list.

Definition M (A : Type) : Type := env -> state -> state * res A.

Definition ret {A : Type} (a : A) : M A := fun _ s => (s, Ok a).

Definition bind {A B : Type} (m : M A) (f : A -> M B) : M B :=
  fun e s =>
    match m e s with
    | (s1, Ok a) => f a e s1
    | (s1, Raise x) => (s1, Raise x)
    end.

Definition raise {A : Type} (x : exn) : M A := fun _ s => (s, Raise x).

Declare Scope py_scope.
Delimit Scope py_scope with py.
Notation "x <- m ;; k" := (bind m (fun x => k))
  (at level 61, m at next level, right associativity) : py_scope.
Notation "m ;; k" := (bind m (fun _ => k))
  (at level 61, right associativity) : py_scope.
Local Open Scope py_scope.

(** [for x in xs: body(x)]. *)
Fixpoint for_each {A : Type} (xs : list A) (body : A -> M unit) : M unit :=
  match xs with
  | [] => ret tt
  | x :: rest => body x ;; for_each rest body
  end.

(** [try: body / except sqlite3.Error as e: handler(e) / finally: fin].
    The handler runs for a [sqlite3.Error] only; the [finally] clause runs
    on every path, and an exception it raises replaces the pending one. *)
Definition try_except_finally (body : M unit) (handler : string -> M unit)
           (fin : M unit) : M unit :=
  fun e s =>
    let (s1, r1) := body e s in
    let (s2, r2) := match r1 with
                    | Raise (SqliteError msg) => handler msg e s1
                    | _ => (s1, r1)
                    end in
    let (s3, r3) := fin e s2 in
    match r3 with
    | Ok _ => (s3, r2)
    | Raise x => (s3, Raise x)
    end.

(** [print(line)]: one more entry of the standard output. *)
Definition print (line : string) : M unit := fun _ s => (add_stdout line s, Ok tt).

(** [sys.exit(code)]. *)
Definition sys_exit (code : Z) : M unit := raise (SystemExit code).

(** [datetime.now(timezone.utc)]: the next reading of the clock. *)
Definition datetime_now_utc : M Datetime.datetime :=
  fun e s => (bump_ticks s, Ok (clock e (st_ticks s))).

(** [path.write_text(text, encoding="utf-8")] on the context file: the
    file is replaced by the text (strings are byte strings here, the
    UTF-8 encoding of the Python text, on a platform whose line
    separator is the line feed). *)
Definition write_text (text : string) : M unit :=
  fun e s =>
    match write_fault e with
    | None => (set_file (Some text) s, Ok tt)
    | Some (OpenFails msg) => (s, Raise (OSError msg))
    | Some (WriteFails k msg) => (set_file (Some (take k text)) s, Raise (OSError msg))
    end.

(** The engine raising [sqlite3.Error(msg)]. *)
Definition sqlite3_raise {A : Type} (msg : string) : M A :=
  fun _ s => (log (EvError msg) s, Raise (SqliteError msg)).

(** A call into the engine: it is counted, and the environment may make
    it fail before it has any effect. *)
Definition engine_call {A : Type} (op : M A) : M A :=
  fun e s =>
    match engine_fault e (st_ops s) with
    | Some msg => sqlite3_raise msg e (bump_ops s)
    | None => op e (bump_ops s)
    end.

(** [sqlite3.connect(DB_PATH)]: a connection that sees the durable store. *)
Definition sqlite3_connect : M unit :=
  engine_call (fun _ s =>
    (log EvOpen (set_engine (Some (mkConnection (st_store s) false)) s), Ok tt)).

(** The assignment [conn = ...] of the value just computed. *)
Definition assign_conn : M unit := fun _ s => (set_conn_bound true s, Ok tt).

(** Reading the local [conn] in [if conn:]: an unbound local raises; a
    connection object is always true. *)
Definition conn_truth : M bool :=
  fun _ s =>
    if st_conn_bound s then (s, Ok true)
    else (s, Raise (UnboundLocalError "conn")).

(** [conn.cursor()]. *)
Definition conn_cursor : M unit := engine_call (ret tt).

(** [cursor.execute(q, params)], returning the result set the cursor then
    holds. *)
Definition cursor_execute (q : stmt) : M (list string) :=
  engine_call (fun e s =>
    match st_engine s with
    | Some c =>
        if closed c then sqlite3_raise "Cannot operate on a closed database." e s
        else match exec_stmt (foreign_keys e) (pick_rowid e) q (working c) with
             | inl msg => sqlite3_raise msg e s
             | inr (d, rs) => (set_engine (Some (mkConnection d false)) s, Ok rs)
             end
    | None => sqlite3_raise "Cannot operate on a closed database." e s
    end).

(** [cursor.fetchone()] on a result set: its first row, or [None]. *)
Definition fetchone (rs : list string) : option string := hd_error rs.

(** [conn.commit()]: the writes of the connection become durable. *)
Definition conn_commit : M unit :=
  engine_call (fun e s =>
    match st_engine s with
    | Some c =>
        if closed c then sqlite3_raise "Cannot operate on a closed database." e s
        else (log EvCommit (set_store (working c) s), Ok tt)
    | None => sqlite3_raise "Cannot operate on a closed database." e s
    end).

(** [conn.close()]: the connection is released; writes that were not
    committed are dropped with it. *)
Definition conn_close : M unit :=
  fun _ s =>
    match st_engine s with
    | Some c => (log EvClose (set_engine (Some (mkConnection (working c) true)) s), Ok tt)
    | None => (s, Ok tt)
    end.

(** The two clauses that close the [try] statement of both scripts, word
    for word the same in each:
    [except sqlite3.Error as e: print(f"❌ Database error: {e}"); sys.exit(1)]
    and [finally: if conn: conn.close()]. *)
Definition error_line (msg : string) : string := "❌ Database error: " ++ msg.

Definition on_sqlite_error (e : string) : M unit :=
  print (error_line e) ;;
  sys_exit 1.

Definition release_conn : M unit :=
  c <- conn_truth ;;
  if c then conn_close else ret tt.

(** The durable world a run starts from and leaves behind. *)
Record world : Type := mkWorld {
  store : db;
  file : option string
}.

(** A fresh interpreter on a world: nothing printed, no connection, the
    locals unbound. *)
Definition boot (w : world) : state :=
  mkState (store w) (file w) [] None false 0 0 [].

Definition world_of (s : state) : world := mkWorld (st_store s) (st_file s).

(** The exit status of the interpreter: 0 when the script runs to its
    end, the code of [sys.exit], 1 for any other uncaught exception. *)
Definition exit_status (r : res unit) : Z :=
  match r with
  | Ok _ => 0
  | Raise (SystemExit code) => code
  | Raise _ => 1
  end.

(** Whether the run still holds an open connection. *)
Definition connection_open (s : state) : bool :=
  match st_engine s with
  | Some c => negb (closed c)
  | None => false
  end.

(** Running a script as a process. *)
Definition run (main : M unit) (e : env) (w : world) : state * Z :=
  let (s, r) := main e (boot w) in (s, exit_status r).

(** ** [scripts/seed-sprint-09.py] *)

Module SeedSprint09.

(** The [sprint_data] dictionary and the dictionaries of [missions]: their
    keys are fixed, so they are records. *)
Record sprint_dict : Type := mkSprintDict {
  sd_id : string;
  sd_title : string;
  sd_focus : string;
  sd_status : string;
  sd_start_date : string;
  sd_end_date : string;
  sd_total_missions : Z;
  sd_completed_missions : Z
}.

Record mission_dict : Type := mkMissionDict {
  md_id : string;
  md_name : string;
  md_status : string;
  md_notes : string
}.

Definition sprint_data : sprint_dict :=
  {| sd_id := "sprint-09";
     sd_title := "CMOS Integration & Self-Containment";
     sd_focus := "Make Mission Protocol work standalone with optional CMOS integration";
     sd_status := "planning";
     sd_start_date := "2025-11-08";
     sd_end_date := "2025-11-29";
     sd_total_missions := 8;
     sd_completed_missions := 0 |}.

Definition missions : list mission_dict :=
  [
    {| md_id := "s09-m01";
       md_name := "Phase 1: Update Default Paths to Project Root";
       md_status := "queued";
       md_notes := "Change DEFAULT_STATE_PATH from cmos/context/agentic_state.json to agentic_state.json. Change DEFAULT_SESSIONS_PATH from cmos/SESSIONS.jsonl to SESSIONS.jsonl. Update all path references in agentic-controller.ts. Move existing files from cmos/ to project root. Verify all tests pass." |};
    {| md_id := "s09-m02";
       md_name := "Phase 2: Test Standalone Operation Without cmos/";
       md_status := "queued";
       md_notes := "Hide cmos/ directory and verify all tests pass. Ensure Mission State Manager creates default files when they don't exist. Test mission execution workflow. Verify graceful handling of missing cmos/ directory. Document any remaining hard dependencies." |};
    {| md_id := "s09-m03";
       md_name := "Phase 3: Create CMOS Detector Utility";
       md_status := "queued";
       md_notes := "Create src/intelligence/cmos-detector.ts. Implement runtime detection of cmos/ directory presence. Add detection of SQLite database availability. Create singleton pattern for detector. Add caching to avoid repeated file system checks. Write unit tests for detection logic." |};
    {| md_id := "s09-m04";
       md_name := "Phase 4: Integrate CMOS Detection into Agentic Controller";
       md_status := "queued";
       md_notes := "Add CMOS detector to AgenticController constructor. Log detection status on initialization. Add configuration options for CMOS integration. Update constructor options to accept detector instance. Write integration tests with and without cmos/." |};
    {| md_id := "s09-m05";
       md_name := "Phase 5: Create SQLite Client for CMOS (Optional)";
       md_status := "queued";
       md_notes := "Create src/intelligence/sqlite-client.ts. Implement basic CRUD operations for missions table. Add session event logging methods. Create TypeScript types for SQLite schema. Add connection pooling and error handling. Make this an optional dependency." |};
    {| md_id := "s09-m06";
       md_name := "Phase 6: Create CMOS Sync Service (Optional)";
       md_status := "queued";
       md_notes := "Create src/intelligence/cmos-sync.ts. Implement bidirectional sync between files and SQLite. Add session event sync from Mission Protocol to CMOS. Create context sync methods. Add configuration for sync direction and frequency. Implement graceful degradation if sync fails." |};
    {| md_id := "s09-m07";
       md_name := "Phase 7: Integrate Optional Sync into Mission Lifecycle";
       md_status := "queued";
       md_notes := "Add sync calls to mission start/complete methods. Sync session events after each mission event. Add sync configuration to agents.md playbook. Make sync failures non-blocking. Add telemetry for sync operations. Test with sync enabled and disabled." |};
    {| md_id := "s09-m08";
       md_name := "Phase 8: Documentation and Final Validation";
       md_status := "queued";
       md_notes := "Update agents.md with CMOS integration configuration. Document standalone vs CMOS-integrated modes. Create migration guide for existing projects. Update README.md with architecture explanation. Final validation: remove cmos/ and verify everything works. Performance testing with and without CMOS." |}
  ].

(** The parameter tuples of the two [INSERT] statements. *)
Definition sprint_params (sprint_data : sprint_dict) : sprint_row :=
  mkSprintRow (sd_id sprint_data) (sd_title sprint_data) (sd_focus sprint_data)
              (sd_status sprint_data) (sd_start_date sprint_data)
              (sd_end_date sprint_data) (sd_total_missions sprint_data)
              (sd_completed_missions sprint_data).

Definition mission_params (sprint_data : sprint_dict) (mission : mission_dict) : mission_row :=
  mkMissionRow (md_id mission) (sd_id sprint_data) (md_name mission)
               (md_status mission) (md_notes mission).

(** The [try] statement of [seed_sprint_09], over its two locals. *)
Definition seed_try (sprint_data : sprint_dict) (missions : list mission_dict) : M unit :=
  try_except_finally
    (sqlite3_connect ;; assign_conn ;;
     conn_cursor ;;
     cursor_execute (InsertSprint (sprint_params sprint_data)) ;;
     for_each missions (fun mission =>
       cursor_execute (InsertMission (mission_params sprint_data mission)) ;;
       ret tt) ;;
     conn_commit ;;
     print ("✅ Successfully seeded Sprint " ++ sd_id sprint_data ++ ": "
              ++ sd_title sprint_data) ;;
     print ("✅ Inserted " ++ str_of_nat (List.length missions) ++ " missions"))
    on_sqlite_error
    release_conn.

Definition seed_sprint_09 : M unit := seed_try sprint_data missions.

(** The script: [if __name__ == "__main__": seed_sprint_09()]. *)
Definition main : M unit := seed_sprint_09.

End SeedSprint09.

(** ** [scripts/update-master-context.py] *)

Module UpdateMasterContext.

Import Json.

(** [str(MASTER_CONTEXT_PATH)]. *)
Definition MASTER_CONTEXT_PATH : string := "cmos/context/MASTER_CONTEXT.json".

Definition context_data : json :=
  JDict [
    ("project", JDict [
      ("name", JStr "CMOS Starter Template");
      ("version", JStr "0.0.0");
      ("description", JStr "Updated with Mission Protocol CMOS integration analysis - Nov 2025");
      ("status", JStr "active_development");
      ("start_date", JStr "2025-11-07");
      ("deployment", JDict [
        ("platform", JStr "Local/Node.js");
        ("integration_target", JStr "Mission Protocol v2 with optional CMOS support");
        ("environment", JStr "development") ]) ]);
    ("working_memory", JDict [
      ("active_domain", JStr "cmos_integration");
      ("session_count", JInt 1);
      ("last_session", JStr "2025-11-07T22:30:00Z");
      ("agents_md_path", JStr "./agents.md");
      ("agents_md_loaded", JBool true);
      ("active_mission", JStr "cmos_integration_planning");
      ("domains", JDict [
        ("cmos_integration", JDict [
          ("status", JStr "analysis_complete");
          ("priority", JInt 1);
          ("current_mission", JStr "sprint-09-planning");
          ("missions", JDict [
            ("sprint-09", JDict [
              ("id", JStr "sprint-09");
              ("title", JStr "CMOS Integration & Self-Containment");
              ("status", JStr "planned");
              ("total_missions", JInt 8);
              ("focus", JStr "Make Mission Protocol work standalone with optional CMOS integration") ]) ]);
          ("critical_facts", JList [
            JStr "Mission Protocol must work standalone without cmos/ directory";
            JStr "CMOS is internal project management and will be removed before publishing";
            JStr "Integration must be optional and non-breaking";
            JStr "Default paths must move from cmos/ subdirectory to project root";
            JStr "CMOS detection must be runtime-based with graceful degradation" ]);
          ("constraints", JList [
            JStr "Cannot assume cmos/ directory exists";
            JStr "All hardcoded cmos/ paths must be removed";
            JStr "Sync operations must be non-blocking";
            JStr "Must maintain backward compatibility";
            JStr "Performance impact must be < 2%" ]);
          ("decisions_made", JList [
            JStr "Mission Protocol will use file-based storage by default (project root)";
            JStr "CMOS SQLite integration will be optional enhancement";
            JStr "Created 8-mission sprint to implement changes incrementally";
            JStr "Phased approach: self-containment → detection → optional sync";
            JStr "Dual-write strategy for migration period" ]);
          ("files_created", JList [
            JStr "analysis/cmos-integration-gap-analysis.md";
            JStr "analysis/integration-architecture-plan.md";
            JStr "analysis/migration-path.md";
            JStr "scripts/seed-sprint-09.py" ]);
          ("key_insights", JList [
            JStr "Original analysis incorrectly assumed tight coupling";
            JStr "Revised approach focuses on loose, optional integration";
            JStr "CMOS detection must not impact performance when absent";
            JStr "Sync service must be completely optional" ]) ]) ]) ]);
    ("technical_context", JDict [
      ("dependencies", JList [
        JStr "Node.js 18+";
        JStr "TypeScript 5+";
        JStr "Python 3.11+ (for CMOS only)";
        JStr "SQLite 3+ (optional)" ]);
      ("tooling", JDict [
        ("seed_database", JStr "python scripts/seed_sqlite.py --data-root <path>");
        ("validate_parity", JStr "python scripts/validate_parity.py");
        ("update_context", JStr "python scripts/update-master-context.py") ]);
      ("reference_docs", JList [
        JStr "analysis/cmos-integration-gap-analysis.md";
        JStr "analysis/integration-architecture-plan.md";
        JStr "analysis/migration-path.md" ]);
      ("integration_points", JList [
        JStr "Optional CMOS detection in Mission Protocol";
        JStr "Optional sync service for data sharing";
        JStr "File-based storage with SQLite as secondary" ]) ]);
    ("sprint_tracking", JDict [
      ("current_sprint", JStr "sprint-09");
      ("sprint_start", JStr "2025-11-08");
      ("sprint_end", JStr "2025-11-29");
      ("sprint_status", JStr "planning") ]);
    ("context_health", JDict [
      ("anti_pattern_detection", JBool true);
      ("compression_enabled", JBool false);
      ("last_reset", JStr "2025-11-07T22:30:00Z");
      ("sessions_since_reset", JInt 1);
      ("size_kb", JInt 0);
      ("size_limit_kb", JInt 100) ]);
    ("ai_instructions", JDict [
      ("preferred_language", JStr "yaml");
      ("code_style", JStr "mission_protocol_v2");
      ("testing_required", JBool true);
      ("documentation_level", JStr "comprehensive");
      ("special_instructions", JList [
        JStr "Always check for cmos/ directory existence before assuming it's present";
        JStr "Use configurable paths instead of hardcoded cmos/ paths";
        JStr "Implement graceful degradation for all CMOS-dependent features";
        JStr "Maintain backward compatibility at all times";
        JStr "Document optional vs required features clearly" ]) ]);
    ("next_session_context", JDict [
      ("blockers", JList []);
      ("important_reminders", JList [
        JStr "Start with Phase 1 missions (s09-m01, s09-m02) to establish self-containment";
        JStr "Verify all tests pass without cmos/ before proceeding to detection phase";
        JStr "Keep sync service completely optional and non-blocking";
        JStr "Update documentation after each phase" ]);
      ("key_reference_documents", JList [
        JStr "analysis/cmos-integration-gap-analysis.md";
        JStr "analysis/integration-architecture-plan.md";
        JStr "analysis/migration-path.md" ]);
      ("when_we_resume", JList [
        JStr "Begin implementation of s09-m01: Update default paths";
        JStr "Test standalone operation after each change";
        JStr "Create CMOS detector utility (s09-m03)";
        JStr "Integrate detection into AgenticController (s09-m04)" ]) ]);
    ("metadata", JDict [
      ("migrated_at", JStr "2025-11-06T05:09:02.870476+00:00");
      ("source_version", JStr "cmos-v1");
      ("last_updated", JStr "2025-11-07T22:30:00Z");
      ("session_summary", JStr "Completed comprehensive analysis of Mission Protocol and CMOS integration. Created 3 analysis documents, 8-mission sprint plan, and seeded database. Established correct architecture: Mission Protocol standalone with optional CMOS integration.") ]) ].

Definition create_master_context_update : M json :=
  write_text (dumps context_data) ;;
  print ("✅ Updated MASTER_CONTEXT.json at " ++ MASTER_CONTEXT_PATH) ;;
  ret context_data.

Definition create_context_snapshot (context_data : json) : M unit :=
  try_except_finally
    (sqlite3_connect ;; assign_conn ;;
     conn_cursor ;;
     result <- cursor_execute (SelectContextId "master_context") ;;
     let exists_ := fetchone result in
     match exists_ with
     | Some _ =>
         updated_at <- datetime_now_utc ;;
         cursor_execute (UpdateContext (dumps context_data)
                                       (Datetime.isoformat updated_at)
                                       "master_context") ;;
         print "✅ Updated existing master_context record"
     | None =>
         updated_at <- datetime_now_utc ;;
         cursor_execute (InsertContext
                           (mkContextRow "master_context" MASTER_CONTEXT_PATH
                                         (dumps context_data)
                                         (Datetime.isoformat updated_at))) ;;
         print "✅ Created new master_context record"
     end ;;
     hash_time <- datetime_now_utc ;;
     created_at <- datetime_now_utc ;;
     cursor_execute (InsertSnapshot
                       "master_context"
                       "session-2025-11-07-cmos-analysis"
                       MASTER_CONTEXT_PATH
                       ("snapshot_" ++ Datetime.strftime_compact hash_time)
                       (dumps context_data)
                       (Datetime.isoformat created_at)) ;;
     conn_commit ;;
     print "✅ Created context snapshot in SQLite")
    on_sqlite_error
    release_conn.

(** The script body under [if __name__ == "__main__":]. *)
Definition main : M unit :=
  print "Updating MASTER_CONTEXT.json with session findings..." ;;
  context_data <- create_master_context_update ;;
  print (LF ++ "Creating context snapshot in SQLite...") ;;
  create_context_snapshot context_data ;;
  print (LF ++ "✅ Master context update complete!") ;;
  print "   - MASTER_CONTEXT.json updated" ;;
  print "   - SQLite context record updated" ;;
  print "   - Context snapshot created" ;;
  print (LF ++ "Key session outcomes captured:") ;;
  print "   - Mission Protocol must work standalone" ;;
  print "   - CMOS integration is optional" ;;
  print "   - Sprint 09 created with 8 missions" ;;
  print "   - Analysis documents created in analysis/ directory".

End UpdateMasterContext.

(** ** Vocabulary of the statements *)

(** The weakest precondition of a program: [Q] holds of a returned value
    and the state then, [X] of a raised exception and the state then. *)
Definition wp {A : Type} (m : M A) (e : env)
           (Q : A -> state -> Prop) (X : exn -> state -> Prop) (s : state) : Prop :=
  match m e s with
  | (s', Ok a) => Q a s'
  | (s', Raise x) => X x s'
  end.

(** What is left to run, in a [try] statement closed by the two shared
    clauses, once the body has raised [x]: [R] is what the whole
    statement must establish. *)
Definition after_raise (e : env) (R : state * res unit -> Prop) (x : exn) (s : state) : Prop :=
  match x with
  | SqliteError msg =>
      wp (on_sqlite_error msg) e
         (fun u s2 => wp release_conn e (fun _ s3 => R (s3, Ok u))
                         (fun x3 s3 => R (s3, Raise x3)) s2)
         (fun x2 s2 => wp release_conn e (fun _ s3 => R (s3, Raise x2))
                          (fun x3 s3 => R (s3, Raise x3)) s2)
         s
  | _ => wp release_conn e (fun _ s3 => R (s3, Raise x)) (fun x3 s3 => R (s3, Raise x3)) s
  end.

(** And once the body has returned. *)
Definition after_return (e : env) (R : state * res unit -> Prop) (u : unit) (s : state) : Prop :=
  wp release_conn e (fun _ s3 => R (s3, Ok u)) (fun x3 s3 => R (s3, Raise x3)) s.

(** A state inside the body of the [try], reached from [s] after the
    connection was opened and bound and before the commit: nothing
    durable has changed. *)
Record in_body (s s1 : state) : Prop := mkInBody {
  ib_store : st_store s1 = st_store s;
  ib_file : st_file s1 = st_file s;
  ib_bound : st_conn_bound s1 = true;
  ib_engine : exists d, st_engine s1 = Some (mkConnection d false);
  ib_trace : st_trace s1 = (st_trace s ++ [EvOpen])%list;
  ib_stdout : exists pre, st_stdout s1 = (st_stdout s ++ pre)%list
}.

(** Some call of the run was answered with the injected fault [msg]. *)
Definition engine_faulted (e : env) (msg : string) : Prop :=
  exists k, engine_fault e k = Some msg.

(** The two ways the [try] statement of either script fails, started in
    [s]: the connection could not be opened (nothing to release, and the
    [finally] clause trips over the unbound [conn]), or a later call
    failed (the connection is closed, the script exits with status 1),
    because of an injected fault or because a statement was refused for
    the reason [cause].  Either way the error was printed and nothing
    durable changed. *)
Inductive db_failed (e : env) (cause : string -> Prop) (s : state) :
  state * res unit -> Prop :=
| failed_at_connect (msg : string) (s' : state) :
    engine_fault e (st_ops s) = Some msg ->
    st_store s' = st_store s ->
    st_file s' = st_file s ->
    st_trace s' = (st_trace s ++ [EvError msg])%list ->
    st_stdout s' = (st_stdout s ++ [error_line msg])%list ->
    st_engine s' = st_engine s ->
    db_failed e cause s (s', Raise (UnboundLocalError "conn"))
| failed_in_body (msg : string) (pre : list string) (c : connection) (s' : state) :
    engine_faulted e msg \/ cause msg ->
    st_store s' = st_store s ->
    st_file s' = st_file s ->
    st_trace s' = (st_trace s ++ [EvOpen; EvError msg; EvClose])%list ->
    st_stdout s' = ((st_stdout s ++ pre) ++ [error_line msg])%list ->
    st_engine s' = Some c ->
    closed c = true ->
    db_failed e cause s (s', Raise (SystemExit 1)).

(** The [contexts] table after the updater's insert-or-update. *)
Definition upsert_master (content updated_at : string) (l : list context_row) : list context_row :=
  if has_context "master_context" l
  then map (update_context content updated_at "master_context") l
  else (l ++ [mkContextRow "master_context" UpdateMasterContext.MASTER_CONTEXT_PATH
                           content updated_at])%list.

(** The snapshot row a run appends under the generated key [k], when the
    clock stood at reading [t] on entry: the insert-or-update takes
    reading [t], the label reading [t + 1], the creation time reading
    [t + 2]. *)
Definition new_snapshot (doc : Json.json) (e : env) (t : nat) (k : Z) : snapshot_row :=
  mkSnapshotRow k "master_context" "session-2025-11-07-cmos-analysis"
                UpdateMasterContext.MASTER_CONTEXT_PATH
                ("snapshot_" ++ Datetime.strftime_compact (clock e (S t)))
                (Json.dumps doc)
                (Datetime.isoformat (clock e (S (S t)))).

(** The store after a committed run of the updater's store phase. *)
Definition synced_store (doc : Json.json) (e : env) (t : nat)
           (cs : list context_row) (ss : list snapshot_row) (k : Z) (d : db) : db :=
  set_context_snapshots (ss ++ [new_snapshot doc e t k])%list
    (set_contexts (upsert_master (Json.dumps doc) (Datetime.isoformat (clock e t)) cs) d).

(** Why a statement of the store phase is refused on the store [d]: a
    table is missing, or the engine has no key for the snapshot row. *)
Definition sync_refused (e : env) (d : db) (msg : string) : Prop :=
  (tbl_contexts d = None /\ msg = "no such table: contexts")
  \/ (tbl_context_snapshots d = None /\ msg = "no such table: context_snapshots")
  \/ (exists ss, tbl_context_snapshots d = Some ss
                 /\ allocate (pick_rowid e) (map sn_id ss) = None
                 /\ msg = "database or disk is full").

(** The outcomes of [create_context_snapshot doc] started in [s]. *)
Inductive snapshot_outcome (doc : Json.json) (e : env) (s : state) : state * res unit -> Prop :=
| snap_committed (cs : list context_row) (ss : list snapshot_row) (k : Z) (line : string)
                 (c : connection) (s' : state) :
    tbl_contexts (st_store s) = Some cs ->
    tbl_context_snapshots (st_store s) = Some ss ->
    allocate (pick_rowid e) (map sn_id ss) = Some k ->
    st_store s' = synced_store doc e (st_ticks s) cs ss k (st_store s) ->
    st_file s' = st_file s ->
    st_trace s' = (st_trace s ++ [EvOpen; EvCommit; EvClose])%list ->
    st_stdout s' = (st_stdout s ++ [line; "✅ Created context snapshot in SQLite"])%list ->
    st_engine s' = Some c ->
    closed c = true ->
    snapshot_outcome doc e s (s', Ok tt)
| snap_failed (o : state * res unit) :
    db_failed e (sync_refused e (st_store s)) s o ->
    snapshot_outcome doc e s o.

(** The mission inserts of the seeder, in order, on a database: the
    first error, or the database after the last insert. *)
Fixpoint insert_missions (fk : bool) (pick : list Z -> option Z) (rs : list mission_row) (d : db) : string + db :=
  match rs with
  | [] => inr d
  | r :: rest =>
      match exec_stmt fk pick (InsertMission r) d with
      | inl msg => inl msg
      | inr (d1, _) => insert_missions fk pick rest d1
      end
  end.

(** All the inserts of the seeder, in order. *)
Definition seed_statements (fk : bool) (pick : list Z -> option Z) (sd : SeedSprint09.sprint_dict)
           (ms : list SeedSprint09.mission_dict) (d : db) : string + db :=
  match exec_stmt fk pick (InsertSprint (SeedSprint09.sprint_params sd)) d with
  | inl msg => inl msg
  | inr (d1, _) => insert_missions fk pick (map (SeedSprint09.mission_params sd) ms) d1
  end.

(** The outcomes of the seeder's [try] statement started in [s]. *)
Inductive seed_outcome (sd : SeedSprint09.sprint_dict) (ms : list SeedSprint09.mission_dict)
          (e : env) (s : state) : state * res unit -> Prop :=
| seed_committed (d' : db) (c : connection) (s' : state) :
    seed_statements (foreign_keys e) (pick_rowid e) sd ms (st_store s) = inr d' ->
    st_store s' = d' ->
    st_file s' = st_file s ->
    st_trace s' = (st_trace s ++ [EvOpen; EvCommit; EvClose])%list ->
    st_stdout s' =
      (st_stdout s
         ++ [("✅ Successfully seeded Sprint " ++ SeedSprint09.sd_id sd ++ ": "
                ++ SeedSprint09.sd_title sd)%string;
             ("✅ Inserted " ++ str_of_nat (List.length ms) ++ " missions")%string])%list ->
    st_engine s' = Some c ->
    closed c = true ->
    seed_outcome sd ms e s (s', Ok tt)
| seed_failed (o : state * res unit) :
    db_failed e (fun msg => seed_statements (foreign_keys e) (pick_rowid e) sd ms (st_store s) = inl msg) s o ->
    seed_outcome sd ms e s o.

(** A state that differs from [s1] by engine calls that wrote to the
    connection only. *)
Record engine_only (s1 s2 : state) : Prop := mkEngineOnly {
  eo_store : st_store s2 = st_store s1;
  eo_file : st_file s2 = st_file s1;
  eo_stdout : st_stdout s2 = st_stdout s1;
  eo_bound : st_conn_bound s2 = st_conn_bound s1;
  eo_trace : st_trace s2 = st_trace s1
}.

(** The state of the updater when its store phase begins, after a file
    write that succeeded. *)
Definition after_write (w : world) : state :=
  add_stdout (LF ++ "Creating context snapshot in SQLite...")
    (add_stdout ("✅ Updated MASTER_CONTEXT.json at " ++ UpdateMasterContext.MASTER_CONTEXT_PATH)
       (set_file (Some (Json.dumps UpdateMasterContext.context_data))
          (add_stdout "Updating MASTER_CONTEXT.json with session findings..." (boot w)))).

(** The closing messages of the updater. *)
Definition closing_lines : list string :=
  [ LF ++ "✅ Master context update complete!";
    "   - MASTER_CONTEXT.json updated";
    "   - SQLite context record updated";
    "   - Context snapshot created";
    LF ++ "Key session outcomes captured:";
    "   - Mission Protocol must work standalone";
    "   - CMOS integration is optional";
    "   - Sprint 09 created with 8 missions";
    "   - Analysis documents created in analysis/ directory" ].

Definition print_all (lines : list string) (s : state) : state :=
  fold_left (fun s1 line => add_stdout line s1) lines s.

(** What a failed file write leaves in the file, and its message. *)
Definition file_after_fault (f : file_fault) (old : option string) (text : string) : option string :=
  match f with
  | OpenFails _ => old
  | WriteFails k _ => Some (take k text)
  end.

Definition fault_message (f : file_fault) : string :=
  match f with
  | OpenFails msg => msg
  | WriteFails _ msg => msg
  end.

(** The outcomes of a run of the context updater on the world [w]: final
    state and exit status. *)
Inductive updater_result (e : env) (w : world) : state * Z -> Prop :=
| upd_file_failed (f : file_fault) (s' : state) :
    write_fault e = Some f ->
    st_store s' = store w ->
    st_file s' = file_after_fault f (file w) (Json.dumps UpdateMasterContext.context_data) ->
    st_trace s' = [] ->
    st_engine s' = None ->
    st_stdout s' = ["Updating MASTER_CONTEXT.json with session findings..."] ->
    updater_result e w (s', 1%Z)
| upd_done (cs : list context_row) (ss : list snapshot_row) (k : Z) (c : connection)
           (s' : state) :
    write_fault e = None ->
    tbl_contexts (store w) = Some cs ->
    tbl_context_snapshots (store w) = Some ss ->
    allocate (pick_rowid e) (map sn_id ss) = Some k ->
    st_store s' = synced_store UpdateMasterContext.context_data e 0 cs ss k (store w) ->
    st_file s' = Some (Json.dumps UpdateMasterContext.context_data) ->
    st_trace s' = [EvOpen; EvCommit; EvClose] ->
    st_engine s' = Some c ->
    closed c = true ->
    updater_result e w (s', 0%Z)
| upd_db_failed (s' : state) (r : res unit) :
    write_fault e = None ->
    st_file s' = Some (Json.dumps UpdateMasterContext.context_data) ->
    db_failed e (sync_refused e (store w)) (after_write w) (s', r) ->
    updater_result e w (s', 1%Z).

(** The number of rows of [contexts] with a given key. *)
Definition count_context (id : string) (l : list context_row) : nat :=
  List.length (filter (fun r => String.eqb (cx_id r) id) l).

(** Successive runs of the context updater, one per environment, every
    one of them successful, from one world to another. *)
Inductive updater_runs : list env -> world -> world -> Prop :=
| runs_none (w : world) : updater_runs [] w w
| runs_more (e : env) (es : list env) (w w' : world) :
    snd (run UpdateMasterContext.main e w) = 0%Z ->
    updater_runs es (world_of (fst (run UpdateMasterContext.main e w))) w' ->
    updater_runs (e :: es) w w'.

(** A store with its four tables, all empty. *)
Definition empty_store : db := mkDb (Some []) (Some []) (Some []) (Some []).

(** An environment without faults, whose [k]-th clock reading is [k]
    seconds after 2025-11-07 22:30:00. *)
Definition calm : env :=
  mkEnv (fun k => Datetime.mkDatetime 2025 11 7 22 30 k 0) (fun _ => None) None false
        rowid_after_largest.

(** An environment in which the store file cannot be opened. *)
Definition unwritable : env :=
  mkEnv (fun k => Datetime.mkDatetime 2025 11 7 22 30 k 0)
        (fun k => if (k =? 0)%nat then Some "unable to open database file" else None)
        None false
        rowid_after_largest.

(** An environment in which the context file cannot be written. *)
Definition read_only_file : env :=
  mkEnv (fun k => Datetime.mkDatetime 2025 11 7 22 30 k 0) (fun _ => None)
        (Some (OpenFails "[Errno 13] Permission denied")) false
        rowid_after_largest.

(** Every storage error of a run was printed, with the word "error",
    and the run did not exit with status 0. *)
Definition reports_errors (out : state * Z) : Prop :=
  forall msg,
    In (EvError msg) (st_trace (fst out)) ->
    snd out <> 0%Z
    /\ In (error_line msg) (st_stdout (fst out))
    /\ contains_ci "error" (error_line msg) = true.

(** No storage error was raised during a run. *)
Definition no_storage_error (out : state * Z) : Prop :=
  forall msg, ~ In (EvError msg) (st_trace (fst out)).

(** At the end of a run no connection is held: either none was ever
    acquired, or the one that was opened has been closed, the close being
    the last thing the engine did. *)
Definition released (s : state) : Prop :=
  connection_open s = false
  /\ ((st_engine s = None /\ ~ In EvOpen (st_trace s) /\ ~ In EvClose (st_trace s))
      \/ (exists mid,
             st_trace s = ([EvOpen] ++ mid ++ [EvClose])%list
             /\ ~ In EvOpen mid /\ ~ In EvClose mid)).

(** The number written by a string of decimal digits. *)
Definition digit_value (c : ascii) : option nat :=
  let n := nat_of_ascii c in
  if (48 <=? n)%nat && (n <=? 57)%nat then Some (n - 48)%nat else None.

Fixpoint number_acc (acc : nat) (s : string) : option nat :=
  match s with
  | EmptyString => Some acc
  | String c rest =>
      match digit_value c with
      | Some d => number_acc (10 * acc + d) rest
      | None => None
      end
  end.

Definition number_of (s : string) : option nat :=
  match s with
  | EmptyString => None
  | _ => number_acc 0 s
  end.

(** A date and a time of day as Python's [datetime] holds them: the year
    between [MINYEAR] and [MAXYEAR], the other fields in their calendar
    ranges. *)
Definition valid_datetime (dt : Datetime.datetime) : Prop :=
  (1 <= Z.of_nat (Datetime.year dt) <= 9999)%Z
  /\ (1 <= Datetime.month dt <= 12)%nat
  /\ (1 <= Datetime.day dt <= 31)%nat
  /\ (Datetime.hour dt <= 23)%nat
  /\ (Datetime.minute dt <= 59)%nat
  /\ (Datetime.second dt <= 59)%nat.

(** [s] writes the field [n] on exactly two decimal digits. *)
Definition two_digits (n : nat) (s : string) : Prop :=
  String.length s = 2%nat /\ number_of s = Some n.

(** [s] writes the year [n] in decimal digits without a zero in front:
    on four digits from the year 1000 on. *)
Definition year_digits (n : nat) (s : string) : Prop :=
  number_of s = Some n
  /\ (forall rest, s <> String "0" rest)
  /\ ((1000 <= n)%nat -> String.length s = 4%nat).

(** [t] is the compact numeric form of [dt]: year, month and day, an
    underscore, hour, minute and second. *)
Definition compact_timestamp (dt : Datetime.datetime) (t : string) : Prop :=
  exists Y M D h m s,
    t = Y ++ M ++ D ++ "_" ++ h ++ m ++ s
    /\ year_digits (Datetime.year dt) Y
    /\ two_digits (Datetime.month dt) M
    /\ two_digits (Datetime.day dt) D
    /\ two_digits (Datetime.hour dt) h
    /\ two_digits (Datetime.minute dt) m
    /\ two_digits (Datetime.second dt) s.

(** The checks behind [two_digits] and [year_digits], as functions. *)
Definition denotes (n : nat) (s : string) : bool :=
  match number_of s with
  | Some m => (m =? n)%nat
  | None => false
  end.

Definition two_digits_ok (n : nat) : bool :=
  (String.length (Datetime.zfill 2 n) =? 2)%nat && denotes n (Datetime.zfill 2 n).

Definition year_digits_ok (n : nat) : bool :=
  denotes n (Datetime.decimal n)
  && match Datetime.decimal n with
     | String "0" _ => false
     | _ => true
     end
  && ((n <? 1000)%nat || (String.length (Datetime.decimal n) =? 4)%nat).

(** ** Vocabulary of the further properties *)

(** The rows of [contexts] under other keys than the updater's. *)
Definition other_contexts (l : list context_row) : list context_row :=
  filter (fun r => negb (String.eqb (cx_id r) "master_context")) l.

(** An environment without faults of any kind. *)
Definition faultless (e : env) : Prop :=
  (forall k, engine_fault e k = None) /\ write_fault e = None.

(** The line the updater prints after its statement on [contexts]. *)
Definition record_line (l : list context_row) : string :=
  if has_context "master_context" l
  then "✅ Updated existing master_context record"
  else "✅ Created new master_context record".

(** What the updater has printed when its store phase begins. *)
Definition opening_lines : list string :=
  [ "Updating MASTER_CONTEXT.json with session findings...";
    "✅ Updated MASTER_CONTEXT.json at " ++ UpdateMasterContext.MASTER_CONTEXT_PATH;
    LF ++ "Creating context snapshot in SQLite..." ].

(** What is known of a failed store phase that had started in [s] with
    the rows [cs] in [contexts], once its statement on [contexts] was
    accepted: it exited through [sys.exit(1)], the store is as before, and
    the line about the record was printed just before the error. *)
Definition late_failure (s : state) (cs : list context_row) (o : state * res unit) : Prop :=
  snd o <> Ok tt ->
  snd o = Raise (SystemExit 1)
  /\ st_store (fst o) = st_store s
  /\ exists msg,
      st_stdout (fst o) = (st_stdout s ++ [record_line cs; error_line msg])%list.

(** An environment in which the commit, the sixth call of the updater,
    fails. *)
Definition commit_fails : env :=
  mkEnv (fun k => Datetime.mkDatetime 2025 11 7 22 30 k 0)
        (fun k => if (k =? 5)%nat then Some "disk I/O error" else None)
        None false
        rowid_after_largest.

(** The exit status and the world after a run of each script when the
    engine raises no fault of its own: for the seeder they are decided by
    its statements, for the updater by the file fault and the presence of
    its two tables. *)
Definition seed_effect (e : env) (w : world) : Z * world :=
  match seed_statements (foreign_keys e) (pick_rowid e) SeedSprint09.sprint_data SeedSprint09.missions
                        (store w) with
  | inr d' => (0%Z, mkWorld d' (file w))
  | inl _ => (1%Z, w)
  end.

Definition update_effect (e : env) (w : world) : Z * world :=
  match write_fault e with
  | Some f =>
      (1%Z, mkWorld (store w)
                    (file_after_fault f (file w)
                                      (Json.dumps UpdateMasterContext.context_data)))
  | None =>
      match tbl_contexts (store w), tbl_context_snapshots (store w) with
      | Some cs, Some ss =>
          match allocate (pick_rowid e) (map sn_id ss) with
          | Some k =>
              (0%Z, mkWorld (synced_store UpdateMasterContext.context_data e 0 cs ss k
                                          (store w))
                            (Some (Json.dumps UpdateMasterContext.context_data)))
          | None =>
              (1%Z, mkWorld (store w) (Some (Json.dumps UpdateMasterContext.context_data)))
          end
      | _, _ =>
          (1%Z, mkWorld (store w) (Some (Json.dumps UpdateMasterContext.context_data)))
      end
  end.

(** What is known of the output of a [try] statement that started in
    [s] and printed nothing before its commit: when it fails, the error
    line is all it has printed. *)
Definition only_error_line (s : state) (o : state * res unit) : Prop :=
  snd o <> Ok tt ->
  exists msg,
    st_stdout (fst o) = (st_stdout s ++ [error_line msg])%list
    /\ In (EvError msg) (st_trace (fst o)).

(** What is known of the output of the updater's store phase when it
    returns. *)
Definition sync_lines (s : state) (o : state * res unit) : Prop :=
  snd o = Ok tt ->
  exists cs,
    tbl_contexts (st_store s) = Some cs
    /\ st_stdout (fst o)
       = (st_stdout s ++ [record_line cs; "✅ Created context snapshot in SQLite"])%list.

(** * Properties *)

(** ** The library models on small inputs *)

Example json_demo :
  Json.dumps (Json.JDict [("a", Json.JList [Json.JInt 1; Json.JBool true]);
                          ("b", Json.JDict []); ("c", Json.JStr "x")])
  = "{" ++ LF ++ "  " ++ Json.quote ++ "a" ++ Json.quote ++ ": [" ++ LF
        ++ "    1," ++ LF ++ "    true" ++ LF ++ "  ]," ++ LF
        ++ "  " ++ Json.quote ++ "b" ++ Json.quote ++ ": {}," ++ LF
        ++ "  " ++ Json.quote ++ "c" ++ Json.quote ++ ": " ++ Json.quote ++ "x" ++ Json.quote ++ LF ++ "}".
Proof. reflexivity. Qed.

Example strftime_demo :
  Datetime.strftime_compact (Datetime.mkDatetime 2025 11 7 22 30 5 0) = "20251107_223005"
  /\ Datetime.isoformat (Datetime.mkDatetime 2025 11 7 22 30 5 0) = "2025-11-07T22:30:05+00:00"
  /\ Datetime.isoformat (Datetime.mkDatetime 2025 11 7 22 30 5 1234) = "2025-11-07T22:30:05.001234+00:00".
Proof. repeat split. Qed.

(** ** Reasoning rules of the monad *)

Section Rules.

Variable e : env.

Lemma wp_intro {A : Type} (m : M A) (R : state * res A -> Prop) (s : state) :
  wp m e (fun a s' => R (s', Ok a)) (fun x s' => R (s', Raise x)) s -> R (m e s).
Proof.
  unfold wp. destruct (m e s) as [s' [a | x]]; trivial.
Qed.

Lemma wp_ret {A : Type} (a : A) Q X s : Q a s -> wp (ret a) e Q X s.
Proof. trivial. Qed.

Lemma wp_bind {A B : Type} (m : M A) (f : A -> M B) Q X s :
  wp m e (fun a s1 => wp (f a) e Q X s1) X s -> wp (bind m f) e Q X s.
Proof.
  unfold wp, bind. destruct (m e s) as [s1 [a | x]]; trivial.
Qed.

Lemma wp_print (line : string) Q X s :
  Q tt (add_stdout line s) -> wp (print line) e Q X s.
Proof. trivial. Qed.

Lemma wp_sys_exit (code : Z) Q (X : exn -> state -> Prop) s :
  X (SystemExit code) s -> wp (sys_exit code) e Q X s.
Proof. trivial. Qed.

Lemma wp_now Q X s :
  Q (clock e (st_ticks s)) (bump_ticks s) -> wp datetime_now_utc e Q X s.
Proof. trivial. Qed.

Lemma wp_assign_conn Q X s :
  Q tt (set_conn_bound true s) -> wp assign_conn e Q X s.
Proof. trivial. Qed.

Lemma wp_engine_call {A : Type} (op : M A) Q (X : exn -> state -> Prop) s :
  (forall msg, engine_fault e (st_ops s) = Some msg ->
               X (SqliteError msg) (log (EvError msg) (bump_ops s))) ->
  (engine_fault e (st_ops s) = None -> wp op e Q X (bump_ops s)) ->
  wp (engine_call op) e Q X s.
Proof.
  intros Hf Hok. unfold wp, engine_call.
  destruct (engine_fault e (st_ops s)) as [msg |].
  - now apply Hf.
  - now apply Hok.
Qed.

Lemma wp_connect Q (X : exn -> state -> Prop) s :
  (forall msg, engine_fault e (st_ops s) = Some msg ->
               X (SqliteError msg) (log (EvError msg) (bump_ops s))) ->
  (engine_fault e (st_ops s) = None ->
   Q tt (log EvOpen (set_engine (Some (mkConnection (st_store s) false)) (bump_ops s)))) ->
  wp sqlite3_connect e Q X s.
Proof.
  intros Hf Hok. apply wp_engine_call; trivial.
Qed.

Lemma wp_cursor Q (X : exn -> state -> Prop) s :
  (forall msg, engine_faulted e msg -> X (SqliteError msg) (log (EvError msg) (bump_ops s))) ->
  (engine_fault e (st_ops s) = None -> Q tt (bump_ops s)) ->
  wp conn_cursor e Q X s.
Proof.
  intros Hf Hok. apply wp_engine_call; auto.
  intros msg Hm. apply Hf. now exists (st_ops s).
Qed.

Lemma wp_execute (q : stmt) (d : db) Q (X : exn -> state -> Prop) s :
  st_engine s = Some (mkConnection d false) ->
  (forall msg, engine_faulted e msg \/ exec_stmt (foreign_keys e) (pick_rowid e) q d = inl msg ->
               X (SqliteError msg) (log (EvError msg) (bump_ops s))) ->
  (forall d' rs, engine_fault e (st_ops s) = None ->
                 exec_stmt (foreign_keys e) (pick_rowid e) q d = inr (d', rs) ->
                 Q rs (set_engine (Some (mkConnection d' false)) (bump_ops s))) ->
  wp (cursor_execute q) e Q X s.
Proof.
  intros He Hf Hok. apply wp_engine_call.
  - intros msg Hm. apply Hf. left. now exists (st_ops s).
  - intros Hnf. unfold wp. cbv beta. change (st_engine (bump_ops s)) with (st_engine s).
    rewrite He. cbn [closed working].
    destruct (exec_stmt (foreign_keys e) (pick_rowid e) q d) as [msg | [d' rs]].
    + apply Hf. now right.
    + now apply Hok.
Qed.

Lemma wp_commit (d : db) Q (X : exn -> state -> Prop) s :
  st_engine s = Some (mkConnection d false) ->
  (forall msg, engine_faulted e msg -> X (SqliteError msg) (log (EvError msg) (bump_ops s))) ->
  (engine_fault e (st_ops s) = None -> Q tt (log EvCommit (set_store d (bump_ops s)))) ->
  wp conn_commit e Q X s.
Proof.
  intros He Hf Hok. apply wp_engine_call.
  { intros msg Hm. apply Hf. now exists (st_ops s). }
  intros Hnf. unfold wp. cbv beta. change (st_engine (bump_ops s)) with (st_engine s).
  rewrite He. cbn [closed working]. now apply Hok.
Qed.

Lemma wp_try (body : M unit) (R : state * res unit -> Prop) s :
  wp body e (after_return e R) (after_raise e R) s ->
  R (try_except_finally body on_sqlite_error release_conn e s).
Proof.
  unfold wp at 1, try_except_finally.
  destruct (body e s) as [s1 [u | x]].
  - unfold after_return, wp.
    destruct (release_conn e s1) as [? [[] | ?]]; trivial.
  - unfold after_raise. destruct x as [msg | code | name | msg]; unfold wp.
    + destruct (on_sqlite_error msg e s1) as [s2 [u | x2]];
        destruct (release_conn e s2) as [? [[] | ?]]; trivial.
    + destruct (release_conn e s1) as [? [[] | ?]]; trivial.
    + destruct (release_conn e s1) as [? [[] | ?]]; trivial.
    + destruct (release_conn e s1) as [? [[] | ?]]; trivial.
Qed.

(** The [finally] clause on a bound, open connection closes it. *)
Lemma release_conn_bound (c : connection) s :
  st_conn_bound s = true -> st_engine s = Some c ->
  release_conn e s = (log EvClose (set_engine (Some (mkConnection (working c) true)) s), Ok tt).
Proof.
  intros Hb He. unfold release_conn, bind, conn_truth. rewrite Hb.
  unfold conn_close. now rewrite He.
Qed.

(** The [finally] clause when [conn] was never bound. *)
Lemma release_conn_unbound s :
  st_conn_bound s = false ->
  release_conn e s = (s, Raise (UnboundLocalError "conn")).
Proof.
  intros Hb. unfold release_conn, bind, conn_truth. now rewrite Hb.
Qed.

(** A failure of the connection itself. *)
Lemma fail_at_connect (R : state * res unit -> Prop) (cause : string -> Prop)
      (msg : string) s :
  st_conn_bound s = false ->
  engine_fault e (st_ops s) = Some msg ->
  (forall o, db_failed e cause s o -> R o) ->
  after_raise e R (SqliteError msg) (log (EvError msg) (bump_ops s)).
Proof.
  intros Hb Hf HR. unfold after_raise, wp, on_sqlite_error, bind, print, sys_exit, raise.
  rewrite release_conn_unbound by exact Hb.
  apply HR. now apply failed_at_connect with (msg := msg).
Qed.

(** A failure of any later call, before the commit has happened. *)
Lemma fail_in_body (R : state * res unit -> Prop) (cause : string -> Prop)
      (msg : string) s s1 :
  in_body s s1 ->
  engine_faulted e msg \/ cause msg ->
  (forall o, db_failed e cause s o -> R o) ->
  after_raise e R (SqliteError msg) (log (EvError msg) (bump_ops s1)).
Proof.
  intros [Hst Hfi Hb [d Hd] Htr [pre Hpre]] Hc HR.
  unfold after_raise, wp, on_sqlite_error, bind, print, sys_exit, raise.
  rewrite release_conn_bound with (c := mkConnection d false) by assumption.
  apply HR.
  apply failed_in_body with (msg := msg) (pre := pre) (c := mkConnection d true);
    cbn [st_store st_file st_trace st_stdout st_engine log set_engine add_stdout bump_ops
         working closed]; try congruence.
  rewrite Htr, <- !app_assoc. reflexivity.
Qed.

End Rules.

(** ** The statements, read backwards *)

Lemma exec_select_inv fk pick id d d' rs :
  exec_stmt fk pick (SelectContextId id) d = inr (d', rs) ->
  exists l, tbl_contexts d = Some l /\ d' = d
            /\ rs = map cx_id (filter (fun r => String.eqb (cx_id r) id) l).
Proof.
  unfold exec_stmt. destruct (tbl_contexts d) as [l |]; [| discriminate].
  intros H. injection H as <- <-. now exists l.
Qed.

Lemma exec_update_inv fk pick content updated_at id d d' rs :
  exec_stmt fk pick (UpdateContext content updated_at id) d = inr (d', rs) ->
  exists l, tbl_contexts d = Some l
            /\ d' = set_contexts (map (update_context content updated_at id) l) d.
Proof.
  unfold exec_stmt. destruct (tbl_contexts d) as [l |]; [| discriminate].
  intros H. injection H as <- <-. now exists l.
Qed.

Lemma exec_insert_context_inv fk pick r d d' rs :
  exec_stmt fk pick (InsertContext r) d = inr (d', rs) ->
  exists l, tbl_contexts d = Some l /\ has_context (cx_id r) l = false
            /\ d' = set_contexts (l ++ [r]) d.
Proof.
  unfold exec_stmt. destruct (tbl_contexts d) as [l |]; [| discriminate].
  destruct (has_context (cx_id r) l) eqn:Hh; [discriminate |].
  intros H. injection H as <- <-. now exists l.
Qed.

Lemma exec_insert_snapshot_inv fk pick a b c h t u d d' rs :
  exec_stmt fk pick (InsertSnapshot a b c h t u) d = inr (d', rs) ->
  exists l k, tbl_context_snapshots d = Some l
              /\ allocate pick (map sn_id l) = Some k
              /\ d' = set_context_snapshots (l ++ [mkSnapshotRow k a b c h t u]) d.
Proof.
  unfold exec_stmt. destruct (tbl_context_snapshots d) as [l |]; [| discriminate].
  destruct (allocate pick (map sn_id l)) as [k |] eqn:Hk; [| discriminate].
  intros H. injection H as <- <-. now exists l, k.
Qed.

Lemma exec_insert_sprint_inv fk pick r d d' rs :
  exec_stmt fk pick (InsertSprint r) d = inr (d', rs) ->
  exists l, tbl_sprints d = Some l /\ has_sprint (sp_id r) l = false
            /\ d' = set_sprints (l ++ [r]) d.
Proof.
  unfold exec_stmt. destruct (tbl_sprints d) as [l |]; [| discriminate].
  destruct (has_sprint (sp_id r) l) eqn:Hh; [discriminate |].
  intros H. injection H as <- <-. now exists l.
Qed.

Lemma exec_insert_mission_inv fk pick r d d' rs :
  exec_stmt fk pick (InsertMission r) d = inr (d', rs) ->
  exists l, tbl_missions d = Some l /\ has_mission (mi_id r) l = false
            /\ (fk = true -> has_sprint (mi_sprint_id r) (rows (tbl_sprints d)) = true)
            /\ d' = set_missions (l ++ [r]) d.
Proof.
  unfold exec_stmt. destruct (tbl_missions d) as [l |]; [| discriminate].
  destruct (has_mission (mi_id r) l) eqn:Hh; [discriminate |].
  destruct fk.
  - destruct (tbl_sprints d) as [parents |]; [| discriminate].
    destruct (has_sprint (mi_sprint_id r) parents) eqn:Hp; [| discriminate].
    intros H. injection H as <- <-. exists l. repeat split; trivial.
  - intros H. injection H as <- <-. exists l. repeat split; trivial. discriminate.
Qed.

(** [fetchone] on the result of the existence query says whether the
    table holds a row with that key. *)
Lemma fetchone_select id l :
  match fetchone (map cx_id (filter (fun r => String.eqb (cx_id r) id) l)) with
  | Some _ => has_context id l = true
  | None => has_context id l = false
  end.
Proof.
  unfold fetchone, has_context. induction l as [| r l IH]; cbn; trivial.
  destruct (String.eqb (cx_id r) id); cbn; trivial.
Qed.

(** ** The store phase of the context updater *)

Ltac proj :=
  cbn [st_store st_file st_stdout st_engine st_conn_bound st_ops st_ticks st_trace
       set_store set_file add_stdout set_engine set_conn_bound bump_ops bump_ticks log
       working closed].

(** A refused statement of the store phase names a missing table, or
    found no key for the snapshot row. *)
Ltac refused H :=
  unfold exec_stmt in H;
  cbn [tbl_contexts tbl_context_snapshots set_contexts cx_id] in H;
  repeat match type of H with
         | context [tbl_contexts ?d] =>
             let E := fresh "E" in destruct (tbl_contexts d) eqn:E
         | context [tbl_context_snapshots ?d] =>
             let E := fresh "E" in destruct (tbl_context_snapshots d) eqn:E
         | context [has_context ?i ?l] =>
             let E := fresh "E" in destruct (has_context i l) eqn:E
         | context [allocate ?p ?l] =>
             let E := fresh "E" in destruct (allocate p l) eqn:E
         end;
  try discriminate H; try congruence;
  injection H as <-; right; unfold sync_refused;
  first [ solve [auto] | right; right; eexists; repeat split; eassumption ].

Ltac in_body_now :=
  constructor; proj;
  [ reflexivity | reflexivity | reflexivity | eexists; reflexivity | reflexivity
  | first [ exists []; now rewrite app_nil_r | eexists; reflexivity ] ].

Lemma create_context_snapshot_spec (doc : Json.json) (e : env) (s : state) :
  st_conn_bound s = false ->
  snapshot_outcome doc e s (UpdateMasterContext.create_context_snapshot doc e s).
Proof.
  intros Hb. unfold UpdateMasterContext.create_context_snapshot.
  assert (HF : forall o, db_failed e (sync_refused e (st_store s)) s o -> snapshot_outcome doc e s o)
    by (intros o Ho; now apply snap_failed).
  apply wp_try.
  apply wp_bind, wp_connect; [intros msg Hf; now apply fail_at_connect with (cause := sync_refused e (st_store s)) | intros _].
  apply wp_bind, wp_assign_conn.
  apply wp_bind, wp_cursor;
    [intros msg Hc; apply fail_in_body with (s := s) (cause := sync_refused e (st_store s));
       [in_body_now | now left | exact HF] | intros _].
  apply wp_bind, wp_execute with (d := st_store s); [reflexivity | |].
  { intros msg Hc. apply fail_in_body with (s := s) (cause := sync_refused e (st_store s));
      [in_body_now | | exact HF].
    destruct Hc as [Hc | Hc]; [now left | refused Hc]. }
  intros d' rs _ Hsel. apply exec_select_inv in Hsel as (cs & Hcs & -> & ->).
  cbv zeta. apply wp_bind.
  pose proof (fetchone_select "master_context" cs) as Hfetch.
  destruct (fetchone _) as [found |].
  - (* the row exists: UPDATE *)
    apply wp_bind, wp_now. apply wp_bind, wp_execute with (d := st_store s); [reflexivity | |].
    { intros msg Hc. apply fail_in_body with (s := s) (cause := sync_refused e (st_store s));
        [in_body_now | | exact HF].
      destruct Hc as [Hc | Hc]; [now left | refused Hc]. }
    intros d1 rs1 _ Hupd. apply exec_update_inv in Hupd as (cs' & Hcs' & ->).
    rewrite Hcs in Hcs'. injection Hcs' as <-.
    apply wp_print. apply wp_bind, wp_now. apply wp_bind, wp_now.
    apply wp_bind; eapply wp_execute; [proj; reflexivity | |].
    { intros msg Hc. apply fail_in_body with (s := s) (cause := sync_refused e (st_store s));
        [in_body_now | | exact HF].
      destruct Hc as [Hc | Hc]; [now left | refused Hc]. }
    intros d2 rs2 _ Hins. apply exec_insert_snapshot_inv in Hins as (ss & k & Hss & Hk & ->).
    apply wp_bind; eapply wp_commit; [proj; reflexivity | | intros _].
    { intros msg Hc. apply fail_in_body with (s := s) (cause := sync_refused e (st_store s));
        [in_body_now | now left | exact HF]. }
    apply wp_print. unfold after_return, wp.
    erewrite release_conn_bound by (proj; reflexivity).
    eapply snap_committed; proj; try reflexivity; try eassumption.
    + unfold synced_store, upsert_master, new_snapshot. rewrite Hfetch. reflexivity.
    + now rewrite <- !app_assoc.
    + now rewrite <- !app_assoc.
  - (* no such row: INSERT *)
    apply wp_bind, wp_now. apply wp_bind, wp_execute with (d := st_store s); [reflexivity | |].
    { intros msg Hc. apply fail_in_body with (s := s) (cause := sync_refused e (st_store s));
        [in_body_now | | exact HF].
      destruct Hc as [Hc | Hc]; [now left | refused Hc]. }
    intros d1 rs1 _ Hupd. apply exec_insert_context_inv in Hupd as (cs' & Hcs' & _ & ->).
    rewrite Hcs in Hcs'. injection Hcs' as <-.
    apply wp_print. apply wp_bind, wp_now. apply wp_bind, wp_now.
    apply wp_bind; eapply wp_execute; [proj; reflexivity | |].
    { intros msg Hc. apply fail_in_body with (s := s) (cause := sync_refused e (st_store s));
        [in_body_now | | exact HF].
      destruct Hc as [Hc | Hc]; [now left | refused Hc]. }
    intros d2 rs2 _ Hins. apply exec_insert_snapshot_inv in Hins as (ss & k & Hss & Hk & ->).
    apply wp_bind; eapply wp_commit; [proj; reflexivity | | intros _].
    { intros msg Hc. apply fail_in_body with (s := s) (cause := sync_refused e (st_store s));
        [in_body_now | now left | exact HF]. }
    apply wp_print. unfold after_return, wp.
    erewrite release_conn_bound by (proj; reflexivity).
    eapply snap_committed; proj; try reflexivity; try eassumption.
    + unfold synced_store, upsert_master, new_snapshot. rewrite Hfetch. reflexivity.
    + now rewrite <- !app_assoc.
    + now rewrite <- !app_assoc.
Qed.

(** ** The seeder *)

Section SeederLoop.

Variable e : env.
Variable sd : SeedSprint09.sprint_dict.

Lemma engine_only_refl s : engine_only s s.
Proof. now constructor. Qed.

Lemma engine_only_step d s1 s2 :
  engine_only (set_engine (Some (mkConnection d false)) (bump_ops s1)) s2 ->
  engine_only s1 s2.
Proof.
  intros [H1 H2 H3 H4 H5]. constructor; assumption.
Qed.

(** The loop over the missions: it stops at the first call that fails,
    otherwise the connection holds every mission row. *)
Lemma wp_insert_missions (ms : list SeedSprint09.mission_dict) :
  forall (s1 : state) (d : db) (Q : unit -> state -> Prop) (X : exn -> state -> Prop),
    st_engine s1 = Some (mkConnection d false) ->
    (forall msg s2,
        engine_only s1 s2 ->
        (exists d2, st_engine s2 = Some (mkConnection d2 false)) ->
        engine_faulted e msg
        \/ insert_missions (foreign_keys e) (pick_rowid e) (map (SeedSprint09.mission_params sd) ms) d = inl msg ->
        X (SqliteError msg) (log (EvError msg) (bump_ops s2))) ->
    (forall d' s2,
        engine_only s1 s2 ->
        st_engine s2 = Some (mkConnection d' false) ->
        insert_missions (foreign_keys e) (pick_rowid e) (map (SeedSprint09.mission_params sd) ms) d = inr d' ->
        Q tt s2) ->
    wp (for_each ms (fun mission =>
          cursor_execute (InsertMission (SeedSprint09.mission_params sd mission)) ;; ret tt))
       e Q X s1.
Proof.
  induction ms as [| m rest IH]; intros s1 d Q X He Hfail Hok.
  - apply wp_ret. apply Hok with (d' := d); [apply engine_only_refl | exact He | reflexivity].
  - cbn [for_each map insert_missions] in *.
    apply wp_bind, wp_bind, wp_execute with (d := d); [exact He | |].
    + intros msg Hc. apply Hfail; [apply engine_only_refl | now exists d |].
      destruct Hc as [Hc | Hc]; [now left | right; now rewrite Hc].
    + intros d1 rs _ Hex. apply wp_ret. rewrite Hex in Hfail, Hok.
      apply IH with (d := d1); [reflexivity | |].
      * intros msg s2 Hs2 Hd2 Hc. apply Hfail; [now apply engine_only_step with (d := d1) | exact Hd2 | exact Hc].
      * intros d' s2 Hs2 Hd2 Hins. apply Hok with (d' := d'); [now apply engine_only_step with (d := d1) | exact Hd2 | exact Hins].
Qed.

Lemma in_body_engine_only s s1 s2 :
  in_body s s1 -> engine_only s1 s2 ->
  (exists d, st_engine s2 = Some (mkConnection d false)) ->
  in_body s s2.
Proof.
  intros [H1 H2 H3 H4 H5 [pre H6]] [G1 G2 G3 G4 G5] Hd. constructor; try congruence.
  exists pre. congruence.
Qed.

Lemma seed_try_spec (ms : list SeedSprint09.mission_dict) (s : state) :
  st_conn_bound s = false ->
  seed_outcome sd ms e s (SeedSprint09.seed_try sd ms e s).
Proof.
  intros Hb. unfold SeedSprint09.seed_try.
  set (cause := fun msg => seed_statements (foreign_keys e) (pick_rowid e) sd ms (st_store s) = inl msg).
  assert (HF : forall o, db_failed e cause s o -> seed_outcome sd ms e s o)
    by (intros o Ho; now apply seed_failed).
  apply wp_try.
  apply wp_bind, wp_connect;
    [intros msg Hf; now apply fail_at_connect with (cause := cause) | intros _].
  apply wp_bind, wp_assign_conn.
  apply wp_bind, wp_cursor;
    [intros msg Hc; apply fail_in_body with (s := s) (cause := cause);
       [in_body_now | now left | exact HF] | intros _].
  apply wp_bind, wp_execute with (d := st_store s); [reflexivity | |].
  { intros msg Hc. apply fail_in_body with (s := s) (cause := cause);
      [in_body_now | | exact HF].
    destruct Hc as [Hc | Hc]; [now left | right].
    unfold cause, seed_statements. now rewrite Hc. }
  intros d1 rs _ Hsp.
  match goal with |- wp _ _ _ _ ?t => set (s1 := t) end.
  assert (Hib : in_body s s1) by (subst s1; in_body_now).
  apply wp_bind, wp_insert_missions with (d := d1); [reflexivity | |].
  { intros msg s2 Hs2 Hd2 Hc. apply fail_in_body with (s := s) (cause := cause);
      [now apply in_body_engine_only with (s1 := s1) | | exact HF].
    destruct Hc as [Hc | Hc]; [now left | right].
    unfold cause, seed_statements. now rewrite Hsp. }
  intros d' s2 Hs2 Hd2 Hins.
  assert (Hib2 : in_body s s2) by (apply in_body_engine_only with (s1 := s1); eauto).
  destruct Hib2 as [H1 H2 H3 _ H5 [pre H6]].
  assert (Hpre : st_stdout s2 = st_stdout s)
    by (rewrite (eo_stdout _ _ Hs2); reflexivity).
  apply wp_bind, wp_commit with (d := d'); [exact Hd2 | | intros _].
  { intros msg Hc. apply fail_in_body with (s := s) (cause := cause);
      [now apply in_body_engine_only with (s1 := s1); eauto | now left | exact HF]. }
  apply wp_bind, wp_print, wp_print. unfold after_return, wp.
  erewrite release_conn_bound by (proj; eassumption).
  eapply seed_committed; proj; try reflexivity; try eassumption.
  - unfold seed_statements. now rewrite Hsp.
  - rewrite H5, <- !app_assoc. reflexivity.
  - rewrite Hpre, <- !app_assoc. reflexivity.
Qed.

End SeederLoop.

(** ** Runs of the two scripts *)

Lemma db_failed_status e cause s s' r :
  db_failed e cause s (s', r) -> exit_status r = 1%Z.
Proof. intros H. inversion H; reflexivity. Qed.

Lemma db_failed_store e cause s s' r :
  db_failed e cause s (s', r) -> st_store s' = st_store s /\ st_file s' = st_file s.
Proof. intros H. inversion H; auto. Qed.

Lemma update_main_write_fails e w f :
  write_fault e = Some f ->
  UpdateMasterContext.main e (boot w)
  = (set_file (file_after_fault f (file w) (Json.dumps UpdateMasterContext.context_data))
       (add_stdout "Updating MASTER_CONTEXT.json with session findings..." (boot w)),
     Raise (OSError (fault_message f))).
Proof.
  intros Hf.
  unfold UpdateMasterContext.main, UpdateMasterContext.create_master_context_update,
    bind, print, write_text.
  rewrite Hf. destruct f; reflexivity.
Qed.

Lemma update_main_write_ok e w :
  write_fault e = None ->
  UpdateMasterContext.main e (boot w)
  = match UpdateMasterContext.create_context_snapshot UpdateMasterContext.context_data e
            (after_write w) with
    | (s1, Ok _) => (print_all closing_lines s1, Ok tt)
    | (s1, Raise x) => (s1, Raise x)
    end.
Proof.
  intros Hf.
  unfold UpdateMasterContext.main, UpdateMasterContext.create_master_context_update,
    bind, print, write_text, ret.
  rewrite Hf. fold (after_write w).
  destruct (UpdateMasterContext.create_context_snapshot _ e (after_write w)) as [s1 [[] | x]];
    reflexivity.
Qed.

Lemma updater_run_spec e w : updater_result e w (run UpdateMasterContext.main e w).
Proof.
  unfold run. destruct (write_fault e) as [f |] eqn:Hf.
  - rewrite (update_main_write_fails e w f Hf). cbn [exit_status].
    now apply upd_file_failed with (f := f).
  - rewrite (update_main_write_ok e w Hf).
    pose proof (create_context_snapshot_spec UpdateMasterContext.context_data e (after_write w)
                  eq_refl) as Hs.
    destruct (UpdateMasterContext.create_context_snapshot _ e (after_write w)) as [s1 r].
    inversion Hs as [cs ss k line c s' Hcs Hss Hk Hst Hfi Htr Hout Hen Hcl | o Hfail]; subst.
    + cbn [exit_status]. apply upd_done with (cs := cs) (ss := ss) (k := k) (c := c); trivial.
    + destruct r as [[] | x].
      * inversion Hfail.
      * rewrite (db_failed_status _ _ _ _ _ Hfail).
        apply upd_db_failed with (r := Raise x); trivial.
        now destruct (db_failed_store _ _ _ _ _ Hfail) as [_ ->].
Qed.

Lemma seeder_run_spec e w :
  seed_outcome SeedSprint09.sprint_data SeedSprint09.missions e (boot w)
               (SeedSprint09.main e (boot w)).
Proof. now apply seed_try_spec. Qed.

(** ** What the seeder's statements do to a store *)

Lemma insert_missions_inv fk pick rs :
  forall d d',
    insert_missions fk pick rs d = inr d' ->
    tbl_sprints d' = tbl_sprints d
    /\ rows (tbl_missions d') = (rows (tbl_missions d) ++ rs)%list
    /\ tbl_contexts d' = tbl_contexts d
    /\ tbl_context_snapshots d' = tbl_context_snapshots d.
Proof.
  induction rs as [| r rest IH]; intros d d' H; cbn [insert_missions] in H.
  - injection H as <-. now rewrite app_nil_r.
  - destruct (exec_stmt fk pick (InsertMission r) d) as [msg | [d1 rs1]] eqn:Hex; [discriminate |].
    apply exec_insert_mission_inv in Hex as (l & Hl & _ & _ & ->).
    apply IH in H as (H1 & H2 & H3 & H4). repeat split; trivial.
    rewrite H2. cbn [set_missions tbl_missions rows]. rewrite Hl. cbn [rows].
    now rewrite <- app_assoc.
Qed.

Lemma seed_statements_inv fk pick sd ms d d' :
  seed_statements fk pick sd ms d = inr d' ->
  exists sp,
    tbl_sprints d = Some sp
    /\ has_sprint (SeedSprint09.sd_id sd) sp = false
    /\ tbl_sprints d' = Some (sp ++ [SeedSprint09.sprint_params sd])%list
    /\ rows (tbl_missions d')
       = (rows (tbl_missions d) ++ map (SeedSprint09.mission_params sd) ms)%list
    /\ tbl_contexts d' = tbl_contexts d
    /\ tbl_context_snapshots d' = tbl_context_snapshots d.
Proof.
  unfold seed_statements. intros H.
  destruct (exec_stmt fk pick (InsertSprint _) d) as [msg | [d1 rs1]] eqn:Hex; [discriminate |].
  apply exec_insert_sprint_inv in Hex as (sp & Hsp & Hno & ->).
  apply insert_missions_inv in H as (H1 & H2 & H3 & H4).
  exists sp. repeat split; trivial.
Qed.

Lemma has_sprint_last id l r : sp_id r = id -> has_sprint id (l ++ [r]) = true.
Proof.
  intros <-. unfold has_sprint. rewrite existsb_app. cbn.
  rewrite String.eqb_refl. now rewrite orb_true_r.
Qed.

(** On a store whose [sprints] and [missions] tables are empty, every
    statement of the seeder is accepted. *)
Lemma seed_statements_empty fk pick cx sn :
  seed_statements fk pick SeedSprint09.sprint_data SeedSprint09.missions
                  (mkDb (Some []) (Some []) cx sn)
  = inr (mkDb (Some [SeedSprint09.sprint_params SeedSprint09.sprint_data])
              (Some (map (SeedSprint09.mission_params SeedSprint09.sprint_data)
                         SeedSprint09.missions))
              cx sn).
Proof. destruct fk; vm_compute; reflexivity. Qed.

(** ** C1 *)

(** C1.  On a store that already holds a sprint row with the key
    [sprint-09], a run of the seeder exits with status 1 and leaves the
    store and the file exactly as they were: nothing is committed, the
    error is printed, and without injected faults that error is the
    duplicate key of [sprints.id].  A store left by a successful run is
    such a store.  And on any store at all, a mission row that a run adds
    is never without its sprint row. *)
Theorem seeder_rerun_changes_nothing (e : env) (w : world) :
  let out := run SeedSprint09.main e w in
  (has_sprint "sprint-09" (rows (tbl_sprints (store w))) = true ->
   snd out = 1%Z
   /\ world_of (fst out) = w
   /\ ~ In EvCommit (st_trace (fst out))
   /\ connection_open (fst out) = false
   /\ exists msg,
       In (EvError msg) (st_trace (fst out))
       /\ In (error_line msg) (st_stdout (fst out))
       /\ ((forall k, engine_fault e k = None) ->
           msg = "UNIQUE constraint failed: sprints.id"))
  /\ (snd out = 0%Z ->
      has_sprint "sprint-09" (rows (tbl_sprints (st_store (fst out)))) = true)
  /\ (forall m,
         In m (rows (tbl_missions (st_store (fst out)))) ->
         In m (rows (tbl_missions (store w)))
         \/ has_sprint (mi_sprint_id m) (rows (tbl_sprints (st_store (fst out)))) = true).
Proof.
  cbv zeta. unfold run.
  pose proof (seeder_run_spec e w) as Hs.
  destruct (SeedSprint09.main e (boot w)) as [s' r]. cbn [fst snd].
  split.
  - intros Hdup.
    inversion Hs as [d' c s1 Hst Hd Hfi Htr Hout Hen Hcl | o Hfail]; subst.
    + apply seed_statements_inv in Hst as (sp & Hsp & Hno & _).
      change (st_store (boot w)) with (store w) in Hsp. rewrite Hsp in Hdup.
      cbn [rows] in Hdup. change (SeedSprint09.sd_id SeedSprint09.sprint_data) with "sprint-09" in Hno.
      congruence.
    + assert (Hw : world_of s' = w).
      { destruct (db_failed_store _ _ _ _ _ Hfail) as [H1 H2].
        unfold world_of. rewrite H1, H2. now destruct w. }
      assert (Hco : forall c, st_engine s' = Some c -> closed c = true ->
                              connection_open s' = false).
      { intros c H1 H2. unfold connection_open. now rewrite H1, H2. }
      inversion Hfail as [msg s1 Hf H1 H2 H3 H4 H5 | msg pre c s1 Hc H1 H2 H3 H4 H5 H6].
      * repeat split; trivial.
        -- rewrite H3. cbn. intros [E | []]. discriminate E.
        -- unfold connection_open. now rewrite H5.
        -- exists msg. rewrite H3, H4. cbn. repeat split; auto.
           intros Hnone. change (st_ops (boot w)) with 0%nat in Hf.
           rewrite Hnone in Hf. discriminate Hf.
      * repeat split; trivial.
        -- rewrite H3. cbn. intros [E | [E | [E | []]]]; discriminate E.
        -- now apply Hco with (c := c).
        -- exists msg. rewrite H3, H4. repeat split.
           ++ cbn. auto.
           ++ apply in_or_app. right. now left.
           ++ intros Hnone. destruct Hc as [[k Hk] | Hc].
              ** rewrite Hnone in Hk. discriminate Hk.
              ** unfold seed_statements, exec_stmt in Hc.
                 change (st_store (boot w)) with (store w) in Hc.
                 destruct (tbl_sprints (store w)) as [sp |]; [| discriminate Hdup].
                 cbn [rows] in Hdup.
                 change (sp_id (SeedSprint09.sprint_params SeedSprint09.sprint_data))
                   with "sprint-09" in Hc.
                 rewrite Hdup in Hc. now injection Hc as <-.
  - split.
    { intros Hok.
      inversion Hs as [d' c s1 Hst Hd Hfi Htr Hout Hen Hcl | o Hfail]; subst.
      - apply seed_statements_inv in Hst as (sp & _ & _ & Hsp' & _).
        rewrite Hsp'. cbn [rows]. now apply has_sprint_last.
      - rewrite (db_failed_status _ _ _ _ _ Hfail) in Hok. discriminate Hok. }
    intros m Hin.
    inversion Hs as [d' c s1 Hst Hd Hfi Htr Hout Hen Hcl | o Hfail]; subst.
    + apply seed_statements_inv in Hst as (sp & Hsp & Hno & Hsp' & Hmi & _).
      change (st_store (boot w)) with (store w) in *.
      rewrite Hmi in Hin. apply in_app_or in Hin as [Hin | Hin]; [now left | right].
      apply in_map_iff in Hin as (md & <- & _).
      rewrite Hsp'. cbn [rows SeedSprint09.mission_params mi_sprint_id].
      now apply has_sprint_last.
    + destruct (db_failed_store _ _ _ _ _ Hfail) as [H1 _].
      left. now rewrite H1 in Hin.
Qed.

Lemma seeder_rerun_changes_nothing_witness :
  let w1 := world_of (fst (run SeedSprint09.main calm (mkWorld empty_store None))) in
  has_sprint "sprint-09" (rows (tbl_sprints (store w1))) = true
  /\ snd (run SeedSprint09.main calm w1) = 1%Z
  /\ world_of (fst (run SeedSprint09.main calm w1)) = w1.
Proof.
  cbv zeta.
  assert (H : has_sprint "sprint-09"
                (rows (tbl_sprints (store (world_of (fst (run SeedSprint09.main calm
                   (mkWorld empty_store None))))))) = true)
    by (vm_compute; reflexivity).
  split; [exact H |].
  destruct (proj1 (seeder_rerun_changes_nothing calm
                     (world_of (fst (run SeedSprint09.main calm (mkWorld empty_store None)))))
                  H) as (H1 & H2 & _).
  split; [exact H1 | exact H2].
Defined.

(** ** C3 *)

(** C3.  On a store whose [sprints] and [missions] tables are empty, a
    run of the seeder that exits with status 0 has inserted exactly one
    sprint row, with the key [sprint-09], and exactly eight mission rows,
    each with [sprint_id] equal to [sprint-09]; and without injected
    faults the run does exit with status 0. *)
Theorem seeder_on_empty_store (e : env) (w : world) :
  tbl_sprints (store w) = Some [] ->
  tbl_missions (store w) = Some [] ->
  let out := run SeedSprint09.main e w in
  (snd out = 0%Z ->
   rows (tbl_sprints (st_store (fst out)))
   = [SeedSprint09.sprint_params SeedSprint09.sprint_data]
   /\ map sp_id (rows (tbl_sprints (st_store (fst out)))) = ["sprint-09"]
   /\ List.length (rows (tbl_missions (st_store (fst out)))) = 8%nat
   /\ map mi_id (rows (tbl_missions (st_store (fst out))))
      = ["s09-m01"; "s09-m02"; "s09-m03"; "s09-m04"; "s09-m05"; "s09-m06"; "s09-m07"; "s09-m08"]
   /\ Forall (fun m => mi_sprint_id m = "sprint-09")
             (rows (tbl_missions (st_store (fst out)))))
  /\ ((forall k, engine_fault e k = None) -> snd out = 0%Z).
Proof.
  intros Hsp Hmi. cbv zeta. unfold run.
  pose proof (seeder_run_spec e w) as Hs.
  destruct (SeedSprint09.main e (boot w)) as [s' r]. cbn [fst snd].
  destruct w as [[sp mi cx sn] f]. cbn [store tbl_sprints tbl_missions] in *. subst sp mi.
  inversion Hs as [d' c s1 Hst Hd Hfi Htr Hout Hen Hcl | o Hfail].
  - cbn [boot st_store store] in Hst. rewrite seed_statements_empty in Hst. injection Hst as <-.
    split; [intros _ | reflexivity].
    rewrite Hd. cbn [tbl_sprints tbl_missions rows].
    repeat split; try reflexivity. repeat constructor.
  - split.
    + rewrite (db_failed_status _ _ _ _ _ Hfail). discriminate.
    + intros Hnone. exfalso.
      inversion Hfail as [msg s1 Hf H1 H2 H3 H4 H5 | msg pre c s1 Hc H1 H2 H3 H4 H5 H6].
      * rewrite Hnone in Hf. discriminate Hf.
      * destruct Hc as [[k Hk] | Hc].
        -- rewrite Hnone in Hk. discriminate Hk.
        -- cbn [boot st_store store] in Hc.
           rewrite seed_statements_empty in Hc. discriminate Hc.
Qed.

Lemma seeder_on_empty_store_witness :
  tbl_sprints (store (mkWorld empty_store None)) = Some []
  /\ tbl_missions (store (mkWorld empty_store None)) = Some []
  /\ snd (run SeedSprint09.main calm (mkWorld empty_store None)) = 0%Z
  /\ List.length
       (rows (tbl_missions (st_store (fst (run SeedSprint09.main calm
                                               (mkWorld empty_store None)))))) = 8%nat.
Proof.
  pose proof (seeder_on_empty_store calm (mkWorld empty_store None) eq_refl eq_refl) as H.
  cbv zeta in H. destruct H as [H1 H2].
  assert (H0 : snd (run SeedSprint09.main calm (mkWorld empty_store None)) = 0%Z)
    by (apply H2; intros k; reflexivity).
  destruct (H1 H0) as (_ & _ & H8 & _).
  exact (conj eq_refl (conj eq_refl (conj H0 H8))).
Defined.

(** ** Runs of the context updater *)

Lemma updater_success e w :
  snd (run UpdateMasterContext.main e w) = 0%Z ->
  exists cs ss k,
    tbl_contexts (store w) = Some cs
    /\ tbl_context_snapshots (store w) = Some ss
    /\ allocate (pick_rowid e) (map sn_id ss) = Some k
    /\ st_store (fst (run UpdateMasterContext.main e w))
       = synced_store UpdateMasterContext.context_data e 0 cs ss k (store w)
    /\ st_file (fst (run UpdateMasterContext.main e w))
       = Some (Json.dumps UpdateMasterContext.context_data)
    /\ st_trace (fst (run UpdateMasterContext.main e w)) = [EvOpen; EvCommit; EvClose].
Proof.
  pose proof (updater_run_spec e w) as Hs.
  destruct (run UpdateMasterContext.main e w) as [s' x]. cbn [fst snd]. intros ->.
  inversion Hs as [| cs ss k c s1 Hw Hcs Hss Hk Hst Hfi Htr Hen Hcl |].
  exists cs, ss, k. auto 10.
Qed.

Lemma updater_failure e w :
  snd (run UpdateMasterContext.main e w) <> 0%Z ->
  snd (run UpdateMasterContext.main e w) = 1%Z
  /\ st_store (fst (run UpdateMasterContext.main e w)) = store w
  /\ ~ In EvCommit (st_trace (fst (run UpdateMasterContext.main e w))).
Proof.
  pose proof (updater_run_spec e w) as Hs.
  destruct (run UpdateMasterContext.main e w) as [s' x]. cbn [fst snd]. intros Hx.
  inversion Hs as [f s1 Hw Hst Hfi Htr Hen Hout | | s1 r Hw Hfi Hfail]; subst.
  - repeat split; trivial. rewrite Htr. intros [].
  - now contradiction Hx.
  - repeat split; [apply (db_failed_store _ _ _ _ _ Hfail) |].
    inversion Hfail as [msg s2 Hf H1 H2 H3 H4 H5 | msg pre c s2 Hc H1 H2 H3 H4 H5 H6];
      rewrite H3; cbn; intuition discriminate.
Qed.

(** Without faults, on a store that has its [contexts] and
    [context_snapshots] tables and for which the engine finds a key for
    one more snapshot row, a run of the updater succeeds. *)
Lemma updater_succeeds e w :
  (forall k, engine_fault e k = None) ->
  write_fault e = None ->
  tbl_contexts (store w) <> None ->
  (exists ss k, tbl_context_snapshots (store w) = Some ss
                /\ allocate (pick_rowid e) (map sn_id ss) = Some k) ->
  snd (run UpdateMasterContext.main e w) = 0%Z.
Proof.
  intros Hnone Hw Hcx (ss & k & Hss & Hk). pose proof (updater_run_spec e w) as Hs.
  destruct (run UpdateMasterContext.main e w) as [s' x]. cbn [fst snd].
  inversion Hs as [f s1 Hf | | s1 r _ Hfi Hfail]; subst; [congruence | reflexivity |].
  exfalso.
  inversion Hfail as [msg s2 Hf G1 G2 G3 G4 G5 | msg pre c s2 Hc G1 G2 G3 G4 G5 G6].
  - rewrite Hnone in Hf. discriminate Hf.
  - destruct Hc as [[n Hn] | [[Hc _] | [[Hc _] | (ss' & Hc & Hno & _)]]].
    + rewrite Hnone in Hn. discriminate Hn.
    + now apply Hcx.
    + congruence.
    + congruence.
Qed.

(** A key the engine allocates is a signed 64-bit integer that no row of
    the table has. *)
Lemma allocate_fresh pick keys k :
  allocate pick keys = Some k ->
  pick keys = Some k /\ ~ In k keys /\ (- 2 ^ 63 <= k <= 2 ^ 63 - 1)%Z.
Proof.
  unfold allocate. destruct (pick keys) as [k0 |]; [| discriminate].
  destruct ((min_rowid <=? k0)%Z && (k0 <=? max_rowid)%Z
            && negb (existsb (Z.eqb k0) keys)) eqn:Hc; [| discriminate].
  intros H. injection H as <-.
  apply andb_true_iff in Hc as [Hc Hfresh]. apply andb_true_iff in Hc as [Hlo Hhi].
  apply Z.leb_le in Hlo, Hhi. unfold min_rowid, max_rowid in *.
  split; [reflexivity | split; [| lia]].
  intros Hin. apply negb_true_iff in Hfresh.
  assert (Hex : existsb (Z.eqb k0) keys = true)
    by (apply existsb_exists; exists k0; split; [exact Hin | apply Z.eqb_refl]).
  congruence.
Qed.

Lemma count_context_app id l1 l2 :
  count_context id (l1 ++ l2) = (count_context id l1 + count_context id l2)%nat.
Proof. unfold count_context. now rewrite filter_app, length_app. Qed.

Lemma count_context_update id content updated_at key l :
  count_context id (map (update_context content updated_at key) l) = count_context id l.
Proof.
  unfold count_context. induction l as [| r l IH]; cbn [map filter]; trivial.
  assert (Hid : cx_id (update_context content updated_at key r) = cx_id r)
    by (unfold update_context; destruct (String.eqb (cx_id r) key); reflexivity).
  rewrite Hid. destruct (String.eqb (cx_id r) id); cbn [List.length]; now rewrite IH.
Qed.

Lemma has_context_count id l :
  if has_context id l then (1 <= count_context id l)%nat else count_context id l = 0%nat.
Proof.
  unfold has_context, count_context. induction l as [| r l IH]; cbn [existsb filter]; trivial.
  destruct (String.eqb (cx_id r) id); cbn [orb List.length]; [lia | exact IH].
Qed.

(** The primary key of [contexts] allows at most one row per key. *)
Lemma primary_key_at_most_one id l :
  NoDup (map cx_id l) -> (count_context id l <= 1)%nat.
Proof.
  unfold count_context. induction l as [| r l IH]; cbn [map filter]; intros Hnd; [cbn; lia |].
  inversion Hnd as [| k ks Hnot Hrest]; subst.
  destruct (String.eqb (cx_id r) id) eqn:Heq; [| now apply IH].
  apply String.eqb_eq in Heq. cbn [List.length].
  assert (H0 : filter (fun r0 => String.eqb (cx_id r0) id) l = []).
  { clear IH Hrest Hnd. induction l as [| r1 l IH1]; cbn [filter]; trivial.
    cbn [map] in Hnot. destruct (String.eqb (cx_id r1) id) eqn:H1.
    - apply String.eqb_eq in H1. exfalso. apply Hnot. left. congruence.
    - apply IH1. intros Hin. apply Hnot. now right. }
  rewrite H0. cbn. lia.
Qed.

Lemma has_context_false_not_in id l :
  has_context id l = false -> ~ In id (map cx_id l).
Proof.
  unfold has_context. induction l as [| r l IH]; cbn [existsb map]; intros H; [intros [] |].
  apply orb_false_iff in H as [H1 H2]. apply String.eqb_neq in H1.
  intros [E | Hin]; [congruence | now apply IH].
Qed.

Lemma map_cx_id_update content updated_at key l :
  map cx_id (map (update_context content updated_at key) l) = map cx_id l.
Proof.
  induction l as [| r l IH]; cbn [map]; [reflexivity |]. rewrite IH. f_equal.
  unfold update_context. now destruct (String.eqb (cx_id r) key).
Qed.

(** No statement of the scripts breaks the primary key of [contexts]:
    a store that starts with distinct keys keeps them distinct. *)
Lemma contexts_key_preserved fk pick q d d' rs :
  exec_stmt fk pick q d = inr (d', rs) ->
  NoDup (map cx_id (rows (tbl_contexts d))) ->
  NoDup (map cx_id (rows (tbl_contexts d'))).
Proof.
  intros Hex Hnd. destruct q.
  - apply exec_insert_sprint_inv in Hex as (l & _ & _ & ->). exact Hnd.
  - apply exec_insert_mission_inv in Hex as (l & _ & _ & _ & ->). exact Hnd.
  - apply exec_select_inv in Hex as (l & _ & -> & _). exact Hnd.
  - apply exec_update_inv in Hex as (l & Hl & ->). rewrite Hl in Hnd.
    cbn [set_contexts tbl_contexts rows] in *. now rewrite map_cx_id_update.
  - apply exec_insert_context_inv in Hex as (l & Hl & Hno & ->). rewrite Hl in Hnd.
    cbn [set_contexts tbl_contexts rows] in *. rewrite map_app. cbn [map].
    apply NoDup_app; trivial.
    + repeat constructor. intros [].
    + intros a Ha [<- | []]. now apply (has_context_false_not_in _ _ Hno).
  - apply exec_insert_snapshot_inv in Hex as (l & k & _ & _ & ->). exact Hnd.
Qed.

(** The insert-or-update leaves exactly one row with the singleton key,
    provided there was at most one. *)
Lemma upsert_master_count content updated_at l :
  (count_context "master_context" l <= 1)%nat ->
  count_context "master_context" (upsert_master content updated_at l) = 1%nat.
Proof.
  intros Hle. unfold upsert_master.
  pose proof (has_context_count "master_context" l) as Hc.
  destruct (has_context "master_context" l).
  - rewrite count_context_update. lia.
  - rewrite count_context_app, Hc. reflexivity.
Qed.

Lemma other_contexts_upsert content updated_at l :
  other_contexts (upsert_master content updated_at l) = other_contexts l.
Proof.
  unfold upsert_master, other_contexts. destruct (has_context "master_context" l).
  - induction l as [| r l IH]; cbn [map filter]; [reflexivity |].
    unfold update_context at 1 2. destruct (String.eqb (cx_id r) "master_context") eqn:Hr.
    + cbn [cx_id]. rewrite Hr. cbn [negb]. exact IH.
    + rewrite Hr. cbn [negb]. now rewrite IH.
  - rewrite filter_app. cbn. now rewrite app_nil_r.
Qed.

Lemma keys_paths_upsert content updated_at l :
  map (fun r => (cx_id r, cx_source_path r)) (upsert_master content updated_at l)
  = (map (fun r => (cx_id r, cx_source_path r)) l
       ++ (if has_context "master_context" l then []
           else [("master_context", UpdateMasterContext.MASTER_CONTEXT_PATH)]))%list.
Proof.
  unfold upsert_master. destruct (has_context "master_context" l).
  - rewrite app_nil_r, map_map. apply map_ext. intros r. unfold update_context.
    now destruct (String.eqb (cx_id r) "master_context").
  - now rewrite map_app.
Qed.

Lemma upsert_master_content content updated_at l r :
  In r (upsert_master content updated_at l) ->
  cx_id r = "master_context" ->
  cx_content r = content /\ cx_updated_at r = updated_at.
Proof.
  unfold upsert_master. destruct (has_context "master_context" l) eqn:Hh; intros Hin Hid.
  - apply in_map_iff in Hin as (r0 & <- & _). unfold update_context in *.
    destruct (String.eqb (cx_id r0) "master_context") eqn:H0; [now split |].
    apply String.eqb_neq in H0. now destruct H0.
  - apply in_app_or in Hin as [Hin | [<- | []]]; [| now split].
    exfalso. apply (has_context_false_not_in _ _ Hh). rewrite <- Hid. now apply in_map.
Qed.

(** The [contexts] table after a successful run is the one of before,
    with the insert-or-update applied at the first clock reading. *)
Lemma updater_success_contexts e w :
  snd (run UpdateMasterContext.main e w) = 0%Z ->
  rows (tbl_contexts (store (world_of (fst (run UpdateMasterContext.main e w)))))
  = upsert_master (Json.dumps UpdateMasterContext.context_data)
                  (Datetime.isoformat (clock e 0)) (rows (tbl_contexts (store w))).
Proof.
  intros Hok. apply updater_success in Hok as (cs & ss & k & Hcs & _ & _ & Hst & _).
  cbn [world_of store]. rewrite Hst, Hcs.
  now cbn [synced_store set_context_snapshots set_contexts tbl_contexts rows].
Qed.

Lemma updater_runs_effect envs w w' :
  updater_runs envs w w' ->
  (count_context "master_context" (rows (tbl_contexts (store w))) <= 1)%nat ->
  (count_context "master_context" (rows (tbl_contexts (store w'))) <= 1)%nat
  /\ (envs <> [] -> count_context "master_context" (rows (tbl_contexts (store w'))) = 1%nat)
  /\ exists added,
      rows (tbl_context_snapshots (store w'))
      = (rows (tbl_context_snapshots (store w)) ++ added)%list
      /\ List.length added = List.length envs.
Proof.
  induction 1 as [w | e es w w' Hok Hruns IH]; intros Hle.
  - split; [exact Hle | split; [congruence |]]. exists []. now rewrite app_nil_r.
  - pose proof (updater_success_contexts e w Hok) as Hrows.
    apply updater_success in Hok as (cs & ss & k & Hcs & Hss & Hk & Hst & _).
    assert (H1 : count_context "master_context"
                   (rows (tbl_contexts
                      (store (world_of (fst (run UpdateMasterContext.main e w)))))) = 1%nat).
    { rewrite Hrows. now apply upsert_master_count. }
    destruct IH as (IH1 & IH2 & added & IH3 & IH4); [lia |].
    split; [exact IH1 | split].
    + intros _. destruct es as [| e1 es1].
      * inversion Hruns; subst. exact H1.
      * apply IH2. discriminate.
    + exists (new_snapshot UpdateMasterContext.context_data e 0 k :: added). split.
      * rewrite IH3. cbn [world_of store]. rewrite Hst, Hss.
        cbn [synced_store set_context_snapshots tbl_context_snapshots rows].
        now rewrite <- app_assoc.
      * cbn [List.length]. now rewrite IH4.
Qed.

(** Over successive runs the rows under other keys stay as they are, and
    the keys and source paths stay in place; a row is added, at the end,
    only when no [master_context] row existed. *)
Lemma updater_runs_contexts envs w w' :
  updater_runs envs w w' ->
  (count_context "master_context" (rows (tbl_contexts (store w))) <= 1)%nat ->
  other_contexts (rows (tbl_contexts (store w')))
  = other_contexts (rows (tbl_contexts (store w)))
  /\ map (fun r => (cx_id r, cx_source_path r)) (rows (tbl_contexts (store w')))
     = (map (fun r => (cx_id r, cx_source_path r)) (rows (tbl_contexts (store w)))
          ++ (match envs with
              | [] => []
              | _ :: _ =>
                  if (count_context "master_context" (rows (tbl_contexts (store w))) =? 0)%nat
                  then [("master_context", "cmos/context/MASTER_CONTEXT.json")]
                  else []
              end))%list.
Proof.
  induction 1 as [w | e es w w' Hok Hruns IH]; intros Hle.
  - split; [reflexivity | now rewrite app_nil_r].
  - pose proof (updater_success_contexts e w Hok) as Hrows.
    assert (H1 : count_context "master_context"
                   (rows (tbl_contexts
                      (store (world_of (fst (run UpdateMasterContext.main e w)))))) = 1%nat).
    { rewrite Hrows. now apply upsert_master_count. }
    destruct IH as (IH1 & IH2); [lia |].
    rewrite IH1, IH2, H1, Hrows, other_contexts_upsert, keys_paths_upsert.
    split; [reflexivity |].
    assert (Hnil : (match es with
                    | [] => []
                    | _ :: _ => if (1 =? 0)%nat
                                then [("master_context", "cmos/context/MASTER_CONTEXT.json")]
                                else []
                    end) = @nil (string * string)) by now destruct es.
    rewrite Hnil, app_nil_r. f_equal.
    pose proof (has_context_count "master_context" (rows (tbl_contexts (store w)))) as Hc.
    destruct (has_context "master_context" (rows (tbl_contexts (store w)))).
    + destruct (count_context "master_context" (rows (tbl_contexts (store w))));
        [lia | reflexivity].
    + now rewrite Hc.
Qed.

(** After successive runs every [master_context] row holds the document
    and the first clock reading of the last run. *)
Lemma updater_runs_last envs w w' :
  updater_runs envs w w' ->
  envs <> [] ->
  forall r d,
    In r (rows (tbl_contexts (store w'))) ->
    cx_id r = "master_context" ->
    cx_content r = Json.dumps UpdateMasterContext.context_data
    /\ cx_updated_at r = Datetime.isoformat (clock (last envs d) 0).
Proof.
  induction 1 as [w | e es w w' Hok Hruns IH]; intros Hne r d Hin Hid; [congruence |].
  destruct es as [| e1 es1].
  - inversion Hruns; subst. rewrite (updater_success_contexts e w Hok) in Hin.
    cbn [last]. now apply upsert_master_content with (l := rows (tbl_contexts (store w))).
  - change (last (e :: e1 :: es1) d) with (last (e1 :: es1) d).
    apply IH; trivial. discriminate.
Qed.

(** ** C2 *)

(** C2.  After any positive number of successful runs of the context
    updater, started on a store with at most one row of [contexts] under
    the key [master_context] (what the primary key of the table
    guarantees), there is exactly one such row, and the
    [context_snapshots] table is the old one followed by one new row per
    run: no earlier snapshot was changed or removed.  The runs update the
    row where one exists and insert it only where none does: the keys and
    source paths of [contexts] are those of before, in the same order,
    followed by the key [master_context] with the path of the context
    file exactly when no such row existed; the rows under other keys are
    those of before; and every [master_context] row holds the serialized
    document as its content and the first clock reading of the last run
    as its [updated_at]. *)
Theorem updater_runs_keep_one_context (envs : list env) (w w' : world) :
  envs <> [] ->
  (count_context "master_context" (rows (tbl_contexts (store w))) <= 1)%nat ->
  updater_runs envs w w' ->
  count_context "master_context" (rows (tbl_contexts (store w'))) = 1%nat
  /\ (exists added,
         rows (tbl_context_snapshots (store w'))
         = (rows (tbl_context_snapshots (store w)) ++ added)%list
         /\ List.length added = List.length envs)
  /\ map (fun r => (cx_id r, cx_source_path r)) (rows (tbl_contexts (store w')))
     = (map (fun r => (cx_id r, cx_source_path r)) (rows (tbl_contexts (store w)))
          ++ (if (count_context "master_context" (rows (tbl_contexts (store w))) =? 0)%nat
              then [("master_context", "cmos/context/MASTER_CONTEXT.json")]
              else []))%list
  /\ other_contexts (rows (tbl_contexts (store w')))
     = other_contexts (rows (tbl_contexts (store w)))
  /\ forall r d,
      In r (rows (tbl_contexts (store w'))) ->
      cx_id r = "master_context" ->
      cx_content r = Json.dumps UpdateMasterContext.context_data
      /\ cx_updated_at r = Datetime.isoformat (clock (last envs d) 0).
Proof.
  intros Hne Hle Hruns.
  destruct (updater_runs_effect envs w w' Hruns Hle) as (_ & H1 & H2).
  destruct (updater_runs_contexts envs w w' Hruns Hle) as (H3 & H4).
  split; [now apply H1 | split; [exact H2 | split; [| split; [exact H3 |]]]].
  - rewrite H4. now destruct envs.
  - now apply updater_runs_last with (w := w).
Qed.

Lemma updater_runs_keep_one_context_witness :
  let w0 := mkWorld empty_store None in
  let w1 := world_of (fst (run UpdateMasterContext.main calm w0)) in
  let w2 := world_of (fst (run UpdateMasterContext.main calm w1)) in
  updater_runs [calm; calm] w0 w2
  /\ count_context "master_context" (rows (tbl_contexts (store w2))) = 1%nat
  /\ List.length (rows (tbl_context_snapshots (store w2))) = 2%nat
  /\ map (fun r => (cx_id r, cx_source_path r)) (rows (tbl_contexts (store w2)))
     = [("master_context", "cmos/context/MASTER_CONTEXT.json")].
Proof.
  cbv zeta.
  assert (Hruns : updater_runs [calm; calm] (mkWorld empty_store None)
            (world_of (fst (run UpdateMasterContext.main calm
               (world_of (fst (run UpdateMasterContext.main calm
                  (mkWorld empty_store None)))))))).
  { apply runs_more; [vm_compute; reflexivity |].
    apply runs_more; [vm_compute; reflexivity |].
    apply runs_none. }
  assert (Hne : [calm; calm] <> []) by discriminate.
  assert (Hle : (count_context "master_context"
                   (rows (tbl_contexts (store (mkWorld empty_store None)))) <= 1)%nat)
    by (cbn; lia).
  destruct (updater_runs_keep_one_context _ _ _ Hne Hle Hruns)
    as (H1 & (added & H2 & H3) & H4 & _).
  split; [exact Hruns | split; [exact H1 | split; [| exact H4]]].
  rewrite H2. cbn [store empty_store tbl_context_snapshots rows app]. exact H3.
Defined.

(** ** C4 *)

(** C4.  In a run of the context updater that exits with status 0, the
    snapshot row appended by the run holds, character for character, the
    text written to the context file by the same run, the serialization
    of the one document; a run with another status appends no row. *)
Theorem snapshot_content_is_file_content (e : env) (w : world) :
  let out := run UpdateMasterContext.main e w in
  (snd out = 0%Z ->
   exists old r,
     tbl_context_snapshots (store w) = Some old
     /\ tbl_context_snapshots (st_store (fst out)) = Some (old ++ [r])%list
     /\ st_file (fst out) = Some (sn_content r)
     /\ sn_content r = Json.dumps UpdateMasterContext.context_data)
  /\ (snd out <> 0%Z ->
      tbl_context_snapshots (st_store (fst out)) = tbl_context_snapshots (store w)).
Proof.
  cbv zeta. split.
  - intros Hok. apply updater_success in Hok as (cs & ss & k & Hcs & Hss & _ & Hst & Hfi & _).
    exists ss, (new_snapshot UpdateMasterContext.context_data e 0 k).
    rewrite Hst, Hfi. repeat split; trivial.
  - intros Hko. apply updater_failure in Hko as (_ & Hst & _). now rewrite Hst.
Qed.

Lemma snapshot_content_is_file_content_witness :
  snd (run UpdateMasterContext.main calm (mkWorld empty_store None)) = 0%Z
  /\ exists r,
      tbl_context_snapshots
        (st_store (fst (run UpdateMasterContext.main calm (mkWorld empty_store None))))
      = Some [r]
      /\ st_file (fst (run UpdateMasterContext.main calm (mkWorld empty_store None)))
         = Some (sn_content r).
Proof.
  assert (H0 : snd (run UpdateMasterContext.main calm (mkWorld empty_store None)) = 0%Z)
    by (vm_compute; reflexivity).
  split; [exact H0 |].
  destruct (proj1 (snapshot_content_is_file_content calm (mkWorld empty_store None)) H0)
    as (old & r & Hold & Hnew & Hfile & _).
  cbn [store empty_store tbl_context_snapshots] in Hold. injection Hold as <-.
  exists r. split; [exact Hnew | exact Hfile].
Defined.

(** ** C5 *)

(** C5.  A run of the context updater either exits with status 0 having
    committed, in one commit, both the insert-or-update of the
    [master_context] row and the new snapshot row, or exits with status 1
    having changed nothing in the store.  In the first case the snapshot
    row carries the key the engine came up with, a signed 64-bit integer
    that no earlier snapshot row has.  In the second case, when the
    failure is a storage error (the file write went through), the message
    of the error the engine raised was printed after the words
    "Database error". *)
Theorem store_sync_is_atomic (e : env) (w : world) :
  let out := run UpdateMasterContext.main e w in
  (snd out = 0%Z
   /\ st_trace (fst out) = [EvOpen; EvCommit; EvClose]
   /\ exists cs ss k,
       tbl_contexts (store w) = Some cs
       /\ tbl_context_snapshots (store w) = Some ss
       /\ pick_rowid e (map sn_id ss) = Some k
       /\ ~ In k (map sn_id ss)
       /\ (- 2 ^ 63 <= k <= 2 ^ 63 - 1)%Z
       /\ tbl_contexts (st_store (fst out))
          = Some (upsert_master (Json.dumps UpdateMasterContext.context_data)
                                (Datetime.isoformat (clock e 0)) cs)
       /\ tbl_context_snapshots (st_store (fst out))
          = Some (ss ++ [new_snapshot UpdateMasterContext.context_data e 0 k])%list
       /\ tbl_sprints (st_store (fst out)) = tbl_sprints (store w)
       /\ tbl_missions (st_store (fst out)) = tbl_missions (store w))
  \/ (snd out = 1%Z
      /\ st_store (fst out) = store w
      /\ ~ In EvCommit (st_trace (fst out))
      /\ (write_fault e = None ->
          exists msg,
            In (EvError msg) (st_trace (fst out))
            /\ In ("❌ Database error: " ++ msg) (st_stdout (fst out)))).
Proof.
  cbv zeta.
  destruct (Z.eq_dec (snd (run UpdateMasterContext.main e w)) 0) as [Hok | Hko].
  - left. split; [exact Hok |].
    apply updater_success in Hok as (cs & ss & k & Hcs & Hss & Hk & Hst & Hfi & Htr).
    apply allocate_fresh in Hk as (Hpick & Hfresh & Hrange).
    split; [exact Htr |]. exists cs, ss, k. rewrite Hst.
    split; [exact Hcs | split; [exact Hss | split; [exact Hpick | split; [exact Hfresh |]]]].
    split; [exact Hrange |]. repeat split.
  - right. destruct (updater_failure e w Hko) as (H1 & H2 & H3).
    repeat split; trivial. intros Hw.
    pose proof (updater_run_spec e w) as Hs.
    destruct (run UpdateMasterContext.main e w) as [s' x]. cbn [fst snd] in *.
    inversion Hs as [f s1 Hf | | s1 r _ Hfi Hfail]; subst; try congruence.
    change (fun msg => "❌ Database error: " ++ msg) with error_line.
    inversion Hfail as [msg s2 Hf G1 G2 G3 G4 G5 | msg pre c s2 Hc G1 G2 G3 G4 G5 G6];
      exists msg; rewrite G3, G4; split;
        try (apply in_or_app; right; cbn; tauto).
Qed.

Lemma store_sync_is_atomic_witness :
  snd (run UpdateMasterContext.main unwritable (mkWorld empty_store None)) = 1%Z
  /\ st_store (fst (run UpdateMasterContext.main unwritable (mkWorld empty_store None)))
     = empty_store
  /\ exists msg,
      In ("❌ Database error: " ++ msg)
         (st_stdout (fst (run UpdateMasterContext.main unwritable (mkWorld empty_store None)))).
Proof.
  destruct (store_sync_is_atomic unwritable (mkWorld empty_store None))
    as [(H0 & _) | (H1 & H2 & _ & H4)].
  - exfalso. revert H0. vm_compute. discriminate.
  - split; [exact H1 | split; [exact H2 |]].
    destruct (H4 eq_refl) as (msg & _ & Hin). exists msg. exact Hin.
Defined.

(** ** C6 *)

Lemma error_line_says_error msg : contains_ci "error" (error_line msg) = true.
Proof. vm_compute. reflexivity. Qed.

Lemma db_failed_reports e cause s s' r :
  st_trace s = [] ->
  db_failed e cause s (s', r) ->
  reports_errors (s', exit_status r).
Proof.
  intros Hnil Hfail msg0 Hin. cbn [fst snd] in *.
  rewrite (db_failed_status _ _ _ _ _ Hfail).
  split; [discriminate | split; [| apply error_line_says_error]].
  inversion Hfail as [msg s1 Hf H1 H2 H3 H4 H5 | msg pre c s1 Hc H1 H2 H3 H4 H5 H6]; subst;
    rewrite H3, Hnil in Hin; cbn in Hin.
  - destruct Hin as [E | []]. injection E as <-. rewrite H4. apply in_or_app. right. now left.
  - destruct Hin as [E | [E | [E | []]]]; try discriminate E.
    injection E as <-. rewrite H4. apply in_or_app. right. now left.
Qed.

Lemma db_failed_has_error e cause s s' r :
  db_failed e cause s (s', r) -> exists msg, In (EvError msg) (st_trace s').
Proof.
  intros Hfail.
  inversion Hfail as [msg s1 Hf H1 H2 H3 H4 H5 | msg pre c s1 Hc H1 H2 H3 H4 H5 H6];
    exists msg; rewrite H3; apply in_or_app; right; cbn; tauto.
Qed.

(** C6.  In both scripts, every storage error raised during a run is
    printed in a line that contains the word "error", and the run then
    exits with a status other than 0; a run in which no storage error is
    raised (and, for the updater, the file write goes through) exits
    with status 0. *)
Theorem storage_errors_are_reported (e : env) (w : world) :
  reports_errors (run SeedSprint09.main e w)
  /\ reports_errors (run UpdateMasterContext.main e w)
  /\ (no_storage_error (run SeedSprint09.main e w) ->
      snd (run SeedSprint09.main e w) = 0%Z)
  /\ (write_fault e = None ->
      no_storage_error (run UpdateMasterContext.main e w) ->
      snd (run UpdateMasterContext.main e w) = 0%Z).
Proof.
  split; [| split; [| split]].
  - unfold run. pose proof (seeder_run_spec e w) as Hs.
    destruct (SeedSprint09.main e (boot w)) as [s' r].
    inversion Hs as [d' c s1 Hst Hd Hfi Htr Hout Hen Hcl | o Hfail]; subst.
    + intros msg Hin. cbn [fst] in Hin. rewrite Htr in Hin. cbn in Hin.
      exfalso. intuition discriminate.
    + now apply db_failed_reports with (e := e) (s := boot w) (cause :=
        fun msg => seed_statements (foreign_keys e) (pick_rowid e) SeedSprint09.sprint_data
                     SeedSprint09.missions (st_store (boot w)) = inl msg).
  - pose proof (updater_run_spec e w) as Hs.
    destruct (run UpdateMasterContext.main e w) as [s' x].
    inversion Hs as [f s1 Hw Hst Hfi Htr Hen Hout
                    | cs ss k c s1 Hw Hcs Hss Hk Hst Hfi Htr Hen Hcl
                    | s1 r Hw Hfi Hfail]; subst;
      intros msg Hin; cbn [fst snd] in *.
    + rewrite Htr in Hin. destruct Hin.
    + rewrite Htr in Hin. cbn in Hin. exfalso. intuition discriminate.
    + pose proof (db_failed_reports e _ (after_write w) s' r eq_refl Hfail msg Hin) as Hrep.
      cbn [fst snd] in Hrep. rewrite (db_failed_status _ _ _ _ _ Hfail) in Hrep. exact Hrep.
  - unfold run. pose proof (seeder_run_spec e w) as Hs.
    destruct (SeedSprint09.main e (boot w)) as [s' r]. cbn [fst snd].
    intros Hnone.
    inversion Hs as [d' c s1 Hst Hd Hfi Htr Hout Hen Hcl | o Hfail]; subst; [reflexivity |].
    destruct (db_failed_has_error _ _ _ _ _ Hfail) as [msg Hin].
    now destruct (Hnone msg).
  - intros Hw Hnone. pose proof (updater_run_spec e w) as Hs.
    destruct (run UpdateMasterContext.main e w) as [s' x]. cbn [fst snd] in *.
    inversion Hs as [f s1 Hf | | s1 r _ Hfi Hfail]; subst; try congruence.
    destruct (db_failed_has_error _ _ _ _ _ Hfail) as [msg Hin].
    now destruct (Hnone msg).
Qed.

Lemma storage_errors_are_reported_witness :
  snd (run SeedSprint09.main calm (mkWorld empty_store None)) = 0%Z
  /\ snd (run UpdateMasterContext.main calm (mkWorld empty_store None)) = 0%Z
  /\ snd (run SeedSprint09.main unwritable (mkWorld empty_store None)) <> 0%Z
  /\ snd (run UpdateMasterContext.main unwritable (mkWorld empty_store None)) <> 0%Z.
Proof.
  destruct (storage_errors_are_reported calm (mkWorld empty_store None))
    as (_ & _ & H3 & H4).
  destruct (storage_errors_are_reported unwritable (mkWorld empty_store None))
    as (H1 & H2 & _ & _).
  split; [| split; [| split]].
  - apply H3. intros msg. vm_compute. intuition discriminate.
  - apply H4; [reflexivity |]. intros msg. vm_compute. intuition discriminate.
  - apply (H1 "unable to open database file"). vm_compute. now left.
  - apply (H2 "unable to open database file"). vm_compute. now left.
Defined.

(** ** C7 *)

Lemma released_closed (s : state) (c : connection) (mid : list event) :
  st_engine s = Some c -> closed c = true ->
  st_trace s = ([EvOpen] ++ mid ++ [EvClose])%list ->
  ~ In EvOpen mid -> ~ In EvClose mid ->
  released s.
Proof.
  intros He Hc Ht H1 H2. split.
  - unfold connection_open. now rewrite He, Hc.
  - right. now exists mid.
Qed.

Lemma released_never_opened (s : state) :
  st_engine s = None -> ~ In EvOpen (st_trace s) -> ~ In EvClose (st_trace s) ->
  released s.
Proof.
  intros He H1 H2. split.
  - unfold connection_open. now rewrite He.
  - now left.
Qed.

Lemma db_failed_released e cause s s' r :
  st_trace s = [] -> st_engine s = None ->
  db_failed e cause s (s', r) -> released s'.
Proof.
  intros Hnil Hnone Hfail.
  inversion Hfail as [msg s1 Hf H1 H2 H3 H4 H5 | msg pre c s1 Hc H1 H2 H3 H4 H5 H6]; subst.
  - apply released_never_opened; [congruence | |];
      rewrite H3, Hnil; cbn; intuition discriminate.
  - apply released_closed with (c := c) (mid := [EvError msg]); trivial;
      [now rewrite H3, Hnil | |]; cbn; intuition discriminate.
Qed.

(** C7.  At the end of every run of either script no connection is
    held: on every path on which a connection was opened it has been
    closed, after everything else the engine did, and on the paths on
    which none was opened (the open itself failed, or the updater's file
    write failed first) there is none to release. *)
Theorem connection_always_released (e : env) (w : world) :
  released (fst (run SeedSprint09.main e w))
  /\ released (fst (run UpdateMasterContext.main e w)).
Proof.
  split.
  - unfold run. pose proof (seeder_run_spec e w) as Hs.
    destruct (SeedSprint09.main e (boot w)) as [s' r]. cbn [fst].
    inversion Hs as [d' c s1 Hst Hd Hfi Htr Hout Hen Hcl | o Hfail]; subst.
    + apply released_closed with (c := c) (mid := [EvCommit]); trivial;
        cbn; intuition discriminate.
    + now apply db_failed_released in Hfail.
  - pose proof (updater_run_spec e w) as Hs.
    destruct (run UpdateMasterContext.main e w) as [s' x]. cbn [fst].
    inversion Hs as [f s1 Hw Hst Hfi Htr Hen Hout
                    | cs ss k c s1 Hw Hcs Hss Hk Hst Hfi Htr Hen Hcl
                    | s1 r Hw Hfi Hfail]; subst.
    + apply released_never_opened; trivial; rewrite Htr; intros [].
    + apply released_closed with (c := c) (mid := [EvCommit]); trivial;
        cbn; intuition discriminate.
    + now apply db_failed_released in Hfail.
Qed.

(** The path on which the open itself fails, run: the error is printed,
    the [finally] clause finds [conn] unbound, and the interpreter ends
    on that exception with status 1 and no connection. *)
Example connect_failure_path :
  SeedSprint09.main unwritable (boot (mkWorld empty_store None))
  = (mkState empty_store None [error_line "unable to open database file"] None false 1 0
             [EvError "unable to open database file"],
     Raise (UnboundLocalError "conn")).
Proof. vm_compute. reflexivity. Qed.

(** ** C8 *)

Lemma length_append (s1 s2 : string) :
  String.length (s1 ++ s2) = (String.length s1 + String.length s2)%nat.
Proof. induction s1 as [| c s1 IH]; cbn; [reflexivity | now rewrite IH]. Qed.

Lemma denotes_spec n s : denotes n s = true -> number_of s = Some n.
Proof.
  unfold denotes. destruct (number_of s) as [m |]; [| discriminate].
  intros H. apply Nat.eqb_eq in H. now subst.
Qed.

(** A field below 100 is printed on two digits that write it. *)
Lemma zfill_two_digits n : (n < 100)%nat -> two_digits n (Datetime.zfill 2 n).
Proof.
  intros Hn.
  assert (Hall : forallb two_digits_ok (seq 0 100) = true) by (vm_compute; reflexivity).
  assert (Hok : two_digits_ok n = true).
  { apply (proj1 (forallb_forall _ _) Hall). apply in_seq. lia. }
  unfold two_digits_ok in Hok. apply andb_true_iff in Hok as [Hlen Hden].
  split; [now apply Nat.eqb_eq | now apply denotes_spec].
Qed.

(** A year of the calendar is printed in digits that write it, without a
    zero in front. *)
Lemma decimal_year_digits n :
  (1 <= Z.of_nat n <= 9999)%Z -> year_digits n (Datetime.decimal n).
Proof.
  intros Hn.
  assert (Hall : forallb year_digits_ok (seq 1 (Z.to_nat 9999)) = true)
    by (vm_compute; reflexivity).
  assert (Hok : year_digits_ok n = true).
  { apply (proj1 (forallb_forall _ _) Hall). apply in_seq. lia. }
  unfold year_digits_ok in Hok.
  apply andb_true_iff in Hok as [Hok Hlen]. apply andb_true_iff in Hok as [Hden Hlead].
  split; [now apply denotes_spec | split].
  - intros rest Heq. rewrite Heq in Hlead. discriminate Hlead.
  - intros Hbig. apply orb_true_iff in Hlen as [Hsmall | Hlen].
    + apply Nat.ltb_lt in Hsmall. lia.
    + now apply Nat.eqb_eq.
Qed.

(** What [strftime] prints for a date of the calendar is its compact
    numeric form. *)
Lemma strftime_compact_spec dt :
  valid_datetime dt -> compact_timestamp dt (Datetime.strftime_compact dt).
Proof.
  intros (Hy & Hmo & Hd & Hh & Hmi & Hs).
  exists (Datetime.decimal (Datetime.year dt)), (Datetime.zfill 2 (Datetime.month dt)),
    (Datetime.zfill 2 (Datetime.day dt)), (Datetime.zfill 2 (Datetime.hour dt)),
    (Datetime.zfill 2 (Datetime.minute dt)), (Datetime.zfill 2 (Datetime.second dt)).
  split; [reflexivity |].
  split; [now apply decimal_year_digits |].
  repeat split; try (apply zfill_two_digits; lia).
Qed.

(** A year before 1000 is printed without padding: the label is then
    shorter than twenty-four characters. *)
Example strftime_early_year :
  Datetime.strftime_compact (Datetime.mkDatetime 987 1 2 3 4 5 0) = "9870102_030405".
Proof. vm_compute. reflexivity. Qed.

(** C8.  In a run of the context updater whose second clock reading is a
    date of the calendar, the [content_hash] of the snapshot row appended
    by a run that exits with status 0 is the prefix [snapshot_] followed
    by that reading in compact numeric form: the digits of the year, two
    digits each for the month and the day, an underscore, and two digits
    each for the hour, the minute and the second.  The same label results
    whatever document is handed to the store phase: the content plays no
    part in it. *)
Theorem snapshot_label_is_timestamp (e : env) (w : world) :
  valid_datetime (clock e 1) ->
  let out := run UpdateMasterContext.main e w in
  exists t,
    compact_timestamp (clock e 1) t
    /\ (snd out = 0%Z ->
        exists old r,
          tbl_context_snapshots (store w) = Some old
          /\ tbl_context_snapshots (st_store (fst out)) = Some (old ++ [r])%list
          /\ sn_content_hash r = "snapshot_" ++ t)
    /\ (forall (doc : Json.json) (s' : state),
           UpdateMasterContext.create_context_snapshot doc e (after_write w) = (s', Ok tt) ->
           exists old r,
             tbl_context_snapshots (store w) = Some old
             /\ tbl_context_snapshots (st_store s') = Some (old ++ [r])%list
             /\ sn_content r = Json.dumps doc
             /\ sn_content_hash r = "snapshot_" ++ t).
Proof.
  intros Hvalid. cbv zeta. exists (Datetime.strftime_compact (clock e 1)).
  split; [now apply strftime_compact_spec | split].
  - intros Hok. apply updater_success in Hok as (cs & ss & k & Hcs & Hss & _ & Hst & _).
    exists ss, (new_snapshot UpdateMasterContext.context_data e 0 k).
    rewrite Hst. split; [exact Hss | split; reflexivity].
  - intros doc s' Hrun.
    pose proof (create_context_snapshot_spec doc e (after_write w) eq_refl) as Hs.
    rewrite Hrun in Hs.
    inversion Hs as [cs ss k line c s1 Hcs Hss Hk Hst Hfi Htr Hout Hen Hcl | o Hfail]; subst.
    + exists ss, (new_snapshot doc e 0 k). rewrite Hst. repeat split; trivial.
    + inversion Hfail.
Qed.

Lemma snapshot_label_is_timestamp_witness :
  valid_datetime (clock calm 1)
  /\ snd (run UpdateMasterContext.main calm (mkWorld empty_store None)) = 0%Z
  /\ exists t r,
      compact_timestamp (clock calm 1) t
      /\ tbl_context_snapshots
           (st_store (fst (run UpdateMasterContext.main calm (mkWorld empty_store None))))
         = Some [r]
      /\ sn_content_hash r = "snapshot_" ++ t.
Proof.
  assert (Hv : valid_datetime (clock calm 1)).
  { unfold valid_datetime, calm.
    cbn [clock Datetime.year Datetime.month Datetime.day Datetime.hour Datetime.minute
         Datetime.second]. lia. }
  assert (H0 : snd (run UpdateMasterContext.main calm (mkWorld empty_store None)) = 0%Z)
    by (vm_compute; reflexivity).
  split; [exact Hv | split; [exact H0 |]].
  destruct (snapshot_label_is_timestamp calm (mkWorld empty_store None) Hv)
    as (t & Ht & Hrun & _).
  destruct (Hrun H0) as (old & r & Hold & Hnew & Hhash).
  cbn [store empty_store tbl_context_snapshots] in Hold. injection Hold as <-.
  exists t, r. split; [exact Ht | split; [exact Hnew | exact Hhash]].
Defined.

(** The label of that run, computed. *)
Example snapshot_label_demo :
  option_map (map sn_content_hash)
    (tbl_context_snapshots
       (st_store (fst (run UpdateMasterContext.main calm (mkWorld empty_store None)))))
  = Some ["snapshot_20251107_223001"].
Proof. vm_compute. reflexivity. Qed.

(** ** C9 *)

(** The serialized document, measured: 5652 bytes. *)
Example context_document_length :
  N.of_nat (String.length (Json.dumps UpdateMasterContext.context_data)) = 5652%N.
Proof. vm_compute. reflexivity. Qed.

(** C9.  Whenever the file write goes through, the context file holds
    the serialization of the literal document, a constant: it is the
    same for any two runs, whatever the environments (clock, engine
    faults), the stores and the earlier file contents. *)
Theorem context_file_is_constant (e1 e2 : env) (w1 w2 : world) :
  write_fault e1 = None ->
  write_fault e2 = None ->
  st_file (fst (run UpdateMasterContext.main e1 w1))
  = Some (Json.dumps UpdateMasterContext.context_data)
  /\ st_file (fst (run UpdateMasterContext.main e1 w1))
     = st_file (fst (run UpdateMasterContext.main e2 w2)).
Proof.
  assert (H : forall e w, write_fault e = None ->
                          st_file (fst (run UpdateMasterContext.main e w))
                          = Some (Json.dumps UpdateMasterContext.context_data)).
  { intros e w Hw. pose proof (updater_run_spec e w) as Hs.
    destruct (run UpdateMasterContext.main e w) as [s' x]. cbn [fst].
    inversion Hs; subst; congruence. }
  intros H1 H2. split; [now apply H |]. now rewrite !H.
Qed.

Lemma context_file_is_constant_witness :
  st_file (fst (run UpdateMasterContext.main calm (mkWorld empty_store None)))
  = st_file (fst (run UpdateMasterContext.main unwritable
                      (mkWorld (mkDb None None None None) (Some "{}")))).
Proof.
  exact (proj2 (context_file_is_constant calm unwritable (mkWorld empty_store None)
                  (mkWorld (mkDb None None None None) (Some "{}")) eq_refl eq_refl)).
Defined.

(** ** C10 *)

(** C10.  When the file write of the context updater fails, the run
    ends there on the uncaught [OSError], with status 1: no call was made
    to the engine, no connection exists, and the store is as it was. *)
Theorem file_fault_leaves_store_untouched (e : env) (w : world) (f : file_fault) :
  write_fault e = Some f ->
  let out := run UpdateMasterContext.main e w in
  snd out = 1%Z
  /\ snd (UpdateMasterContext.main e (boot w)) = Raise (OSError (fault_message f))
  /\ st_store (fst out) = store w
  /\ st_trace (fst out) = []
  /\ st_ops (fst out) = 0%nat
  /\ st_engine (fst out) = None.
Proof.
  intros Hf. cbv zeta. unfold run.
  rewrite (update_main_write_fails e w f Hf). repeat split.
Qed.

Lemma file_fault_leaves_store_untouched_witness :
  write_fault read_only_file = Some (OpenFails "[Errno 13] Permission denied")
  /\ snd (run UpdateMasterContext.main read_only_file (mkWorld empty_store None)) = 1%Z
  /\ st_store (fst (run UpdateMasterContext.main read_only_file (mkWorld empty_store None)))
     = empty_store.
Proof.
  destruct (file_fault_leaves_store_untouched read_only_file (mkWorld empty_store None)
              (OpenFails "[Errno 13] Permission denied") eq_refl)
    as (H1 & _ & H3 & _).
  exact (conj eq_refl (conj H1 H3)).
Defined.

(** * Further properties of the two scripts *)

(** ** The seeder on any store *)

Lemma has_mission_app id l1 l2 :
  has_mission id (l1 ++ l2) = has_mission id l1 || has_mission id l2.
Proof. unfold has_mission. apply existsb_app. Qed.

(** Inserts that go through found every key free. *)
Lemma insert_missions_fresh fk pick rs :
  forall d d',
    insert_missions fk pick rs d = inr d' ->
    forall r, In r rs -> has_mission (mi_id r) (rows (tbl_missions d)) = false.
Proof.
  induction rs as [| r0 rest IH]; intros d d' H r Hin; [destruct Hin |].
  cbn [insert_missions] in H.
  destruct (exec_stmt fk pick (InsertMission r0) d) as [msg | [d1 rs1]] eqn:Hex; [discriminate |].
  apply exec_insert_mission_inv in Hex as (l & Hl & Hfree & _ & ->).
  rewrite Hl. cbn [rows]. destruct Hin as [<- | Hin]; [exact Hfree |].
  specialize (IH _ _ H r Hin). cbn [set_missions tbl_missions rows] in IH.
  rewrite has_mission_app in IH. now apply orb_false_iff in IH as [IH _].
Qed.

(** Inserts with fresh, pairwise distinct keys, whose sprint is there
    when foreign keys are enforced, all go through. *)
Lemma insert_missions_accepts fk pick rs :
  forall d mi,
    tbl_missions d = Some mi ->
    NoDup (map mi_id rs) ->
    (forall r, In r rs -> has_mission (mi_id r) mi = false) ->
    (exists ps, tbl_sprints d = Some ps
                /\ forall r, In r rs -> has_sprint (mi_sprint_id r) ps = true) ->
    insert_missions fk pick rs d = inr (set_missions (mi ++ rs) d).
Proof.
  induction rs as [| r0 rest IH]; intros d mi Hmi Hnd Hfree Hfk.
  - cbn [insert_missions]. rewrite app_nil_r. f_equal.
    destruct d as [a b c g]. cbn in Hmi. now subst b.
  - cbn [insert_missions]. cbn [map] in Hnd. inversion Hnd as [| k ks Hnot Hrest]; subst.
    destruct Hfk as (ps & Hps & Hall).
    assert (Hex : exec_stmt fk pick (InsertMission r0) d = inr (set_missions (mi ++ [r0]) d, [])).
    { unfold exec_stmt. rewrite Hmi, (Hfree r0 (or_introl eq_refl)).
      destruct fk; [| reflexivity]. now rewrite Hps, (Hall r0 (or_introl eq_refl)). }
    rewrite Hex. rewrite (IH (set_missions (mi ++ [r0]) d) (mi ++ [r0])%list); trivial.
    + unfold set_missions. cbn [tbl_sprints tbl_missions tbl_contexts tbl_context_snapshots].
      now rewrite <- app_assoc.
    + intros r Hin. rewrite has_mission_app, (Hfree r (or_intror Hin)).
      cbn [has_mission existsb orb]. rewrite orb_false_r.
      apply String.eqb_neq. intros Heq. apply Hnot. rewrite Heq.
      now apply in_map.
    + exists ps. split; [exact Hps |]. intros r Hin. apply Hall. now right.
Qed.

(** When the table is there and the sprints are, a refused insert can
    only be a duplicate key. *)
Lemma insert_missions_refusal fk pick rs :
  forall d mi msg,
    tbl_missions d = Some mi ->
    (exists ps, tbl_sprints d = Some ps
                /\ forall r, In r rs -> has_sprint (mi_sprint_id r) ps = true) ->
    insert_missions fk pick rs d = inl msg ->
    msg = "UNIQUE constraint failed: missions.id".
Proof.
  induction rs as [| r0 rest IH]; intros d mi msg Hmi Hfk H; cbn [insert_missions] in H;
    [discriminate |].
  destruct Hfk as (ps & Hps & Hall).
  destruct (exec_stmt fk pick (InsertMission r0) d) as [m | [d1 rs1]] eqn:Hex.
  - injection H as <-. unfold exec_stmt in Hex. rewrite Hmi in Hex.
    destruct (has_mission (mi_id r0) mi); [now injection Hex as <- |].
    destruct fk; [| discriminate].
    rewrite Hps, (Hall r0 (or_introl eq_refl)) in Hex. discriminate.
  - apply exec_insert_mission_inv in Hex as (l & Hl & _ & _ & ->).
    apply (IH (set_missions (l ++ [r0]) d) (l ++ [r0])%list msg); trivial.
    exists ps. split; [exact Hps |]. intros r Hin. apply Hall. now right.
Qed.

Lemma seeded_ids_distinct :
  NoDup (map mi_id (map (SeedSprint09.mission_params SeedSprint09.sprint_data)
                        SeedSprint09.missions)).
Proof.
  cbn [map SeedSprint09.missions SeedSprint09.mission_params mi_id SeedSprint09.md_id].
  repeat constructor; cbn [In]; intuition discriminate.
Qed.

Lemma seeded_rows_sprint r :
  In r (map (SeedSprint09.mission_params SeedSprint09.sprint_data) SeedSprint09.missions) ->
  mi_sprint_id r = "sprint-09".
Proof. intros Hin. apply in_map_iff in Hin as (m & <- & _). reflexivity. Qed.

Lemma insert_missions_exact fk pick rs :
  forall d d' mi,
    insert_missions fk pick rs d = inr d' ->
    tbl_missions d = Some mi ->
    d' = set_missions (mi ++ rs) d.
Proof.
  induction rs as [| r0 rest IH]; intros d d' mi H Hmi; cbn [insert_missions] in H.
  - injection H as <-. rewrite app_nil_r. destruct d as [a b c g]. cbn in Hmi. now subst b.
  - destruct (exec_stmt fk pick (InsertMission r0) d) as [msg | [d1 rs1]] eqn:Hex; [discriminate |].
    apply exec_insert_mission_inv in Hex as (l & Hl & _ & _ & ->).
    rewrite Hmi in Hl. injection Hl as <-.
    rewrite (IH _ d' (mi ++ [r0])%list H eq_refl).
    unfold set_missions. cbn [tbl_sprints tbl_missions tbl_contexts tbl_context_snapshots].
    now rewrite <- app_assoc.
Qed.

(** The seeder's statements on a store, read backwards, for a list of
    missions that is not empty. *)
Lemma seed_statements_exact fk pick sd m ms d d' :
  seed_statements fk pick sd (m :: ms) d = inr d' ->
  exists sp mi,
    tbl_sprints d = Some sp
    /\ tbl_missions d = Some mi
    /\ has_sprint (SeedSprint09.sd_id sd) sp = false
    /\ (forall x, In x (m :: ms) -> has_mission (SeedSprint09.md_id x) mi = false)
    /\ d' = set_missions (mi ++ map (SeedSprint09.mission_params sd) (m :: ms))
                         (set_sprints (sp ++ [SeedSprint09.sprint_params sd]) d).
Proof.
  unfold seed_statements. intros H.
  destruct (exec_stmt fk pick (InsertSprint _) d) as [msg | [d1 rs1]] eqn:Hex; [discriminate |].
  apply exec_insert_sprint_inv in Hex as (sp & Hsp & Hno & ->).
  assert (Hmi : exists mi, tbl_missions d = Some mi).
  { cbn [map insert_missions] in H.
    destruct (exec_stmt fk pick (InsertMission _) _) as [msg | [d1 rs2]] eqn:Hex; [discriminate |].
    apply exec_insert_mission_inv in Hex as (l & Hl & _). now exists l. }
  destruct Hmi as [mi Hmi]. exists sp, mi. repeat split; trivial.
  - intros x Hin.
    pose proof (insert_missions_fresh _ _ _ _ _ H (SeedSprint09.mission_params sd x)
                  (in_map _ _ _ Hin)) as Hx.
    cbn [set_sprints tbl_missions] in Hx. rewrite Hmi in Hx. exact Hx.
  - now apply insert_missions_exact with (fk := fk) (pick := pick).
Qed.

(** A run of the seeder in an environment without faults is decided by
    its statements alone. *)
Lemma seeder_calm_run e w :
  (forall k, engine_fault e k = None) ->
  match seed_statements (foreign_keys e) (pick_rowid e) SeedSprint09.sprint_data SeedSprint09.missions
                        (store w) with
  | inr d' =>
      snd (run SeedSprint09.main e w) = 0%Z
      /\ world_of (fst (run SeedSprint09.main e w)) = mkWorld d' (file w)
  | inl msg =>
      snd (run SeedSprint09.main e w) = 1%Z
      /\ world_of (fst (run SeedSprint09.main e w)) = w
      /\ In (error_line msg) (st_stdout (fst (run SeedSprint09.main e w)))
  end.
Proof.
  intros Hnone. unfold run. pose proof (seeder_run_spec e w) as Hs.
  destruct (SeedSprint09.main e (boot w)) as [s' r]. cbn [fst snd].
  inversion Hs as [d' c s1 Hst Hd Hfi Htr Hout Hen Hcl | o Hfail]; subst.
  - cbn [boot st_store] in Hst. rewrite Hst. split; [reflexivity |].
    unfold world_of. now rewrite Hfi.
  - inversion Hfail as [msg s1 Hf H1 H2 H3 H4 H5 | msg pre c s1 Hc H1 H2 H3 H4 H5 H6].
    + rewrite Hnone in Hf. discriminate Hf.
    + destruct Hc as [[k Hk] | Hc]; [rewrite Hnone in Hk; discriminate Hk |].
      cbn [boot st_store] in Hc. rewrite Hc. split; [reflexivity | split].
      * unfold world_of. rewrite H1, H2. now destruct w.
      * rewrite H4. apply in_or_app. right. now left.
Qed.

(** A run of the seeder that exits with status 0, read backwards. *)
Lemma seeder_success e w :
  snd (run SeedSprint09.main e w) = 0%Z ->
  exists sp mi,
    tbl_sprints (store w) = Some sp
    /\ tbl_missions (store w) = Some mi
    /\ has_sprint "sprint-09" sp = false
    /\ st_store (fst (run SeedSprint09.main e w))
       = set_missions (mi ++ map (SeedSprint09.mission_params SeedSprint09.sprint_data)
                                 SeedSprint09.missions)
                      (set_sprints (sp ++ [SeedSprint09.sprint_params SeedSprint09.sprint_data])
                                   (store w)).
Proof.
  unfold run. pose proof (seeder_run_spec e w) as Hs.
  destruct (SeedSprint09.main e (boot w)) as [s' r]. cbn [fst snd]. intros Hok.
  inversion Hs as [d' c s1 Hst Hd Hfi Htr Hout Hen Hcl | o Hfail]; subst.
  - cbn [boot st_store] in Hst.
    apply seed_statements_exact in Hst as (sp & mi & Hsp & Hmi & Hno & _ & Hd).
    now exists sp, mi.
  - rewrite (db_failed_status _ _ _ _ _ Hfail) in Hok. discriminate Hok.
Qed.

(** X1.  Whatever the store and the environment, a run of the seeder is
    all or nothing: it exits with status 0 and the store is the old one
    with the sprint row added at the end of [sprints] and the eight
    mission rows, in order, at the end of [missions], or it exits with
    status 1 and the store is the old one.  Either way the [contexts] and
    [context_snapshots] tables and the context file are as they were. *)
Theorem seeder_all_or_nothing (e : env) (w : world) :
  let out := run SeedSprint09.main e w in
  st_file (fst out) = file w
  /\ tbl_contexts (st_store (fst out)) = tbl_contexts (store w)
  /\ tbl_context_snapshots (st_store (fst out)) = tbl_context_snapshots (store w)
  /\ ((snd out = 0%Z
       /\ exists sp mi,
           tbl_sprints (store w) = Some sp
           /\ tbl_missions (store w) = Some mi
           /\ tbl_sprints (st_store (fst out))
              = Some (sp ++ [SeedSprint09.sprint_params SeedSprint09.sprint_data])%list
           /\ tbl_missions (st_store (fst out))
              = Some (mi ++ map (SeedSprint09.mission_params SeedSprint09.sprint_data)
                                SeedSprint09.missions)%list)
      \/ (snd out = 1%Z /\ st_store (fst out) = store w)).
Proof.
  cbv zeta. unfold run. pose proof (seeder_run_spec e w) as Hs.
  destruct (SeedSprint09.main e (boot w)) as [s' r]. cbn [fst snd].
  inversion Hs as [d' c s1 Hst Hd Hfi Htr Hout Hen Hcl | o Hfail]; subst.
  - cbn [boot st_store] in Hst.
    apply seed_statements_exact in Hst as (sp & mi & Hsp & Hmi & _ & _ & Hd).
    rewrite Hd. repeat split; trivial. left. split; [reflexivity |]. now exists sp, mi.
  - destruct (db_failed_store _ _ _ _ _ Hfail) as [H1 H2]. rewrite H1.
    repeat split; trivial. right. split; [apply (db_failed_status _ _ _ _ _ Hfail) | reflexivity].
Qed.

(** X2.  If the store already holds a mission row under one of the eight
    keys, the run exits with status 1 and leaves the store and the file as
    they were, so the sprint row inserted earlier in the same run is not
    kept; and when there are no faults and the sprint key was free, the
    line printed is [❌ Database error: UNIQUE constraint failed:
    missions.id], the duplicate key of [missions.id]. *)
Theorem seeder_mission_clash_rolls_back (e : env) (w : world) (m : SeedSprint09.mission_dict) :
  In m SeedSprint09.missions ->
  has_mission (SeedSprint09.md_id m) (rows (tbl_missions (store w))) = true ->
  let out := run SeedSprint09.main e w in
  snd out = 1%Z
  /\ world_of (fst out) = w
  /\ ((forall k, engine_fault e k = None) ->
      forall sp, tbl_sprints (store w) = Some sp -> has_sprint "sprint-09" sp = false ->
      In "❌ Database error: UNIQUE constraint failed: missions.id" (st_stdout (fst out))).
Proof.
  intros Hin Hdup. cbv zeta.
  assert (Hno : forall d', seed_statements (foreign_keys e) (pick_rowid e) SeedSprint09.sprint_data
                             SeedSprint09.missions (store w) <> inr d').
  { intros d' Hst. apply seed_statements_exact in Hst as (sp & mi & _ & Hmi & _ & Hfree & _).
    rewrite Hmi in Hdup. cbn [rows] in Hdup. rewrite (Hfree m Hin) in Hdup. discriminate. }
  split; [| split].
  - unfold run. pose proof (seeder_run_spec e w) as Hs.
    destruct (SeedSprint09.main e (boot w)) as [s' r]. cbn [fst snd].
    inversion Hs as [d' c s1 Hst Hd Hfi Htr Hout Hen Hcl | o Hfail]; subst.
    + now destruct (Hno (st_store s')).
    + apply (db_failed_status _ _ _ _ _ Hfail).
  - unfold run. pose proof (seeder_run_spec e w) as Hs.
    destruct (SeedSprint09.main e (boot w)) as [s' r]. cbn [fst snd].
    inversion Hs as [d' c s1 Hst Hd Hfi Htr Hout Hen Hcl | o Hfail]; subst.
    + now destruct (Hno (st_store s')).
    + destruct (db_failed_store _ _ _ _ _ Hfail) as [H1 H2].
      unfold world_of. rewrite H1, H2. now destruct w.
  - intros Hnone sp Hsp Hfree. pose proof (seeder_calm_run e w Hnone) as Hrun.
    destruct (seed_statements _ _ _ _ (store w)) as [msg | d'] eqn:Hst;
      [| now destruct (Hno d')].
    destruct Hrun as (_ & _ & Hout).
    assert (Hmsg : msg = "UNIQUE constraint failed: missions.id");
      [| rewrite Hmsg in Hout; exact Hout].
    unfold seed_statements, exec_stmt in Hst. rewrite Hsp in Hst.
    change (sp_id (SeedSprint09.sprint_params SeedSprint09.sprint_data)) with "sprint-09" in Hst.
    rewrite Hfree in Hst.
    destruct (tbl_missions (store w)) as [mi |] eqn:Hmi; [| discriminate Hdup].
    apply insert_missions_refusal with (mi := mi) in Hst; trivial.
    eexists. split; [reflexivity |]. intros r Hr.
    rewrite (seeded_rows_sprint r Hr). now apply has_sprint_last.
Qed.

Lemma seeder_mission_clash_rolls_back_witness :
  let w := mkWorld (mkDb (Some []) (Some [mkMissionRow "s09-m01" "sprint-08" "" "" ""])
                         (Some []) (Some [])) None in
  snd (run SeedSprint09.main calm w) = 1%Z
  /\ world_of (fst (run SeedSprint09.main calm w)) = w
  /\ In "❌ Database error: UNIQUE constraint failed: missions.id"
        (st_stdout (fst (run SeedSprint09.main calm w))).
Proof.
  cbv zeta.
  destruct (seeder_mission_clash_rolls_back calm
              (mkWorld (mkDb (Some []) (Some [mkMissionRow "s09-m01" "sprint-08" "" "" ""])
                             (Some []) (Some [])) None)
              (hd (SeedSprint09.mkMissionDict "" "" "" "") SeedSprint09.missions)
              (or_introl eq_refl) eq_refl) as (H1 & H2 & H3).
  exact (conj H1 (conj H2 (H3 (fun _ => eq_refl) [] eq_refl eq_refl))).
Defined.

(** X3.  Without injected faults, a run of the seeder exits with status 0
    exactly when the [sprints] and [missions] tables exist, no sprint row
    has the key [sprint-09] and no mission row has one of the eight keys;
    whether foreign keys are enforced makes no difference. *)
Theorem seeder_succeeds_iff (e : env) (w : world) :
  (forall k, engine_fault e k = None) ->
  snd (run SeedSprint09.main e w) = 0%Z
  <-> exists sp mi,
      tbl_sprints (store w) = Some sp
      /\ tbl_missions (store w) = Some mi
      /\ has_sprint "sprint-09" sp = false
      /\ forall m, In m SeedSprint09.missions -> has_mission (SeedSprint09.md_id m) mi = false.
Proof.
  intros Hnone. pose proof (seeder_calm_run e w Hnone) as Hrun.
  destruct (seed_statements _ _ _ _ (store w)) as [msg | d'] eqn:Hst; split.
  - destruct Hrun as (H1 & _). rewrite H1. discriminate.
  - intros (sp & mi & Hsp & Hmi & Hfree & Hids). exfalso.
    unfold seed_statements, exec_stmt in Hst. rewrite Hsp in Hst.
    change (sp_id (SeedSprint09.sprint_params SeedSprint09.sprint_data)) with "sprint-09" in Hst.
    rewrite Hfree in Hst.
    rewrite insert_missions_accepts with (mi := mi) in Hst; trivial; [discriminate | | |].
    + apply seeded_ids_distinct.
    + intros r Hr. apply in_map_iff in Hr as (m & <- & Hm). now apply Hids.
    + eexists. split; [reflexivity |]. intros r Hr.
      rewrite (seeded_rows_sprint r Hr). now apply has_sprint_last.
  - intros _. apply seed_statements_exact in Hst as (sp & mi & Hsp & Hmi & Hfree & Hids & _).
    now exists sp, mi.
  - intros _. apply Hrun.
Qed.

Lemma seeder_succeeds_iff_witness :
  snd (run SeedSprint09.main calm (mkWorld empty_store None)) = 0%Z
  /\ snd (run SeedSprint09.main calm (mkWorld (mkDb None None None None) None)) <> 0%Z.
Proof.
  split.
  - apply (proj2 (seeder_succeeds_iff calm (mkWorld empty_store None) (fun _ => eq_refl))).
    exists [], []. repeat split.
  - intros H.
    apply (proj1 (seeder_succeeds_iff calm (mkWorld (mkDb None None None None) None)
                    (fun _ => eq_refl))) in H.
    destruct H as (sp & mi & Hsp & _). discriminate Hsp.
Defined.

(** ** The context updater on any store *)

(** X4.  A run of the context updater never touches a row of [contexts]
    under another key, nor the key or the source path of any row: the
    rows under other keys are the same, in the same order, after the run;
    the keys and source paths are those of before, followed, when no
    [master_context] row existed and the run succeeded, by the new row
    with the path of the context file. *)
Theorem updater_keeps_other_contexts (e : env) (w : world) :
  let out := run UpdateMasterContext.main e w in
  other_contexts (rows (tbl_contexts (st_store (fst out))))
  = other_contexts (rows (tbl_contexts (store w)))
  /\ map (fun r => (cx_id r, cx_source_path r)) (rows (tbl_contexts (st_store (fst out))))
     = (map (fun r => (cx_id r, cx_source_path r)) (rows (tbl_contexts (store w)))
          ++ (if (snd out =? 0)%Z && negb (has_context "master_context"
                                             (rows (tbl_contexts (store w))))
              then [("master_context", UpdateMasterContext.MASTER_CONTEXT_PATH)]
              else []))%list.
Proof.
  cbv zeta.
  destruct (Z.eq_dec (snd (run UpdateMasterContext.main e w)) 0) as [Hok | Hko].
  - rewrite Hok. apply updater_success in Hok as (cs & ss & k & Hcs & Hss & _ & Hst & _).
    rewrite Hst, Hcs. cbn [synced_store set_context_snapshots set_contexts tbl_contexts rows].
    split; [apply other_contexts_upsert |]. rewrite keys_paths_upsert.
    cbn [Z.eqb andb]. now destruct (has_context "master_context" cs).
  - destruct (updater_failure e w Hko) as (H1 & H2 & _). rewrite H1, H2.
    cbn [Z.eqb Pos.eqb andb]. now rewrite app_nil_r.
Qed.

(** X5.  After a run of the context updater that exits with status 0
    there is a [master_context] row, and every such row holds the very
    text that the run wrote to the context file and stored in its
    snapshot row, with the first clock reading of the run as its
    [updated_at]; the snapshot row refers to that key, names the context
    file as its source and has the third clock reading as its
    [created_at]. *)
Theorem updater_copies_agree (e : env) (w : world) :
  let out := run UpdateMasterContext.main e w in
  snd out = 0%Z ->
  has_context "master_context" (rows (tbl_contexts (st_store (fst out)))) = true
  /\ (forall r,
         In r (rows (tbl_contexts (st_store (fst out)))) ->
         cx_id r = "master_context" ->
         st_file (fst out) = Some (cx_content r)
         /\ cx_updated_at r = Datetime.isoformat (clock e 0)
         /\ exists old snap,
             tbl_context_snapshots (st_store (fst out)) = Some (old ++ [snap])%list
             /\ sn_content snap = cx_content r
             /\ sn_context_id snap = cx_id r
             /\ sn_source snap = UpdateMasterContext.MASTER_CONTEXT_PATH
             /\ sn_created_at snap = Datetime.isoformat (clock e 2)).
Proof.
  cbv zeta. intros Hok.
  apply updater_success in Hok as (cs & ss & k & Hcs & Hss & _ & Hst & Hfi & _).
  rewrite Hst, Hfi. cbn [synced_store set_context_snapshots set_contexts tbl_contexts
                          tbl_context_snapshots rows].
  split.
  - pose proof (has_context_count "master_context"
                  (upsert_master (Json.dumps UpdateMasterContext.context_data)
                                 (Datetime.isoformat (clock e 0)) cs)) as Hc.
    destruct (has_context _ _) eqn:Hh; [reflexivity | exfalso].
    unfold upsert_master in Hc, Hh.
    pose proof (has_context_count "master_context" cs) as Hcs0.
    destruct (has_context "master_context" cs).
    + rewrite count_context_update in Hc. lia.
    + rewrite count_context_app in Hc. cbn in Hc. lia.
  - intros r Hin Hid. destruct (upsert_master_content _ _ _ _ Hin Hid) as [H1 H2].
    rewrite H1, H2. repeat split.
    exists ss, (new_snapshot UpdateMasterContext.context_data e 0 k).
    repeat split. now rewrite Hid.
Qed.

Lemma updater_copies_agree_witness :
  has_context "master_context"
    (rows (tbl_contexts (st_store (fst (run UpdateMasterContext.main calm
                                             (mkWorld empty_store None)))))) = true.
Proof.
  refine (proj1 (updater_copies_agree calm (mkWorld empty_store None) _)).
  vm_compute. reflexivity.
Defined.

Lemma allocate_accepts pick keys k :
  pick keys = Some k ->
  ~ In k keys ->
  (- 2 ^ 63 <= k <= 2 ^ 63 - 1)%Z ->
  allocate pick keys = Some k.
Proof.
  intros Hp Hfresh Hrange. unfold allocate. rewrite Hp.
  assert (H1 : (min_rowid <=? k)%Z = true) by (apply Z.leb_le; unfold min_rowid; lia).
  assert (H2 : (k <=? max_rowid)%Z = true) by (apply Z.leb_le; unfold max_rowid; lia).
  assert (H3 : existsb (Z.eqb k) keys = false).
  { destruct (existsb (Z.eqb k) keys) eqn:E; [| reflexivity].
    apply existsb_exists in E as (x & Hx & Hxk). apply Z.eqb_eq in Hxk. subst x.
    contradiction. }
  now rewrite H1, H2, H3.
Qed.

(** X6.  Without injected faults and with a file write that goes
    through, a run of the context updater exits with status 0 exactly
    when the [contexts] and [context_snapshots] tables exist and the
    engine comes up with a key for the new snapshot row, a signed 64-bit
    integer that no snapshot row has: nothing else in the rows, and
    nothing about the other tables, can make it fail. *)
Theorem updater_succeeds_iff (e : env) (w : world) :
  (forall k, engine_fault e k = None) ->
  write_fault e = None ->
  snd (run UpdateMasterContext.main e w) = 0%Z
  <-> tbl_contexts (store w) <> None
      /\ exists ss k,
          tbl_context_snapshots (store w) = Some ss
          /\ pick_rowid e (map sn_id ss) = Some k
          /\ ~ In k (map sn_id ss)
          /\ (- 2 ^ 63 <= k <= 2 ^ 63 - 1)%Z.
Proof.
  intros Hnone Hw. split.
  - intros Hok. apply updater_success in Hok as (cs & ss & k & Hcs & Hss & Hk & _).
    rewrite Hcs. split; [discriminate |]. exists ss, k.
    split; [exact Hss | now apply allocate_fresh].
  - intros (H1 & ss & k & Hss & Hp & Hfresh & Hrange). apply updater_succeeds; trivial.
    exists ss, k. split; [exact Hss | now apply allocate_accepts].
Qed.

Lemma updater_succeeds_iff_witness :
  snd (run UpdateMasterContext.main calm (mkWorld empty_store None)) = 0%Z
  /\ snd (run UpdateMasterContext.main calm (mkWorld (mkDb None None None None) None)) <> 0%Z.
Proof.
  split.
  - apply (proj2 (updater_succeeds_iff calm (mkWorld empty_store None)
                    (fun _ => eq_refl) eq_refl)).
    split; [discriminate |]. exists [], 1%Z.
    split; [reflexivity | split; [reflexivity | split; [intros [] | lia]]].
  - intros H.
    apply (proj1 (updater_succeeds_iff calm (mkWorld (mkDb None None None None) None)
                    (fun _ => eq_refl) eq_refl)) in H.
    destruct H as [H _]. now apply H.
Defined.

(** A table whose largest key is the largest integer takes no further
    row under the engine's rule of the next key: the run ends with status
    1 on the error the engine gives then, and the store is as before. *)
Example updater_on_full_table :
  let full :=
    mkDb (Some []) (Some []) (Some [])
         (Some [mkSnapshotRow 9223372036854775807 "master_context" "s" "p" "h" "c" "t"]) in
  let out := run UpdateMasterContext.main calm (mkWorld full None) in
  snd out = 1%Z
  /\ st_store (fst out) = full
  /\ last (st_stdout (fst out)) "" = "❌ Database error: database or disk is full".
Proof. vm_compute. repeat split. Qed.

Lemma fold_max_upper (k : Z) (rest : list Z) (x : Z) :
  In x (k :: rest) -> (x <= fold_right Z.max k rest)%Z.
Proof.
  induction rest as [| y rest IH]; cbn [fold_right].
  - intros [<- | []]. lia.
  - intros [<- | [<- | Hin]].
    + specialize (IH (or_introl eq_refl)). lia.
    + lia.
    + specialize (IH (or_intror Hin)). lia.
Qed.

Lemma fold_max_in (k : Z) (rest : list Z) : In (fold_right Z.max k rest) (k :: rest).
Proof.
  induction rest as [| y rest IH]; cbn [fold_right]; [now left |].
  destruct (Z.max_spec y (fold_right Z.max k rest)) as [[_ ->] | [_ ->]].
  - destruct IH as [<- | Hin]; [now left | right; now right].
  - right. now left.
Qed.

(** Under the rule of the next key, a table whose keys are at most [b],
    with room above [b], gets a key that is at most [b + 1]. *)
Lemma rowid_after_largest_allocates (keys : list Z) (b : Z) :
  (forall k, In k keys -> (- 2 ^ 63 <= k <= b)%Z) ->
  (0 <= b < 2 ^ 63 - 1)%Z ->
  exists k, allocate rowid_after_largest keys = Some k /\ (- 2 ^ 63 <= k <= b + 1)%Z.
Proof.
  intros Hkeys Hb. destruct keys as [| k0 rest].
  - exists 1%Z. split; [reflexivity | lia].
  - pose proof (fold_max_in k0 rest) as Hin. apply Hkeys in Hin.
    exists (fold_right Z.max k0 rest + 1)%Z. split; [| lia].
    apply allocate_accepts; [| | lia].
    + cbn [rowid_after_largest].
      assert (Hlt : (fold_right Z.max k0 rest <? max_rowid)%Z = true)
        by (apply Z.ltb_lt; unfold max_rowid; lia).
      now rewrite Hlt.
    + intros Hx. apply fold_max_upper in Hx. lia.
Qed.

Lemma updater_reruns (envs : list env) :
  forall (w : world) (b : Z),
    Forall faultless envs ->
    Forall (fun e => forall keys, pick_rowid e keys = rowid_after_largest keys) envs ->
    tbl_contexts (store w) <> None ->
    (exists ss, tbl_context_snapshots (store w) = Some ss
                /\ forall k, In k (map sn_id ss) -> (- 2 ^ 63 <= k <= b)%Z) ->
    (0 <= b)%Z ->
    (b + Z.of_nat (List.length envs) < 2 ^ 63)%Z ->
    exists w', updater_runs envs w w'.
Proof.
  induction envs as [| e es IH]; intros w b Hall Hpick Hcx (ss & Hss & Hkeys) Hb0 Hb.
  - exists w. constructor.
  - inversion Hall as [| e0 es0 [Hnone Hw] Hall']; subst.
    inversion Hpick as [| e0 es0 Hp Hpick']; subst.
    cbn [List.length] in Hb.
    destruct (rowid_after_largest_allocates (map sn_id ss) b Hkeys) as (k & Hk & Hkb); [lia |].
    assert (Hke : allocate (pick_rowid e) (map sn_id ss) = Some k)
      by (unfold allocate in *; now rewrite Hp).
    assert (Hok : snd (run UpdateMasterContext.main e w) = 0%Z).
    { apply updater_succeeds; trivial. now exists ss, k. }
    destruct (updater_success e w Hok) as (cs & ss' & k' & Hcs & Hss' & Hk' & Hst & _).
    rewrite Hss in Hss'. injection Hss' as <-. rewrite Hke in Hk'. injection Hk' as <-.
    destruct (IH (world_of (fst (run UpdateMasterContext.main e w))) (b + 1)%Z Hall' Hpick')
      as [w' Hruns].
    + cbn [world_of store]. rewrite Hst. discriminate.
    + cbn [world_of store]. rewrite Hst.
      cbn [synced_store set_context_snapshots tbl_context_snapshots].
      eexists. split; [reflexivity |]. intros x Hx. rewrite map_app in Hx.
      apply in_app_or in Hx as [Hx | [<- | []]].
      * apply Hkeys in Hx. lia.
      * cbn [new_snapshot sn_id]. lia.
    + lia.
    + lia.
    + exists w'. now constructor.
Qed.

(** X7.  The context updater can be run again and again: on a store with
    its two tables, any sequence of runs in environments without faults,
    in which the engine takes as the next key one more than the largest
    key of the table (1 in an empty table), consists of successful runs
    only, as long as the keys stay in the range of the signed 64-bit
    integers; unlike the seeder, whose second run always fails. *)
Theorem updater_can_be_rerun (envs : list env) (w : world) :
  Forall faultless envs ->
  Forall (fun e => forall keys, pick_rowid e keys = rowid_after_largest keys) envs ->
  tbl_contexts (store w) <> None ->
  (exists ss,
      tbl_context_snapshots (store w) = Some ss
      /\ forall k, In k (map sn_id ss) ->
                   (- 2 ^ 63 <= k)%Z /\ (k + Z.of_nat (List.length envs) < 2 ^ 63)%Z) ->
  (Z.of_nat (List.length envs) < 2 ^ 63)%Z ->
  exists w', updater_runs envs w w'.
Proof.
  intros Hall Hpick Hcx (ss & Hss & Hkeys) Hn.
  apply updater_reruns with (b := (2 ^ 63 - 1 - Z.of_nat (List.length envs))%Z); trivial.
  - exists ss. split; [exact Hss |]. intros k Hk. apply Hkeys in Hk. lia.
  - lia.
  - lia.
Qed.

Lemma updater_can_be_rerun_witness :
  exists w', updater_runs [calm; calm; calm] (mkWorld empty_store None) w'.
Proof.
  apply updater_can_be_rerun.
  - repeat constructor.
  - repeat constructor.
  - discriminate.
  - exists []. split; [reflexivity | intros k []].
  - cbn. lia.
Defined.

(** ** Failures late in the store phase *)

Section Exact.

Variable e : env.

(** The rule of [cursor.execute] that keeps the number of the call. *)
Lemma wp_execute_at (q : stmt) (d : db) Q (X : exn -> state -> Prop) s :
  st_engine s = Some (mkConnection d false) ->
  (forall msg, engine_fault e (st_ops s) = Some msg ->
               X (SqliteError msg) (log (EvError msg) (bump_ops s))) ->
  (engine_fault e (st_ops s) = None ->
   match exec_stmt (foreign_keys e) (pick_rowid e) q d with
   | inl msg => X (SqliteError msg) (log (EvError msg) (bump_ops s))
   | inr (d', rs) => Q rs (set_engine (Some (mkConnection d' false)) (bump_ops s))
   end) ->
  wp (cursor_execute q) e Q X s.
Proof.
  intros He Hf Hok. apply wp_engine_call; [exact Hf |].
  intros Hnf. specialize (Hok Hnf). unfold wp. cbv beta.
  change (st_engine (bump_ops s)) with (st_engine s). rewrite He. cbn [closed working].
  now destruct (exec_stmt (foreign_keys e) (pick_rowid e) q d) as [msg | [d' rs]].
Qed.

(** The same rule for a statement known to be accepted. *)
Lemma wp_execute_ok (q : stmt) (d d' : db) (rs : list string) Q (X : exn -> state -> Prop) s :
  st_engine s = Some (mkConnection d false) ->
  exec_stmt (foreign_keys e) (pick_rowid e) q d = inr (d', rs) ->
  (forall msg, engine_fault e (st_ops s) = Some msg ->
               X (SqliteError msg) (log (EvError msg) (bump_ops s))) ->
  (engine_fault e (st_ops s) = None ->
   Q rs (set_engine (Some (mkConnection d' false)) (bump_ops s))) ->
  wp (cursor_execute q) e Q X s.
Proof.
  intros He Hex Hf Hok. apply wp_execute_at with (d := d); trivial.
  intros Hnf. rewrite Hex. now apply Hok.
Qed.

(** And for a statement known to be refused. *)
Lemma wp_execute_refused (q : stmt) (d : db) (msg : string) Q (X : exn -> state -> Prop) s :
  st_engine s = Some (mkConnection d false) ->
  exec_stmt (foreign_keys e) (pick_rowid e) q d = inl msg ->
  (forall msg0, engine_fault e (st_ops s) = Some msg0 ->
                X (SqliteError msg0) (log (EvError msg0) (bump_ops s))) ->
  (engine_fault e (st_ops s) = None ->
   X (SqliteError msg) (log (EvError msg) (bump_ops s))) ->
  wp (cursor_execute q) e Q X s.
Proof.
  intros He Hex Hf Hko. apply wp_execute_at with (d := d); trivial.
  intros Hnf. rewrite Hex. now apply Hko.
Qed.

(** What the [except] and [finally] clauses make of an error raised on
    an open, bound connection. *)
Lemma after_raise_bound (R : state * res unit -> Prop) (msg : string) (c : connection) s1 :
  st_conn_bound s1 = true ->
  st_engine s1 = Some c ->
  R (log EvClose (set_engine (Some (mkConnection (working c) true))
                             (add_stdout (error_line msg) s1)),
     Raise (SystemExit 1)) ->
  after_raise e R (SqliteError msg) s1.
Proof.
  intros Hb He HR. unfold after_raise, wp, on_sqlite_error, bind, print, sys_exit, raise.
  now rewrite release_conn_bound with (c := c).
Qed.

End Exact.

Section LateFailure.

Variable e : env.
Variable doc : Json.json.
Variable s : state.
Variable cs : list context_row.

Hypothesis Hcalls : forall k, (k < 4)%nat -> engine_fault e (st_ops s + k) = None.
Hypothesis Hcontexts : tbl_contexts (st_store s) = Some cs.

Lemma late_raise (msg : string) (c : connection) (s1 : state) :
  st_conn_bound s1 = true ->
  st_engine s1 = Some c ->
  st_store s1 = st_store s ->
  st_stdout s1 = (st_stdout s ++ [record_line cs])%list ->
  after_raise e (late_failure s cs) (SqliteError msg) (log (EvError msg) (bump_ops s1)).
Proof.
  intros Hb He Hst Hout. apply after_raise_bound with (c := c); trivial.
  intros _. cbn [fst snd]. proj. repeat split; trivial.
  exists msg. rewrite Hout, <- app_assoc. reflexivity.
Qed.

(** The rest of the store phase once the line about the record is out. *)
Lemma late_rest (s1 : state) (d : db) :
  st_conn_bound s1 = true ->
  st_engine s1 = Some (mkConnection d false) ->
  st_store s1 = st_store s ->
  st_stdout s1 = (st_stdout s ++ [record_line cs])%list ->
  wp (hash_time <- datetime_now_utc ;;
      created_at <- datetime_now_utc ;;
      cursor_execute (InsertSnapshot
                        "master_context"
                        "session-2025-11-07-cmos-analysis"
                        UpdateMasterContext.MASTER_CONTEXT_PATH
                        ("snapshot_" ++ Datetime.strftime_compact hash_time)
                        (Json.dumps doc)
                        (Datetime.isoformat created_at)) ;;
      conn_commit ;;
      print "✅ Created context snapshot in SQLite")
     e (after_return e (late_failure s cs)) (after_raise e (late_failure s cs)) s1.
Proof.
  intros Hb He Hst Hout.
  apply wp_bind, wp_now. apply wp_bind, wp_now.
  apply wp_bind, wp_execute_at with (d := d); [exact He | |].
  { intros msg _. now apply late_raise with (c := mkConnection d false). }
  intros _. destruct (exec_stmt _ _ _ d) as [msg | [d' rs]].
  { now apply late_raise with (c := mkConnection d false). }
  apply wp_bind; eapply wp_commit; [proj; reflexivity | | intros _].
  { intros msg _. now apply late_raise with (c := mkConnection d' false). }
  apply wp_print. unfold after_return, wp.
  erewrite release_conn_bound by (proj; first [exact Hb | reflexivity]).
  intros H. now destruct H.
Qed.

Lemma late_failure_prints_record :
  late_failure s cs (UpdateMasterContext.create_context_snapshot doc e s).
Proof.
  unfold UpdateMasterContext.create_context_snapshot.
  assert (H0 : engine_fault e (st_ops s) = None)
    by (rewrite <- (Nat.add_0_r (st_ops s)); apply Hcalls; lia).
  assert (H1 : engine_fault e (S (st_ops s)) = None)
    by (replace (S (st_ops s)) with (st_ops s + 1)%nat by lia; apply Hcalls; lia).
  assert (H2 : engine_fault e (S (S (st_ops s))) = None)
    by (replace (S (S (st_ops s))) with (st_ops s + 2)%nat by lia; apply Hcalls; lia).
  assert (H3 : engine_fault e (S (S (S (st_ops s)))) = None)
    by (replace (S (S (S (st_ops s)))) with (st_ops s + 3)%nat by lia; apply Hcalls; lia).
  assert (Hsel : exec_stmt (foreign_keys e) (pick_rowid e) (SelectContextId "master_context") (st_store s)
                 = inr (st_store s,
                        map cx_id (filter (fun r => String.eqb (cx_id r) "master_context") cs)))
    by (unfold exec_stmt; now rewrite Hcontexts).
  pose proof (fetchone_select "master_context" cs) as Hfetch.
  apply wp_try.
  apply wp_bind, wp_connect; [intros msg Hf; congruence | intros _].
  apply wp_bind, wp_assign_conn.
  apply wp_bind, wp_engine_call; [intros msg Hf; exfalso; revert Hf; proj; congruence
                                 | intros _; apply wp_ret].
  apply wp_bind. eapply wp_execute_ok; [reflexivity | exact Hsel | | intros _].
  { intros msg Hf; exfalso; revert Hf; proj; congruence. }
  cbv zeta. apply wp_bind.
  destruct (fetchone _) as [found |].
  - apply wp_bind, wp_now. apply wp_bind. eapply wp_execute_ok; [reflexivity | | | intros _].
    { unfold exec_stmt. rewrite Hcontexts. reflexivity. }
    { intros msg Hf; exfalso; revert Hf; proj; congruence. }
    apply wp_print. eapply late_rest; proj; try reflexivity.
    unfold record_line. now rewrite Hfetch.
  - apply wp_bind, wp_now. apply wp_bind. eapply wp_execute_ok; [reflexivity | | | intros _].
    { unfold exec_stmt. rewrite Hcontexts. cbn [cx_id]. rewrite Hfetch. reflexivity. }
    { intros msg Hf; exfalso; revert Hf; proj; congruence. }
    apply wp_print. eapply late_rest; proj; try reflexivity.
    unfold record_line. now rewrite Hfetch.
Qed.

End LateFailure.

(** X8.  The updater prints its line about the [master_context] record
    before it commits.  So in a run whose file write and first four
    engine calls go through on a store that has its [contexts] table, but
    which does not exit with status 0 (the snapshot insert or the commit
    failed), the output says that the record was updated, or created, and
    then reports the error, while the store holds nothing of the run and
    the context file is already rewritten. *)
Theorem record_line_precedes_commit (e : env) (w : world) (cs : list context_row) :
  write_fault e = None ->
  (forall k, (k < 4)%nat -> engine_fault e k = None) ->
  tbl_contexts (store w) = Some cs ->
  let out := run UpdateMasterContext.main e w in
  snd out <> 0%Z ->
  snd out = 1%Z
  /\ st_store (fst out) = store w
  /\ st_file (fst out) = Some (Json.dumps UpdateMasterContext.context_data)
  /\ exists msg,
      st_stdout (fst out) = (opening_lines ++ [record_line cs; error_line msg])%list.
Proof.
  intros Hw Hcalls Hcs. cbv zeta.
  pose proof (updater_run_spec e w) as Hspec.
  unfold run in *. rewrite (update_main_write_ok e w Hw) in *.
  pose proof (late_failure_prints_record e UpdateMasterContext.context_data (after_write w) cs
                Hcalls Hcs) as Hlate.
  unfold late_failure in Hlate.
  destruct (UpdateMasterContext.create_context_snapshot _ e (after_write w)) as [s1 [[] | x]];
    cbn [fst snd exit_status] in *; intros Hko; [now destruct Hko |].
  destruct Hlate as (Hx & Hst & msg & Hout); [discriminate |].
  injection Hx as ->. repeat split; trivial.
  - inversion Hspec; congruence.
  - exists msg. exact Hout.
Qed.

Lemma record_line_precedes_commit_witness :
  snd (run UpdateMasterContext.main commit_fails (mkWorld empty_store None)) = 1%Z
  /\ st_store (fst (run UpdateMasterContext.main commit_fails (mkWorld empty_store None)))
     = empty_store
  /\ exists msg,
      st_stdout (fst (run UpdateMasterContext.main commit_fails (mkWorld empty_store None)))
      = (opening_lines ++ ["✅ Created new master_context record"; error_line msg])%list.
Proof.
  assert (Hcalls : forall k, (k < 4)%nat -> engine_fault commit_fails k = None).
  { intros k Hk. destruct k as [| [| [| [| k]]]]; try reflexivity. lia. }
  assert (Hko : snd (run UpdateMasterContext.main commit_fails (mkWorld empty_store None))
                <> 0%Z)
    by (vm_compute; discriminate).
  destruct (record_line_precedes_commit commit_fails (mkWorld empty_store None) []
              eq_refl Hcalls eq_refl Hko) as (H1 & H2 & _ & H4).
  exact (conj H1 (conj H2 H4)).
Defined.

(** ** A store file without its schema *)

(** The store phase on a store without the [contexts] table, when its
    first three calls are not faulted: the existence query is refused. *)
Lemma create_context_snapshot_no_contexts (e : env) (doc : Json.json) (s : state) :
  (forall k, (k < 3)%nat -> engine_fault e (st_ops s + k) = None) ->
  tbl_contexts (st_store s) = None ->
  exists s',
    UpdateMasterContext.create_context_snapshot doc e s = (s', Raise (SystemExit 1))
    /\ st_store s' = st_store s
    /\ st_file s' = st_file s
    /\ st_stdout s' = (st_stdout s ++ [error_line "no such table: contexts"])%list.
Proof.
  intros Hcalls Hcx.
  assert (H0 : engine_fault e (st_ops s) = None)
    by (rewrite <- (Nat.add_0_r (st_ops s)); apply Hcalls; lia).
  assert (H1 : engine_fault e (S (st_ops s)) = None)
    by (replace (S (st_ops s)) with (st_ops s + 1)%nat by lia; apply Hcalls; lia).
  assert (H2 : engine_fault e (S (S (st_ops s))) = None)
    by (replace (S (S (st_ops s))) with (st_ops s + 2)%nat by lia; apply Hcalls; lia).
  assert (Hsel : exec_stmt (foreign_keys e) (pick_rowid e) (SelectContextId "master_context") (st_store s)
                 = inl "no such table: contexts")
    by (unfold exec_stmt; now rewrite Hcx).
  unfold UpdateMasterContext.create_context_snapshot.
  apply (wp_try e _ (fun o => exists s', o = (s', Raise (SystemExit 1))
                                /\ st_store s' = st_store s
                                /\ st_file s' = st_file s
                                /\ st_stdout s'
                                   = (st_stdout s ++ [error_line "no such table: contexts"])%list)).
  apply wp_bind, wp_connect; [intros msg Hf; congruence | intros _].
  apply wp_bind, wp_assign_conn.
  apply wp_bind, wp_engine_call; [intros msg Hf; exfalso; revert Hf; proj; congruence
                                 | intros _; apply wp_ret].
  apply wp_bind. eapply wp_execute_refused; [reflexivity | exact Hsel | | intros _].
  { intros msg Hf; exfalso; revert Hf; proj; congruence. }
  eapply after_raise_bound; [reflexivity | reflexivity |].
  eexists. split; [reflexivity |]. proj. repeat split.
Qed.

(** X9.  On a store file without its schema, in an environment without
    faults, each script reports the first table it misses and exits with
    status 1, leaving the store as it was: the seeder prints
    [❌ Database error: no such table: sprints], the updater prints
    [❌ Database error: no such table: contexts] as its last line, after
    it has rewritten the context file all the same. *)
Theorem missing_schema_is_reported (e : env) (w : world) :
  faultless e ->
  (tbl_sprints (store w) = None ->
   snd (run SeedSprint09.main e w) = 1%Z
   /\ world_of (fst (run SeedSprint09.main e w)) = w
   /\ In "❌ Database error: no such table: sprints"
         (st_stdout (fst (run SeedSprint09.main e w))))
  /\ (tbl_contexts (store w) = None ->
      snd (run UpdateMasterContext.main e w) = 1%Z
      /\ st_store (fst (run UpdateMasterContext.main e w)) = store w
      /\ st_file (fst (run UpdateMasterContext.main e w))
         = Some (Json.dumps UpdateMasterContext.context_data)
      /\ st_stdout (fst (run UpdateMasterContext.main e w))
         = [ "Updating MASTER_CONTEXT.json with session findings...";
             "✅ Updated MASTER_CONTEXT.json at cmos/context/MASTER_CONTEXT.json";
             LF ++ "Creating context snapshot in SQLite...";
             "❌ Database error: no such table: contexts" ]).
Proof.
  intros [Hnone Hw]. split.
  - intros Hsp. pose proof (seeder_calm_run e w Hnone) as Hrun.
    unfold seed_statements, exec_stmt in Hrun. rewrite Hsp in Hrun. exact Hrun.
  - intros Hcx. unfold run. rewrite (update_main_write_ok e w Hw).
    destruct (create_context_snapshot_no_contexts e UpdateMasterContext.context_data
                (after_write w) (fun k _ => Hnone _) Hcx) as (s' & -> & Hst & Hfi & Hout).
    cbn [fst snd exit_status].
    split; [reflexivity | split; [exact Hst | split; [exact Hfi | exact Hout]]].
Qed.

Lemma missing_schema_is_reported_witness :
  snd (run SeedSprint09.main calm (mkWorld (mkDb None None None None) None)) = 1%Z
  /\ last (st_stdout (fst (run UpdateMasterContext.main calm
                                (mkWorld (mkDb None None None None) None)))) ""
     = "❌ Database error: no such table: contexts".
Proof.
  destruct (missing_schema_is_reported calm (mkWorld (mkDb None None None None) None)
              (conj (fun _ => eq_refl) eq_refl)) as [H1 H2].
  destruct (H1 eq_refl) as (Hs & _). destruct (H2 eq_refl) as (_ & _ & _ & Hu).
  split; [exact Hs |]. rewrite Hu. reflexivity.
Defined.

(** ** The two scripts, one after the other *)

(** The runs of the two scripts in environments without engine faults. *)
Lemma seeder_calm_effect e w :
  (forall k, engine_fault e k = None) ->
  snd (run SeedSprint09.main e w) = fst (seed_effect e w)
  /\ world_of (fst (run SeedSprint09.main e w)) = snd (seed_effect e w).
Proof.
  intros Hnone. pose proof (seeder_calm_run e w Hnone) as Hrun. unfold seed_effect.
  destruct (seed_statements _ _ _ _ (store w)) as [msg | d']; cbn [fst snd].
  - now destruct Hrun as (H1 & H2 & _).
  - exact Hrun.
Qed.

Lemma updater_calm_effect e w :
  (forall k, engine_fault e k = None) ->
  snd (run UpdateMasterContext.main e w) = fst (update_effect e w)
  /\ world_of (fst (run UpdateMasterContext.main e w)) = snd (update_effect e w).
Proof.
  intros Hnone. pose proof (updater_run_spec e w) as Hspec.
  pose proof (updater_succeeds e w Hnone) as Hgo. unfold update_effect.
  destruct (run UpdateMasterContext.main e w) as [s' x]. cbn [fst snd] in *.
  inversion Hspec as [f s1 Hw Hst Hfi Htr Hen Hout
                     | cs ss k c s1 Hw Hcs Hss Hk Hst Hfi Htr Hen Hcl
                     | s1 r Hw Hfi Hfail]; subst; rewrite Hw.
  - cbn [fst snd]. split; [reflexivity |]. unfold world_of. now rewrite Hst, Hfi.
  - rewrite Hcs, Hss, Hk. cbn [fst snd]. split; [reflexivity |].
    unfold world_of. now rewrite Hst, Hfi.
  - assert (Hst : st_store s' = store w) by apply (db_failed_store _ _ _ _ _ Hfail).
    destruct (tbl_contexts (store w)) as [cs |] eqn:Hcs;
      [destruct (tbl_context_snapshots (store w)) as [ss |] eqn:Hss;
       [destruct (allocate (pick_rowid e) (map sn_id ss)) as [k |] eqn:Hk |] |];
      cbn [fst snd];
      try (split; [reflexivity |]; unfold world_of; now rewrite Hst, Hfi).
    assert (H : 1%Z = 0%Z)
      by (apply Hgo; [exact Hw | discriminate | now exists ss, k]).
    discriminate H.
Qed.

(** The statements of the seeder do not look at the two context tables,
    and carry them along. *)
Lemma insert_missions_frame fk pick (cx : list context_row) (sn : list snapshot_row) rs :
  forall d,
    insert_missions fk pick rs (set_context_snapshots sn (set_contexts cx d))
    = match insert_missions fk pick rs d with
      | inl msg => inl msg
      | inr d' => inr (set_context_snapshots sn (set_contexts cx d'))
      end.
Proof.
  induction rs as [| r rest IH]; intros d; cbn [insert_missions]; [reflexivity |].
  assert (Hex : exec_stmt fk pick (InsertMission r) (set_context_snapshots sn (set_contexts cx d))
                = match exec_stmt fk pick (InsertMission r) d with
                  | inl msg => inl msg
                  | inr (d', rs') => inr (set_context_snapshots sn (set_contexts cx d'), rs')
                  end).
  { destruct d as [ps l c0 g0].
    unfold exec_stmt, set_context_snapshots, set_contexts, set_missions.
    cbn [tbl_sprints tbl_missions tbl_contexts tbl_context_snapshots].
    destruct l as [l |]; [| reflexivity].
    destruct (has_mission (mi_id r) l); [reflexivity |].
    destruct fk; [| reflexivity].
    destruct ps as [ps |]; [| reflexivity].
    now destruct (has_sprint (mi_sprint_id r) ps). }
  rewrite Hex. destruct (exec_stmt fk pick (InsertMission r) d) as [msg | [d1 rs1]]; [reflexivity |].
  apply IH.
Qed.

Lemma seed_statements_frame fk pick sd ms (cx : list context_row) (sn : list snapshot_row) d :
  seed_statements fk pick sd ms (set_context_snapshots sn (set_contexts cx d))
  = match seed_statements fk pick sd ms d with
    | inl msg => inl msg
    | inr d' => inr (set_context_snapshots sn (set_contexts cx d'))
    end.
Proof.
  unfold seed_statements.
  assert (Hex : exec_stmt fk pick (InsertSprint (SeedSprint09.sprint_params sd))
                          (set_context_snapshots sn (set_contexts cx d))
                = match exec_stmt fk pick (InsertSprint (SeedSprint09.sprint_params sd)) d with
                  | inl msg => inl msg
                  | inr (d', rs') => inr (set_context_snapshots sn (set_contexts cx d'), rs')
                  end).
  { destruct d as [l mi0 c0 g0].
    unfold exec_stmt, set_context_snapshots, set_contexts, set_sprints.
    cbn [tbl_sprints tbl_missions tbl_contexts tbl_context_snapshots].
    destruct l as [l |]; [| reflexivity].
    now destruct (has_sprint _ l). }
  rewrite Hex. destruct (exec_stmt fk pick (InsertSprint _) d) as [msg | [d1 rs1]]; [reflexivity |].
  apply insert_missions_frame.
Qed.

(** X10.  The two scripts do not interfere: in environments without
    engine faults, seeding and then updating the context leaves the same
    store and the same file, with the same exit status for each script,
    as updating the context and then seeding. *)
Theorem scripts_commute (es eu : env) (w : world) :
  (forall k, engine_fault es k = None) ->
  (forall k, engine_fault eu k = None) ->
  let seed_first := run SeedSprint09.main es w in
  let then_update := run UpdateMasterContext.main eu (world_of (fst seed_first)) in
  let update_first := run UpdateMasterContext.main eu w in
  let then_seed := run SeedSprint09.main es (world_of (fst update_first)) in
  snd seed_first = snd then_seed
  /\ snd then_update = snd update_first
  /\ world_of (fst then_update) = world_of (fst then_seed).
Proof.
  intros Hs Hu. cbv zeta.
  destruct (seeder_calm_effect es w Hs) as [S1 S2].
  destruct (updater_calm_effect eu w Hu) as [U1 U2].
  destruct (updater_calm_effect eu (world_of (fst (run SeedSprint09.main es w))) Hu)
    as [U3 U4].
  destruct (seeder_calm_effect es (world_of (fst (run UpdateMasterContext.main eu w))) Hs)
    as [S3 S4].
  rewrite S1, S3, U1, U3, U4, S4, S2, U2. clear.
  destruct (seed_statements (foreign_keys es) (pick_rowid es) SeedSprint09.sprint_data SeedSprint09.missions
                            (store w)) as [msg | d'] eqn:Hseed.
  - (* the seeder is refused on [w], and on what the updater leaves *)
    assert (Hfirst : seed_effect es w = (1%Z, w))
      by (unfold seed_effect; now rewrite Hseed).
    assert (Hthen : seed_effect es (snd (update_effect eu w))
                    = (1%Z, snd (update_effect eu w))).
    { unfold seed_effect, update_effect. destruct (write_fault eu) as [f |].
      - cbn [snd store]. now rewrite Hseed.
      - destruct (tbl_contexts (store w)) as [cs |];
          [destruct (tbl_context_snapshots (store w)) as [ss |];
           [destruct (allocate (pick_rowid eu) (map sn_id ss)) as [k |] |] |];
          cbn [snd store]; try (now rewrite Hseed).
        unfold synced_store. now rewrite seed_statements_frame, Hseed. }
    rewrite Hfirst, Hthen. cbn [fst snd]. repeat split.
  - (* the seeder is accepted on [w], and on what the updater leaves *)
    assert (Hfirst : seed_effect es w = (0%Z, mkWorld d' (file w)))
      by (unfold seed_effect; now rewrite Hseed).
    pose proof (seed_statements_inv _ _ _ _ _ _ Hseed) as (sp & _ & _ & _ & _ & Hcx & Hsn).
    assert (Hthen : seed_effect es (snd (update_effect eu w))
                    = (0%Z, snd (update_effect eu (mkWorld d' (file w))))
                    /\ fst (update_effect eu (mkWorld d' (file w)))
                       = fst (update_effect eu w)).
    { unfold seed_effect, update_effect. cbn [store file]. rewrite Hcx, Hsn.
      destruct (write_fault eu) as [f |].
      - cbn [fst snd store file]. now rewrite Hseed.
      - destruct (tbl_contexts (store w)) as [cs |];
          [destruct (tbl_context_snapshots (store w)) as [ss |];
           [destruct (allocate (pick_rowid eu) (map sn_id ss)) as [k |] |] |];
          cbn [fst snd store file]; try (now rewrite Hseed).
        unfold synced_store. now rewrite seed_statements_frame, Hseed. }
    destruct Hthen as [H1 H2]. rewrite Hfirst, H1. cbn [fst snd]. rewrite H2. repeat split.
Qed.

Lemma scripts_commute_witness :
  let w := mkWorld empty_store None in
  world_of (fst (run UpdateMasterContext.main calm (world_of (fst (run SeedSprint09.main calm w)))))
  = world_of (fst (run SeedSprint09.main calm
                       (world_of (fst (run UpdateMasterContext.main calm w))))).
Proof.
  exact (proj2 (proj2 (scripts_commute calm calm (mkWorld empty_store None)
                         (fun _ => eq_refl) (fun _ => eq_refl)))).
Defined.

(** ** The seeded sprint and its missions *)

Lemma seeded_rows_of_sprint :
  filter (fun m => String.eqb (mi_sprint_id m) "sprint-09")
         (map (SeedSprint09.mission_params SeedSprint09.sprint_data) SeedSprint09.missions)
  = map (SeedSprint09.mission_params SeedSprint09.sprint_data) SeedSprint09.missions.
Proof. reflexivity. Qed.

(** X11.  The counters of the seeded sprint row agree with the seeded
    mission rows: after a run that exits with status 0 on a store in
    which no mission row referred to [sprint-09], the [total_missions] of
    the row with the key [sprint-09] is the number of mission rows that
    refer to it, each of them has the status [queued], and the row's
    [completed_missions] is 0. *)
Theorem seeded_counters_agree (e : env) (w : world) :
  (forall m, In m (rows (tbl_missions (store w))) -> mi_sprint_id m <> "sprint-09") ->
  let out := run SeedSprint09.main e w in
  snd out = 0%Z ->
  forall s,
    In s (rows (tbl_sprints (st_store (fst out)))) ->
    sp_id s = "sprint-09" ->
    sp_total_missions s
    = Z.of_nat (List.length (filter (fun m => String.eqb (mi_sprint_id m) "sprint-09")
                                    (rows (tbl_missions (st_store (fst out))))))
    /\ sp_completed_missions s = 0%Z
    /\ forall m, In m (rows (tbl_missions (st_store (fst out)))) ->
                 mi_sprint_id m = "sprint-09" -> mi_status m = "queued".
Proof.
  intros Hnone. cbv zeta. intros Hok s Hin Hid.
  destruct (seeder_success e w Hok) as (sp & mi & Hsp & Hmi & Hfresh & Hst).
  rewrite Hst in *. cbn [set_missions set_sprints tbl_sprints tbl_missions rows] in *.
  rewrite Hmi in Hnone. cbn [rows] in Hnone.
  assert (Hs : s = SeedSprint09.sprint_params SeedSprint09.sprint_data).
  { apply in_app_or in Hin as [Hin | [<- | []]]; [exfalso | reflexivity].
    assert (Hhas : has_sprint "sprint-09" sp = true); [| congruence].
    unfold has_sprint. apply existsb_exists. exists s. split; [exact Hin |].
    now apply String.eqb_eq. }
  assert (Hold : filter (fun m => String.eqb (mi_sprint_id m) "sprint-09") mi = []).
  { clear - Hnone. induction mi as [| m mi IH]; cbn [filter]; [reflexivity |].
    destruct (String.eqb (mi_sprint_id m) "sprint-09") eqn:Hm.
    - apply String.eqb_eq in Hm. now destruct (Hnone m (or_introl eq_refl)).
    - apply IH. intros m0 H0. apply Hnone. now right. }
  subst s. rewrite filter_app, Hold, seeded_rows_of_sprint. repeat split.
  intros m Hm Hmid. apply in_app_or in Hm as [Hm | Hm]; [now destruct (Hnone m Hm) |].
  clear - Hm. cbn in Hm. intuition (subst; reflexivity).
Qed.

Lemma seeded_counters_agree_witness :
  sp_total_missions (SeedSprint09.sprint_params SeedSprint09.sprint_data)
  = Z.of_nat (List.length
      (filter (fun m => String.eqb (mi_sprint_id m) "sprint-09")
              (rows (tbl_missions (st_store (fst (run SeedSprint09.main calm
                                                      (mkWorld empty_store None)))))))).
Proof.
  assert (Hnone : forall m, In m (rows (tbl_missions (store (mkWorld empty_store None)))) ->
                            mi_sprint_id m <> "sprint-09")
    by (intros m []).
  assert (Hok : snd (run SeedSprint09.main calm (mkWorld empty_store None)) = 0%Z)
    by (vm_compute; reflexivity).
  assert (Hin : In (SeedSprint09.sprint_params SeedSprint09.sprint_data)
                   (rows (tbl_sprints (st_store (fst (run SeedSprint09.main calm
                                                          (mkWorld empty_store None)))))))
    by (vm_compute; left; reflexivity).
  exact (proj1 (seeded_counters_agree calm (mkWorld empty_store None) Hnone Hok
                  (SeedSprint09.sprint_params SeedSprint09.sprint_data) Hin eq_refl)).
Defined.

(** ** What the scripts print *)

Section Output.

Variable e : env.

(** Whatever happens after the body has raised, the statement raises. *)
Lemma after_raise_raises (R : state * res unit -> Prop) (x : exn) (s1 : state) :
  (forall s' x', R (s', Raise x')) -> after_raise e R x s1.
Proof.
  intros HR. unfold after_raise. destruct x as [msg | code | name | msg]; unfold wp.
  - unfold on_sqlite_error, bind, print, sys_exit, raise.
    destruct (release_conn e _) as [s3 [[] | x3]]; apply HR.
  - destruct (release_conn e s1) as [s3 [[] | x3]]; apply HR.
  - destruct (release_conn e s1) as [s3 [[] | x3]]; apply HR.
  - destruct (release_conn e s1) as [s3 [[] | x3]]; apply HR.
Qed.

Lemma after_raise_unbound (R : state * res unit -> Prop) (msg : string) s1 :
  st_conn_bound s1 = false ->
  R (add_stdout (error_line msg) s1, Raise (UnboundLocalError "conn")) ->
  after_raise e R (SqliteError msg) s1.
Proof.
  intros Hb HR. unfold after_raise, wp, on_sqlite_error, bind, print, sys_exit, raise.
  now rewrite release_conn_unbound.
Qed.

Variable sd : SeedSprint09.sprint_dict.
Variable ms : list SeedSprint09.mission_dict.
Variable s : state.
Hypothesis Hunbound : st_conn_bound s = false.

Lemma seed_raise_in_body (msg : string) (c : connection) (s1 : state) :
  st_conn_bound s1 = true ->
  st_engine s1 = Some c ->
  st_stdout s1 = st_stdout s ->
  after_raise e (only_error_line s) (SqliteError msg) (log (EvError msg) (bump_ops s1)).
Proof.
  intros Hb He Hout. apply after_raise_bound with (c := c); trivial.
  intros _. exists msg. cbn [fst]. proj. rewrite Hout. split; [reflexivity |].
  apply in_or_app. left. apply in_or_app. right. now left.
Qed.

(** The seeder prints nothing before its commit. *)
Lemma seed_try_output : only_error_line s (SeedSprint09.seed_try sd ms e s).
Proof.
  unfold SeedSprint09.seed_try. apply wp_try.
  apply wp_bind, wp_connect; [intros msg Hf | intros _].
  { apply after_raise_unbound; [exact Hunbound |]. intros _. exists msg.
    cbn [fst]. proj. split; [reflexivity |]. apply in_or_app. right. now left. }
  apply wp_bind, wp_assign_conn.
  apply wp_bind, wp_cursor; [intros msg _ | intros _].
  { now apply seed_raise_in_body with (c := mkConnection (st_store s) false). }
  apply wp_bind, wp_execute with (d := st_store s); [reflexivity | intros msg _ |].
  { now apply seed_raise_in_body with (c := mkConnection (st_store s) false). }
  intros d1 rs _ _.
  apply wp_bind, wp_insert_missions with (d := d1); [reflexivity | |].
  { intros msg s2 [_ _ H3 H4 _] [d2 Hd2] _.
    apply seed_raise_in_body with (c := mkConnection d2 false); trivial. }
  intros d' s2 [_ _ H3 H4 _] Hd2 _.
  apply wp_bind, wp_commit with (d := d'); [exact Hd2 | intros msg _ | intros _].
  { apply seed_raise_in_body with (c := mkConnection d' false); trivial. }
  apply wp_bind, wp_print, wp_print. unfold after_return, wp.
  erewrite release_conn_bound by (proj; eassumption).
  intros H. now destruct H.
Qed.

End Output.

(** X12.  The seeder announces success only after its commit: a run that
    exits with status 0 has printed its two lines of success, the second
    with the number of missions, and nothing else; a run that does not
    has printed one line and nothing else, the words [❌ Database error: ]
    followed by the message of the error the engine raised. *)
Theorem seeder_output (e : env) (w : world) :
  let out := run SeedSprint09.main e w in
  (snd out = 0%Z ->
   st_stdout (fst out)
   = [ "✅ Successfully seeded Sprint sprint-09: CMOS Integration & Self-Containment";
       "✅ Inserted 8 missions" ])
  /\ (snd out <> 0%Z ->
      exists msg,
        st_stdout (fst out) = ["❌ Database error: " ++ msg]
        /\ In (EvError msg) (st_trace (fst out))).
Proof.
  cbv zeta. unfold run.
  pose proof (seeder_run_spec e w) as Hs.
  pose proof (seed_try_output e SeedSprint09.sprint_data SeedSprint09.missions (boot w) eq_refl)
    as Hout.
  unfold only_error_line in Hout. fold SeedSprint09.seed_sprint_09 in Hout.
  fold SeedSprint09.main in Hout.
  destruct (SeedSprint09.main e (boot w)) as [s' r]. cbn [fst snd] in *.
  inversion Hs as [d' c s1 Hst Hd Hfi Htr Hlines Hen Hcl | o Hfail]; subst.
  - split; [intros _ | intros H; now destruct H]. rewrite Hlines. reflexivity.
  - rewrite (db_failed_status _ _ _ _ _ Hfail).
    split; [discriminate | intros _].
    destruct Hout as (msg & Hline & Hin); [inversion Hfail; discriminate |].
    exists msg. split; [exact Hline | exact Hin].
Qed.

Lemma seeder_output_witness :
  st_stdout (fst (run SeedSprint09.main calm (mkWorld empty_store None)))
  = [ "✅ Successfully seeded Sprint sprint-09: CMOS Integration & Self-Containment";
      "✅ Inserted 8 missions" ]
  /\ exists msg,
      st_stdout (fst (run SeedSprint09.main unwritable (mkWorld empty_store None)))
      = ["❌ Database error: " ++ msg].
Proof.
  split.
  - apply (proj1 (seeder_output calm (mkWorld empty_store None))).
    vm_compute. reflexivity.
  - destruct (proj2 (seeder_output unwritable (mkWorld empty_store None))) as (msg & H & _).
    + vm_compute. discriminate.
    + now exists msg.
Defined.

Lemma st_stdout_print_all (lines : list string) :
  forall s, st_stdout (print_all lines s) = (st_stdout s ++ lines)%list.
Proof.
  unfold print_all. induction lines as [| l rest IH]; intros s; cbn [fold_left].
  - now rewrite app_nil_r.
  - rewrite IH. cbn [add_stdout st_stdout]. now rewrite <- app_assoc.
Qed.

(** The lines of a store phase that returns. *)
Lemma create_context_snapshot_output (e : env) (doc : Json.json) (s : state) :
  sync_lines s (UpdateMasterContext.create_context_snapshot doc e s).
Proof.
  unfold UpdateMasterContext.create_context_snapshot.
  assert (HF : forall s' x', sync_lines s (s', Raise x'))
    by (intros s' x' H; discriminate H).
  apply wp_try.
  apply wp_bind, wp_connect; [intros msg Hf; now apply after_raise_raises | intros _].
  apply wp_bind, wp_assign_conn.
  apply wp_bind, wp_cursor; [intros msg _; now apply after_raise_raises | intros _].
  apply wp_bind, wp_execute with (d := st_store s);
    [reflexivity | intros msg _; now apply after_raise_raises |].
  intros d' rs _ Hsel. apply exec_select_inv in Hsel as (cs & Hcs & -> & ->).
  cbv zeta. apply wp_bind.
  pose proof (fetchone_select "master_context" cs) as Hfetch.
  destruct (fetchone _) as [found |].
  - apply wp_bind, wp_now. apply wp_bind, wp_execute with (d := st_store s);
      [reflexivity | intros msg _; now apply after_raise_raises |].
    intros d1 rs1 _ _. apply wp_print. apply wp_bind, wp_now. apply wp_bind, wp_now.
    apply wp_bind; eapply wp_execute;
      [proj; reflexivity | intros msg _; now apply after_raise_raises |].
    intros d2 rs2 _ _.
    apply wp_bind; eapply wp_commit;
      [proj; reflexivity | intros msg _; now apply after_raise_raises | intros _].
    apply wp_print. unfold after_return, wp.
    erewrite release_conn_bound by (proj; reflexivity).
    intros _. exists cs. split; [exact Hcs |]. cbn [fst]. proj.
    unfold record_line. rewrite Hfetch. now rewrite <- app_assoc.
  - apply wp_bind, wp_now. apply wp_bind, wp_execute with (d := st_store s);
      [reflexivity | intros msg _; now apply after_raise_raises |].
    intros d1 rs1 _ _. apply wp_print. apply wp_bind, wp_now. apply wp_bind, wp_now.
    apply wp_bind; eapply wp_execute;
      [proj; reflexivity | intros msg _; now apply after_raise_raises |].
    intros d2 rs2 _ _.
    apply wp_bind; eapply wp_commit;
      [proj; reflexivity | intros msg _; now apply after_raise_raises | intros _].
    apply wp_print. unfold after_return, wp.
    erewrite release_conn_bound by (proj; reflexivity).
    intros _. exists cs. split; [exact Hcs |]. cbn [fst]. proj.
    unfold record_line. rewrite Hfetch. now rewrite <- app_assoc.
Qed.

(** X13.  The output of a successful run of the context updater tells
    which statement it made: after its three opening lines it says that
    the record was updated when a [master_context] row existed before the
    run and that it was created when none did, then that the snapshot was
    created, then its nine closing lines. *)
Theorem updater_output (e : env) (w : world) :
  let out := run UpdateMasterContext.main e w in
  snd out = 0%Z ->
  exists cs,
    tbl_contexts (store w) = Some cs
    /\ st_stdout (fst out)
       = (opening_lines
            ++ [ (if has_context "master_context" cs
                  then "✅ Updated existing master_context record"
                  else "✅ Created new master_context record");
                 "✅ Created context snapshot in SQLite" ]
            ++ closing_lines)%list.
Proof.
  cbv zeta. intros Hok.
  assert (Hw : write_fault e = None).
  { pose proof (updater_run_spec e w) as Hs.
    destruct (run UpdateMasterContext.main e w) as [s' x]. cbn [snd] in Hok. subst x.
    now inversion Hs. }
  revert Hok. unfold run. rewrite (update_main_write_ok e w Hw).
  pose proof (create_context_snapshot_output e UpdateMasterContext.context_data (after_write w))
    as Hout.
  unfold sync_lines in Hout.
  pose proof (create_context_snapshot_spec UpdateMasterContext.context_data e
                (after_write w) eq_refl) as Hs.
  destruct (UpdateMasterContext.create_context_snapshot _ e (after_write w)) as [s1 [[] | x]];
    cbn [fst snd exit_status] in *.
  - intros _. destruct (Hout eq_refl) as (cs & Hcs & Hlines). exists cs.
    split; [exact Hcs |]. rewrite st_stdout_print_all, Hlines.
    unfold record_line. now rewrite <- app_assoc.
  - intros Hx. exfalso. inversion Hs as [| o Hfail]; subst.
    change (exit_status (Raise x) = 0%Z) in Hx.
    rewrite (db_failed_status _ _ _ _ _ Hfail) in Hx. discriminate Hx.
Qed.

Lemma updater_output_witness :
  exists cs,
    tbl_contexts (store (mkWorld empty_store None)) = Some cs
    /\ st_stdout (fst (run UpdateMasterContext.main calm (mkWorld empty_store None)))
       = (opening_lines
            ++ [ (if has_context "master_context" cs
                  then "✅ Updated existing master_context record"
                  else "✅ Created new master_context record");
                 "✅ Created context snapshot in SQLite" ]
            ++ closing_lines)%list.
Proof.
  apply (updater_output calm (mkWorld empty_store None)).
  vm_compute. reflexivity.
Defined.
